(** * gocommerce: authentication and authorization core

    A shallow embedding of the Go services of the repository

    - [auth-service]  (credential store, [AuthService], gRPC [AuthHandler]),
    - [user-service]  (profile store, [UserService], gRPC [UserHandler]),
    - [api-gateway]   ([AuthMiddleware], HTTP [AuthHandler] and [UserHandler]),

    together with the properties their specification states.

    Conventions.  A Go [string] is a [string] of bytes.  A Go [(T, error)]
    result is a [Result T]; an [error] is represented by its [Error()] text.
    Stateful code is written in store-passing style: a database is a table
    of rows and every repository call returns the new table.  Values that Go
    draws from the environment (the clock, [uuid.New()], the bcrypt salt) are
    explicit arguments.  Third-party libraries (bcrypt, the JWT wire format,
    [encoding/json]) are interfaces ([Class]es) stating the contract the
    services rely on; module [Reference] instantiates them so that every
    definition can be evaluated. *)

From stdpp Require Import base option list strings gmap countable.
From Stdlib Require Import ZArith Lia Ascii String.

Local Open Scope Z_scope.

(** ** Go results and errors *)

Definition error := string.

Inductive Result (A : Type) : Type :=
| Ok (a : A)
| Err (e : error).
Arguments Ok {A} a.
Arguments Err {A} e.

Definition isOk {A} (r : Result A) : bool :=
  match r with Ok _ => true | Err _ => false end.

(** [errors.New] *)
Definition errors_New (msg : string) : error := msg.

(** ** The [strings] package, on byte strings *)

Definition byte_of (c : ascii) : N := N_of_ascii c.

Fixpoint HasPrefix (s prefix : string) : bool :=
  match prefix, s with
  | EmptyString, _ => true
  | String p prefix', String c s' => Ascii.eqb c p && HasPrefix s' prefix'
  | String _ _, EmptyString => false
  end.

Fixpoint drop_bytes (n : nat) (s : string) : string :=
  match n, s with
  | O, _ => s
  | S n', String _ s' => drop_bytes n' s'
  | S _, EmptyString => EmptyString
  end.

Definition TrimPrefix (s prefix : string) : string :=
  if HasPrefix s prefix then drop_bytes (String.length prefix) s else s.

(** [asciiSpace] of package [strings]: tab, LF, VT, FF, CR and space. *)
Definition asciiSpace (c : ascii) : bool :=
  let n := byte_of c in
  (n =? 9)%N || (n =? 10)%N || (n =? 11)%N || (n =? 12)%N || (n =? 13)%N
  || (n =? 32)%N.

Definition bytes (l : list N) : string :=
  string_of_list_ascii (map ascii_of_N l).

(** The UTF-8 encodings of the non-ASCII runes for which [unicode.IsSpace]
    holds: U+0085, U+00A0, U+1680, U+2000..U+200A, U+2028, U+2029, U+202F,
    U+205F and U+3000. *)
Definition spaceRunes : list string :=
  map bytes
    [ [194; 133]; [194; 160]; [225; 154; 128];
      [226; 128; 128]; [226; 128; 129]; [226; 128; 130]; [226; 128; 131];
      [226; 128; 132]; [226; 128; 133]; [226; 128; 134]; [226; 128; 135];
      [226; 128; 136]; [226; 128; 137]; [226; 128; 138];
      [226; 128; 168]; [226; 128; 169]; [226; 128; 175];
      [226; 129; 159]; [227; 128; 128] ]%N.

(** One white-space rune at the front of [s], if any: what is left. *)
Definition leadingSpace (s : string) : option string :=
  match s with
  | EmptyString => None
  | String c s' =>
      if asciiSpace c then Some s'
      else (fun r => drop_bytes (String.length r) s)
             <$> List.find (HasPrefix s) spaceRunes
  end.

Fixpoint trimLeftGo (fuel : nat) (s : string) : string :=
  match fuel with
  | O => s
  | S fuel' =>
      match leadingSpace s with
      | Some s' => trimLeftGo fuel' s'
      | None => s
      end
  end.

Definition TrimLeftSpace (s : string) : string :=
  trimLeftGo (String.length s) s.

(** Trimming on the right is trimming the reversed string on the left, with
    the byte sequences of the runes reversed as well. *)
Definition trailingSpace (r : string) : option string :=
  match r with
  | EmptyString => None
  | String c r' =>
      if asciiSpace c then Some r'
      else (fun x => drop_bytes (String.length x) r)
             <$> List.find (HasPrefix r) (map String.rev spaceRunes)
  end.

Fixpoint trimRightGo (fuel : nat) (r : string) : string :=
  match fuel with
  | O => r
  | S fuel' =>
      match trailingSpace r with
      | Some r' => trimRightGo fuel' r'
      | None => r
      end
  end.

Definition TrimRightSpace (s : string) : string :=
  String.rev (trimRightGo (String.length s) (String.rev s)).

(** [strings.TrimSpace]: all leading and trailing white space removed, as
    defined by Unicode. *)
Definition TrimSpace (s : string) : string :=
  TrimRightSpace (TrimLeftSpace s).

(** [strings.Split s "."]: the pieces between the dots, [n+1] of them for [n]
    dots. *)
Fixpoint SplitDot (s : string) : list string :=
  match s with
  | EmptyString => [EmptyString]
  | String c s' =>
      if Ascii.eqb c "."%char then EmptyString :: SplitDot s'
      else
        match SplitDot s' with
        | piece :: pieces => String c piece :: pieces
        | [] => [String c EmptyString]
        end
  end.

Fixpoint noDot (s : string) : bool :=
  match s with
  | EmptyString => true
  | String c s' => negb (Ascii.eqb c "."%char) && noDot s'
  end.

(** ** Third-party libraries, by contract *)

(** *** golang.org/x/crypto/bcrypt

    [GenerateFromPassword password cost salt] may fail (a password longer
    than the algorithm accepts); the salt is the randomness it draws.
    [CompareHashAndPassword hash password] returns [nil] exactly when the
    password matches the hash. *)
Class Bcrypt := {
  GenerateFromPassword : string -> Z -> string -> Result string;
  CompareHashAndPassword : string -> string -> Result unit;
  bcrypt_generate_compare : forall password cost salt hashed,
    GenerateFromPassword password cost salt = Ok hashed ->
    CompareHashAndPassword hashed password = Ok tt
}.

Definition DefaultCost : Z := 10.

(** *** JSON values, as [encoding/json] decodes them into [interface{}]

    Numbers are whole seconds in every use this program makes of them. *)
Inductive value : Type :=
| VString (s : string)
| VNumber (n : Z)
| VBool (b : bool)
| VNull.

#[global] Instance value_eq_dec : EqDecision value.
Proof. solve_decision. Defined.

(** *** [encoding/json] on the request and response structs

    [Unmarshal] is [json.Unmarshal] into a struct of type [T] ([None] when
    it returns an error); [Marshal] is the text [json.Encoder] writes. *)
Class JSONUnmarshal (T : Type) := Unmarshal : string -> option T.
Class JSONMarshal (T : Type) := Marshal : T -> string.
#[global] Hint Mode JSONUnmarshal ! : typeclass_instances.
#[global] Hint Mode JSONMarshal ! : typeclass_instances.

(** *** github.com/golang-jwt/jwt/v5 *)
Module jwt.

Abbreviation MapClaims := (gmap string value).

Inductive Hash := SHA256 | SHA384 | SHA512.

(** The registered signing methods: the HMAC family, and the others
    (RSA, ECDSA, RSA-PSS, EdDSA, none), which do not take a byte key. *)
Inductive SigningMethod :=
| SigningMethodHMAC (h : Hash)
| SigningMethodOther (alg : string).

Definition SigningMethodHS256 := SigningMethodHMAC SHA256.

Definition Alg (m : SigningMethod) : string :=
  match m with
  | SigningMethodHMAC SHA256 => "HS256"
  | SigningMethodHMAC SHA384 => "HS384"
  | SigningMethodHMAC SHA512 => "HS512"
  | SigningMethodOther a => a
  end.

Definition otherAlgs : list string :=
  ["RS256"; "RS384"; "RS512"; "ES256"; "ES384"; "ES512";
   "PS256"; "PS384"; "PS512"; "EdDSA"; "none"].

Definition GetSigningMethod (alg : string) : option SigningMethod :=
  if String.eqb alg "HS256" then Some (SigningMethodHMAC SHA256)
  else if String.eqb alg "HS384" then Some (SigningMethodHMAC SHA384)
  else if String.eqb alg "HS512" then Some (SigningMethodHMAC SHA512)
  else if bool_decide (alg ∈ otherAlgs) then Some (SigningMethodOther alg)
  else None.

(** The wire format: a segment is the unpadded base64url text of some
    bytes; header and claims are JSON objects.  [HMAC h key msg] is the
    tag of [msg]. *)
Class Wire := {
  EncodeSegment : string -> string;
  DecodeSegment : string -> option string;
  MarshalObject : gmap string value -> string;
  UnmarshalObject : string -> option (gmap string value);
  HMAC : Hash -> string -> string -> string;
  decode_encode_segment : forall b, DecodeSegment (EncodeSegment b) = Some b;
  encode_segment_noDot : forall b, noDot (EncodeSegment b) = true;
  unmarshal_marshal_object : forall m,
    UnmarshalObject (MarshalObject m) = Some m
}.

Record Token := {
  Raw : string;
  Method : SigningMethod;
  Header : gmap string value;
  Claims : MapClaims;
  Signature : string;
  Valid : bool
}.

Definition ErrTokenMalformed : error := "token is malformed".
Definition ErrTokenUnverifiable : error := "token is unverifiable".
Definition ErrTokenSignatureInvalid : error := "token signature is invalid".
Definition ErrTokenInvalidClaims : error := "token has invalid claims".
Definition ErrInvalidKeyType : error := "key is of invalid type".

Section WithWire.
Context `{Wire}.

(** [NewWithClaims] *)
Definition NewWithClaims (method : SigningMethod) (claims : MapClaims)
  : Token :=
  {| Raw := ""; Method := method;
     Header := {[ "typ" := VString "JWT"; "alg" := VString (Alg method) ]};
     Claims := claims; Signature := ""; Valid := false |}.

(** [Token.SigningString] *)
Definition SigningString (t : Token) : string :=
  EncodeSegment (MarshalObject (Header t)) +:+ "." +:+
  EncodeSegment (MarshalObject (Claims t)).

(** [SigningMethod.Sign] with a [[]byte] key *)
Definition Sign (m : SigningMethod) (signingString key : string)
  : Result string :=
  match m with
  | SigningMethodHMAC h => Ok (HMAC h key signingString)
  | SigningMethodOther _ => Err ErrInvalidKeyType
  end.

(** [SigningMethod.Verify] with a [[]byte] key *)
Definition Verify (m : SigningMethod) (signingString sig key : string)
  : Result unit :=
  match m with
  | SigningMethodHMAC h =>
      if String.eqb sig (HMAC h key signingString) then Ok tt
      else Err "signature is invalid"
  | SigningMethodOther _ => Err ErrInvalidKeyType
  end.

(** [Token.SignedString] *)
Definition SignedString (t : Token) (key : string) : Result string :=
  let sstr := SigningString t in
  match Sign (Method t) sstr key with
  | Err e => Err e
  | Ok sig => Ok (sstr +:+ "." +:+ EncodeSegment sig)
  end.

(** A registered date claim of a [MapClaims]: absent, a number, or of a
    type that is not a date. *)
Definition parseNumericDate (m : MapClaims) (key : string)
  : Result (option Z) :=
  match m !! key with
  | None => Ok None
  | Some (VNumber n) => Ok (Some n)
  | Some _ => Err (key +:+ " is invalid")
  end.

(** [Validator.Validate] with the default options: [exp] and [nbf] are
    checked when present, against the clock [now] (Unix seconds). *)
Definition Validate (claims : MapClaims) (now : Z) : Result unit :=
  match parseNumericDate claims "exp" with
  | Err e => Err e
  | Ok exp =>
      if match exp with Some e => bool_decide (now < e) | None => true end
      then
        match parseNumericDate claims "nbf" with
        | Err e => Err e
        | Ok nbf =>
            if match nbf with
               | Some n => bool_decide (n <= now)
               | None => true
               end
            then Ok tt
            else Err "token is not valid yet"
        end
      else Err "token is expired"
  end.

(** [Parser.ParseUnverified]: split, decode header and claims, look the
    signing method up. *)
Definition ParseUnverified (tokenString : string)
  : Result (Token * list string) :=
  match SplitDot tokenString with
  | [p0; p1; p2] =>
      match DecodeSegment p0 ≫= UnmarshalObject with
      | None => Err ErrTokenMalformed
      | Some header =>
          match DecodeSegment p1 ≫= UnmarshalObject with
          | None => Err ErrTokenMalformed
          | Some claims =>
              match header !! "alg" with
              | Some (VString alg) =>
                  match GetSigningMethod alg with
                  | None => Err ErrTokenUnverifiable
                  | Some method =>
                      Ok ({| Raw := tokenString; Method := method;
                             Header := header; Claims := claims;
                             Signature := ""; Valid := false |},
                          [p0; p1; p2])
                  end
              | _ => Err ErrTokenUnverifiable
              end
          end
      end
  | _ => Err ErrTokenMalformed
  end.

(** [jwt.Parse tokenString keyFunc], read at time [now]. *)
Definition Parse (now : Z) (tokenString : string)
    (keyFunc : Token -> Result string) : Result Token :=
  match ParseUnverified tokenString with
  | Err e => Err e
  | Ok (token, parts) =>
      match DecodeSegment (nth 2 parts "") with
      | None => Err ErrTokenMalformed
      | Some sig =>
          let text := nth 0 parts "" +:+ "." +:+ nth 1 parts "" in
          match keyFunc token with
          | Err _ => Err ErrTokenUnverifiable
          | Ok key =>
              match Verify (Method token) text sig key with
              | Err _ => Err ErrTokenSignatureInvalid
              | Ok _ =>
                  match Validate (Claims token) now with
                  | Err e => Err (ErrTokenInvalidClaims +:+ ": " +:+ e)
                  | Ok _ =>
                      Ok {| Raw := Raw token; Method := Method token;
                            Header := Header token;
                            Claims := Claims token;
                            Signature := sig; Valid := true |}
                  end
              end
          end
      end
  end.
End WithWire.
End jwt.

(** ** Time

    A [time.Time] is its Unix time in seconds; the zero [time.Time] is
    January 1, year 1. *)
Definition zeroTime : Z := -62135596800.
Definition Hour : Z := 3600.

(** ** gRPC transport

    A client stub either cannot reach the server ([Some e]: the call fails
    with [e] and the server does not run), or runs the server method; an
    [error] returned by the server method reaches the client as a status
    error of code [Unknown]. *)
Definition rpcError (e : error) : error :=
  "rpc error: code = Unknown desc = " +:+ e.

Definition invoke {S Req Resp : Type} (link : option error)
    (method : S -> Req -> S * Result Resp) (s : S) (req : Req)
  : S * Result Resp :=
  match link with
  | Some e => (s, Err e)
  | None =>
      let '(s', r) := method s req in
      (s', match r with Ok resp => Ok resp | Err e => Err (rpcError e) end)
  end.

(** The values a service draws from its environment while it serves one
    request: [uuid.New()], the bcrypt salt and the clock. *)
Record Env := { uuid : string; salt : string; now : Z }.

(** ** user-service *)
Module user_service.

(** *** internal/models *)
Module models.

Record User := {
  ID : string;
  Email : string;
  Name : string;
  Phone : string;
  CreatedAt : Z;
  UpdatedAt : Z;
  DeletedAt : option Z
}.

Record Address := {
  AddressID : string;
  UserID : string;
  Street : string;
  City : string;
  State : string;
  PostalCode : string;
  Country : string;
  IsDefault : bool;
  AddressCreatedAt : Z
}.

End models.

(** *** internal/repository

    The profile database: table [users] ([id] primary key, [email] unique,
    [deleted_at] null until the soft delete) and table [addresses]. *)
Module repository.
Import models.

Record DB := {
  users : list User;
  addresses : list Address;
  down : option error
}.

Definition hasID (id : string) (u : User) : bool := String.eqb (ID u) id.
Definition hasEmail (email : string) (u : User) : bool :=
  String.eqb (Email u) email.
Definition live (u : User) : bool :=
  match DeletedAt u with None => true | Some _ => false end.

Definition withUsers (db : DB) (us : list User) : DB :=
  {| users := us; addresses := addresses db; down := down db |}.

(** [INSERT INTO users (id, email, name, phone, created_at, updated_at)] *)
Definition insertUser (db : DB) (u : User) : DB * Result unit :=
  match down db with
  | Some e => (db, Err e)
  | None =>
      if existsb (hasID (ID u)) (users db) then
        (db, Err "pq: duplicate key value violates unique constraint users_pkey")
      else if existsb (hasEmail (Email u)) (users db) then
        (db, Err "pq: duplicate key value violates unique constraint users_email_key")
      else
        (withUsers db
           (users db ++
            [{| ID := ID u; Email := Email u; Name := Name u; Phone := Phone u;
                CreatedAt := CreatedAt u; UpdatedAt := UpdatedAt u;
                DeletedAt := None |}]),
         Ok tt)
  end.

Definition CreateUser (newID : string) (now : Z) (db : DB) (user : User)
  : DB * User * Result unit :=
  let user' := {| ID := if String.eqb (ID user) "" then newID else ID user;
                  Email := Email user; Name := Name user; Phone := Phone user;
                  CreatedAt := now; UpdatedAt := now;
                  DeletedAt := DeletedAt user |} in
  let '(db', err) := insertUser db user' in
  (db', user', err).

(** [SELECT ... WHERE id = $1 AND deleted_at IS NULL] *)
Definition GetUserByID (db : DB) (userID : string) : Result (option User) :=
  match down db with
  | Some e => Err e
  | None => Ok (List.find (fun u => hasID userID u && live u) (users db))
  end.

(** [UPDATE users SET name = $1, phone = $2, updated_at = $3 WHERE id = $4] *)
Definition updateRow (user : User) (row : User) : User :=
  if hasID (ID user) row then
    {| ID := ID row; Email := Email row; Name := Name user;
       Phone := Phone user; CreatedAt := CreatedAt row;
       UpdatedAt := UpdatedAt user; DeletedAt := DeletedAt row |}
  else row.

Definition UpdateUser (now : Z) (db : DB) (user : User)
  : DB * User * Result unit :=
  let user' := {| ID := ID user; Email := Email user; Name := Name user;
                  Phone := Phone user; CreatedAt := CreatedAt user;
                  UpdatedAt := now; DeletedAt := DeletedAt user |} in
  match down db with
  | Some e => (db, user', Err e)
  | None => (withUsers db (map (updateRow user') (users db)), user', Ok tt)
  end.

(** [SELECT ... FROM addresses WHERE user_id = $1] *)
Definition GetAddressesByUserID (db : DB) (userID : string)
  : Result (list Address) :=
  match down db with
  | Some e => Err e
  | None => Ok (filter (fun a => UserID a = userID) (addresses db))
  end.

(** [UPDATE users SET deleted_at = $1 WHERE id = $2] *)
Definition deleteRow (deleted_at : Z) (userID : string) (row : User) : User :=
  if hasID userID row then
    {| ID := ID row; Email := Email row; Name := Name row;
       Phone := Phone row; CreatedAt := CreatedAt row;
       UpdatedAt := UpdatedAt row; DeletedAt := Some deleted_at |}
  else row.

(** [DeleteUser] performs a soft delete. *)
Definition DeleteUser (now : Z) (db : DB) (userID : string)
  : DB * Result unit :=
  match down db with
  | Some e => (db, Err e)
  | None => (withUsers db (map (deleteRow now userID) (users db)), Ok tt)
  end.

(** [INSERT INTO addresses ...]: [id] is the primary key and [user_id]
    references [users(id)]. *)
Definition insertAddress (db : DB) (a : Address) : DB * Result unit :=
  match down db with
  | Some e => (db, Err e)
  | None =>
      if existsb (fun x => String.eqb (AddressID x) (AddressID a))
           (addresses db) then
        (db, Err "pq: duplicate key value violates unique constraint addresses_pkey")
      else if negb (existsb (hasID (UserID a)) (users db)) then
        (db, Err "pq: insert or update on table addresses violates foreign key constraint addresses_user_id_fkey")
      else
        ({| users := users db; addresses := addresses db ++ [a];
            down := down db |}, Ok tt)
  end.

Definition AddAddress (newID : string) (now : Z) (db : DB)
    (address : Address) : DB * Address * Result unit :=
  let address' :=
    {| AddressID := if String.eqb (AddressID address) "" then newID
                    else AddressID address;
       UserID := UserID address; Street := Street address;
       City := City address; State := State address;
       PostalCode := PostalCode address; Country := Country address;
       IsDefault := IsDefault address; AddressCreatedAt := now |} in
  let '(db', err) := insertAddress db address' in
  (db', address', err).

End repository.

(** *** internal/service *)
Module service.
Import models repository.

Definition CreateUser (newID : string) (now : Z) (db : DB)
    (userID email name phone : string) : DB * Result User :=
  if String.eqb email "" then (db, Err (errors_New "email is required"))
  else if String.eqb name "" then (db, Err (errors_New "name is required"))
  else
    let user := {| ID := userID; Email := email; Name := name; Phone := phone;
                   CreatedAt := zeroTime; UpdatedAt := zeroTime;
                   DeletedAt := None |} in
    let '(db', user', err) := repository.CreateUser newID now db user in
    match err with
    | Err e => (db', Err e)
    | Ok _ => (db', Ok user')
    end.

Definition GetUser (db : DB) (userID : string) : Result User :=
  if String.eqb userID "" then Err (errors_New "user ID is required")
  else
    match GetUserByID db userID with
    | Err e => Err e
    | Ok None => Err (errors_New "user not found")
    | Ok (Some user) => Ok user
    end.

Definition UpdateUser (now : Z) (db : DB) (userID name phone : string)
  : DB * Result User :=
  if String.eqb userID "" then (db, Err (errors_New "user ID is required"))
  else
    match GetUserByID db userID with
    | Err e => (db, Err e)
    | Ok None => (db, Err (errors_New "user not found"))
    | Ok (Some user) =>
        let user1 := {| ID := ID user; Email := Email user; Name := name;
                        Phone := phone; CreatedAt := CreatedAt user;
                        UpdatedAt := UpdatedAt user;
                        DeletedAt := DeletedAt user |} in
        let '(db', user2, err_update) := repository.UpdateUser now db user1 in
        match err_update with
        | Err e => (db', Err e)
        | Ok _ => (db', Ok user2)
        end
    end.

Definition GetAddresses (db : DB) (userID : string) : Result (list Address) :=
  if String.eqb userID "" then Err (errors_New "user ID is required")
  else GetAddressesByUserID db userID.

(** [DeleteUser] soft deletes a user. *)
Definition DeleteUser (now : Z) (db : DB) (userID : string)
  : DB * Result unit :=
  if String.eqb userID "" then (db, Err (errors_New "user ID is required"))
  else repository.DeleteUser now db userID.

(** [AddAddress] adds a new address for a user. *)
Definition AddAddress (newID : string) (now : Z) (db : DB)
    (userID street city state postalCode country : string) (isDefault : bool)
  : DB * Result Address :=
  if String.eqb userID "" then (db, Err (errors_New "user ID is required"))
  else if String.eqb street "" || String.eqb city ""
          || String.eqb postalCode "" || String.eqb country "" then
    (db, Err (errors_New
                "street, city, postal code, and country are required"))
  else
    let address := {| AddressID := ""; UserID := userID; Street := street;
                      City := city; State := state;
                      PostalCode := postalCode; Country := country;
                      IsDefault := isDefault;
                      AddressCreatedAt := zeroTime |} in
    let '(db', address', err) := repository.AddAddress newID now db address in
    match err with
    | Err e => (db', Err e)
    | Ok _ => (db', Ok address')
    end.

End service.

(** *** proto/user messages *)
Module pb.

Record Address := {
  AddrId : string; AddrUserId : string; Street : string; City : string;
  State : string; PostalCode : string; Country : string; IsDefault : bool;
  AddrCreatedAt : Z
}.

Record User := {
  Id : string; Email : string; Name : string; Phone : string;
  CreatedAt : Z; UpdatedAt : Z; Addresses : list Address
}.

Record CreateUserRequest := {
  cu_UserId : string; cu_Email : string; cu_Name : string; cu_Phone : string
}.
Record CreateUserResponse := { cu_User : option User; cu_Error : string }.

Record GetUserRequest := { gu_UserId : string }.
Record GetUserResponse := { gu_User : option User; gu_Error : string }.

Record UpdateUserRequest := {
  uu_UserId : string; uu_Name : string; uu_Phone : string
}.
Record UpdateUserResponse := { uu_User : option User; uu_Error : string }.

Record DeleteUserRequest := { du_UserId : string }.
Record DeleteUserResponse := { du_IsDeleted : bool; du_Error : string }.

Record AddAddressRequest := {
  aa_UserId : string; aa_Street : string; aa_City : string;
  aa_State : string; aa_PostalCode : string; aa_Country : string;
  aa_IsDefault : bool
}.
Record AddAddressResponse := { aa_Address : option Address; aa_Error : string }.

Record GetAddressesRequest := { ga_UserId : string }.
Record GetAddressesResponse := {
  ga_Addresses : list Address; ga_Error : string
}.

End pb.

(** *** internal/handlers: the gRPC server *)
Module handlers.
Import repository.

Definition pbAddress (addr : models.Address) : pb.Address :=
  {| pb.AddrId := models.AddressID addr; pb.AddrUserId := models.UserID addr;
     pb.Street := models.Street addr; pb.City := models.City addr;
     pb.State := models.State addr; pb.PostalCode := models.PostalCode addr;
     pb.Country := models.Country addr; pb.IsDefault := models.IsDefault addr;
     pb.AddrCreatedAt := models.AddressCreatedAt addr |}.

Definition pbUser (user : models.User) (addrs : list pb.Address) : pb.User :=
  {| pb.Id := models.ID user; pb.Email := models.Email user;
     pb.Name := models.Name user; pb.Phone := models.Phone user;
     pb.CreatedAt := models.CreatedAt user;
     pb.UpdatedAt := models.UpdatedAt user; pb.Addresses := addrs |}.

(** The addresses of a user, [nil] when the service call fails
    ([addresses, _ := h.service.GetAddresses(req.UserId)]). *)
Definition addressesOrNil (db : DB) (userID : string) : list pb.Address :=
  match service.GetAddresses db userID with
  | Ok addresses => map pbAddress addresses
  | Err _ => []
  end.

Definition CreateUser (newID : string) (now : Z) (db : DB)
    (req : pb.CreateUserRequest) : DB * Result pb.CreateUserResponse :=
  let '(db', r) := service.CreateUser newID now db (pb.cu_UserId req)
                     (pb.cu_Email req) (pb.cu_Name req) (pb.cu_Phone req) in
  match r with
  | Err e => (db', Ok {| pb.cu_User := None; pb.cu_Error := e |})
  | Ok user =>
      (db', Ok {| pb.cu_User := Some (pbUser user []); pb.cu_Error := "" |})
  end.

Definition GetUser (db : DB) (req : pb.GetUserRequest)
  : DB * Result pb.GetUserResponse :=
  match service.GetUser db (pb.gu_UserId req) with
  | Err e => (db, Ok {| pb.gu_User := None; pb.gu_Error := e |})
  | Ok user =>
      (db, Ok {| pb.gu_User :=
                   Some (pbUser user (addressesOrNil db (pb.gu_UserId req)));
                 pb.gu_Error := "" |})
  end.

Definition UpdateUser (now : Z) (db : DB) (req : pb.UpdateUserRequest)
  : DB * Result pb.UpdateUserResponse :=
  let '(db', r) := service.UpdateUser now db (pb.uu_UserId req)
                     (pb.uu_Name req) (pb.uu_Phone req) in
  match r with
  | Err e => (db', Ok {| pb.uu_User := None; pb.uu_Error := e |})
  | Ok user =>
      (db', Ok {| pb.uu_User :=
                    Some (pbUser user (addressesOrNil db' (pb.uu_UserId req)));
                  pb.uu_Error := "" |})
  end.

Definition DeleteUser (now : Z) (db : DB) (req : pb.DeleteUserRequest)
  : DB * Result pb.DeleteUserResponse :=
  let '(db', err) := service.DeleteUser now db (pb.du_UserId req) in
  match err with
  | Err e => (db', Ok {| pb.du_IsDeleted := false; pb.du_Error := e |})
  | Ok _ => (db', Ok {| pb.du_IsDeleted := true; pb.du_Error := "" |})
  end.

Definition AddAddress (newID : string) (now : Z) (db : DB)
    (req : pb.AddAddressRequest) : DB * Result pb.AddAddressResponse :=
  let '(db', r) :=
    service.AddAddress newID now db (pb.aa_UserId req) (pb.aa_Street req)
      (pb.aa_City req) (pb.aa_State req) (pb.aa_PostalCode req)
      (pb.aa_Country req) (pb.aa_IsDefault req) in
  match r with
  | Err e => (db', Ok {| pb.aa_Address := None; pb.aa_Error := e |})
  | Ok address =>
      (db', Ok {| pb.aa_Address := Some (pbAddress address);
                  pb.aa_Error := "" |})
  end.

Definition GetAddresses (db : DB) (req : pb.GetAddressesRequest)
  : DB * Result pb.GetAddressesResponse :=
  match service.GetAddresses db (pb.ga_UserId req) with
  | Err e => (db, Ok {| pb.ga_Addresses := []; pb.ga_Error := e |})
  | Ok addresses =>
      (db, Ok {| pb.ga_Addresses := map pbAddress addresses;
                 pb.ga_Error := "" |})
  end.

End handlers.
End user_service.

(** ** auth-service *)
Module auth_service.

(** *** internal/models *)
Module models.

Record User := {
  ID : string;
  Email : string;
  Password : string;
  Name : string;
  CreatedAt : Z;
  LastLogin : Z
}.

End models.

(** *** internal/repository

    The [users] table of the credential database: [id] is the primary key
    and [email] is unique.  [down = Some e] is a database that cannot be
    reached: every statement fails with [e]. *)
Module repository.
Import models.

Record DB := {
  users : list User;
  down : option error
}.

Definition hasID (id : string) (u : User) : bool := String.eqb (ID u) id.
Definition hasEmail (email : string) (u : User) : bool :=
  String.eqb (Email u) email.

(** [INSERT INTO users ...] *)
Definition insertUser (db : DB) (u : User) : DB * Result unit :=
  match down db with
  | Some e => (db, Err e)
  | None =>
      if existsb (hasID (ID u)) (users db) then
        (db, Err "pq: duplicate key value violates unique constraint users_pkey")
      else if existsb (hasEmail (Email u)) (users db) then
        (db, Err "pq: duplicate key value violates unique constraint users_email_key")
      else ({| users := users db ++ [u]; down := down db |}, Ok tt)
  end.

(** [CreateUser] writes the generated id and the creation time into the
    struct it is given, then inserts the row. *)
Definition CreateUser (newID : string) (now : Z) (db : DB) (user : User)
  : DB * User * Result unit :=
  let user' := {| ID := newID; Email := Email user; Password := Password user;
                  Name := Name user; CreatedAt := now;
                  LastLogin := LastLogin user |} in
  let '(db', err) := insertUser db user' in
  (db', user', err).

(** [GetUserByEmail]: [Ok None] is Go's [(nil, nil)]. *)
Definition GetUserByEmail (db : DB) (email : string) : Result (option User) :=
  match down db with
  | Some e => Err e
  | None => Ok (List.find (hasEmail email) (users db))
  end.

Definition GetUserByID (db : DB) (id : string) : Result (option User) :=
  match down db with
  | Some e => Err e
  | None => Ok (List.find (hasID id) (users db))
  end.

End repository.

(** *** internal/service *)
Module service.
Import models repository.

Record AuthService := { jwtSecret : string }.

Section WithLibraries.
Context `{Bcrypt} `{jwt.Wire}.

(** [Register]; [newID], [salt] and [now] are what [uuid.New], the bcrypt
    salt generator and the clock give during the call. *)
Definition Register (s : AuthService) (newID salt : string) (now : Z)
    (db : DB) (email password name : string) : DB * Result string :=
  match GetUserByEmail db email with
  | Err e => (db, Err e)
  | Ok (Some _) => (db, Err (errors_New "email already registered"))
  | Ok None =>
      match GenerateFromPassword password DefaultCost salt with
      | Err e => (db, Err e)
      | Ok hashedPassword =>
          let newUser := {| ID := ""; Email := email;
                            Password := hashedPassword; Name := name;
                            CreatedAt := zeroTime; LastLogin := zeroTime |} in
          let '(db', newUser', err) := CreateUser newID now db newUser in
          match err with
          | Err e => (db', Err e)
          | Ok _ => (db', Ok (ID newUser'))
          end
      end
  end.

(** [Login] *)
Definition Login (s : AuthService) (now : Z) (db : DB)
    (email password : string) : Result string :=
  match GetUserByEmail db email with
  | Err _ | Ok None => Err (errors_New "invalid credentials")
  | Ok (Some user) =>
      match CompareHashAndPassword (Password user) password with
      | Err _ => Err (errors_New "invalid credentials")
      | Ok _ =>
          let claims : jwt.MapClaims :=
            {[ "user_id" := VString (ID user);
               "exp" := VNumber (now + 24 * Hour) ]} in
          let token := jwt.NewWithClaims jwt.SigningMethodHS256 claims in
          match jwt.SignedString token (jwtSecret s) with
          | Err e => Err e
          | Ok tokenString => Ok tokenString
          end
      end
  end.

(** [ValidateToken] *)
Definition ValidateToken (s : AuthService) (now : Z) (tokenString : string)
  : Result string :=
  match jwt.Parse now tokenString (fun _ => Ok (jwtSecret s)) with
  | Err e => Err e
  | Ok token =>
      if negb (jwt.Valid token) then Err (errors_New "Invalid token")
      else
        match jwt.Claims token !! "user_id" with
        | Some (VString userIDStr) => Ok userIDStr
        | _ => Err (errors_New "Invalid token claims")
        end
  end.

End WithLibraries.
End service.

(** *** proto/auth messages *)
Module pb.

Record RegisterRequest := {
  rr_Email : string; rr_Password : string; rr_Name : string
}.
Record RegisterResponse := { rr_UserId : string; rr_Message : string }.

Record LoginRequest := { lr_Email : string; lr_Password : string }.
Record LoginResponse := {
  lr_Token : string; lr_UserId : string; lr_Name : string
}.

Record ValidateTokenRequest := { vt_Token : string }.
Record ValidateTokenResponse := {
  vt_Valid : bool; vt_UserId : string; vt_Error : string
}.

End pb.

(** *** internal/handlers: the gRPC server

    The state a request works on is the credential database and, behind the
    [userClient] stub, the profile database of the user service. *)
Module handlers.
Import service.

Record State := {
  authDB : repository.DB;
  userDB : user_service.repository.DB
}.

Record AuthHandler := {
  authService : AuthService;
  userClient : option error
}.

Section WithLibraries.
Context `{Bcrypt} `{jwt.Wire}.

(** [Register]: [env] is the environment of the auth service during the
    call and [uenv] that of the user service. *)
Definition Register (h : AuthHandler) (env uenv : Env) (st : State)
    (req : pb.RegisterRequest) : State * Result pb.RegisterResponse :=
  let '(adb, r) :=
    service.Register (authService h) (uuid env) (salt env) (now env)
      (authDB st) (pb.rr_Email req) (pb.rr_Password req) (pb.rr_Name req) in
  match r with
  | Err e => ({| authDB := adb; userDB := userDB st |}, Err e)
  | Ok userID =>
      let '(udb, r2) :=
        invoke (userClient h)
          (user_service.handlers.CreateUser (uuid uenv) (now uenv))
          (userDB st)
          {| user_service.pb.cu_UserId := userID;
             user_service.pb.cu_Email := pb.rr_Email req;
             user_service.pb.cu_Name := pb.rr_Name req;
             user_service.pb.cu_Phone := "" |} in
      let st' := {| authDB := adb; userDB := udb |} in
      match r2 with
      | Err e => (st', Err e)
      | Ok createUserResp =>
          if negb (String.eqb (user_service.pb.cu_Error createUserResp) "")
          then (st', Err (errors_New (user_service.pb.cu_Error createUserResp)))
          else (st', Ok {| pb.rr_UserId := userID;
                           pb.rr_Message := "User registered successfully" |})
      end
  end.

Definition Login (h : AuthHandler) (env : Env) (st : State)
    (req : pb.LoginRequest) : State * Result pb.LoginResponse :=
  match service.Login (authService h) (now env) (authDB st)
          (pb.lr_Email req) (pb.lr_Password req) with
  | Err e => (st, Err e)
  | Ok token =>
      (st, Ok {| pb.lr_Token := token; pb.lr_UserId := ""; pb.lr_Name := "" |})
  end.

Definition ValidateToken (h : AuthHandler) (env : Env) (st : State)
    (req : pb.ValidateTokenRequest) : State * Result pb.ValidateTokenResponse :=
  match service.ValidateToken (authService h) (now env) (pb.vt_Token req) with
  | Err e =>
      (st, Ok {| pb.vt_Valid := false; pb.vt_UserId := ""; pb.vt_Error := e |})
  | Ok userID =>
      (st, Ok {| pb.vt_Valid := true; pb.vt_UserId := userID;
                 pb.vt_Error := "" |})
  end.

End WithLibraries.
End handlers.
End auth_service.

(** ** api-gateway *)
Module api_gateway.

(** *** net/http, as far as the gateway uses it *)
Module http.

Definition StatusOK : Z := 200.
Definition StatusCreated : Z := 201.
Definition StatusBadRequest : Z := 400.
Definition StatusUnauthorized : Z := 401.
Definition StatusForbidden : Z := 403.
Definition StatusNotFound : Z := 404.
Definition StatusInternalServerError : Z := 500.

(** What a handler has done to its [http.ResponseWriter]: the status line
    once written, the header map, the body written so far, and whether the
    handler panicked (the server then drops the connection). *)
Record ResponseWriter := {
  Status : option Z;
  Headers : gmap string string;
  Written : string;
  Panicked : bool
}.

Definition NewResponse : ResponseWriter :=
  {| Status := None; Headers := ∅; Written := ""; Panicked := false |}.

Definition SetHeader (w : ResponseWriter) (k v : string) : ResponseWriter :=
  {| Status := Status w; Headers := <[k := v]> (Headers w);
     Written := Written w; Panicked := Panicked w |}.

Definition DelHeader (w : ResponseWriter) (k : string) : ResponseWriter :=
  {| Status := Status w; Headers := delete k (Headers w);
     Written := Written w; Panicked := Panicked w |}.

(** [WriteHeader]: a second call is ignored. *)
Definition WriteHeader (w : ResponseWriter) (code : Z) : ResponseWriter :=
  match Status w with
  | Some _ => w
  | None => {| Status := Some code; Headers := Headers w;
               Written := Written w; Panicked := Panicked w |}
  end.

(** [Write]: sends status 200 first if no status has been written. *)
Definition Write (w : ResponseWriter) (b : string) : ResponseWriter :=
  let w' := WriteHeader w StatusOK in
  {| Status := Status w'; Headers := Headers w';
     Written := Written w' +:+ b; Panicked := Panicked w' |}.

Definition newline : string := String "010" "".

(** [http.Error] *)
Definition Error (w : ResponseWriter) (err : string) (code : Z)
  : ResponseWriter :=
  let w1 := DelHeader w "Content-Length" in
  let w2 := SetHeader w1 "Content-Type" "text/plain; charset=utf-8" in
  let w3 := SetHeader w2 "X-Content-Type-Options" "nosniff" in
  Write (WriteHeader w3 code) (err +:+ newline).

(** [json.NewEncoder(w).Encode(v)] *)
Definition Encode `{JSONMarshal T} (w : ResponseWriter) (v : T)
  : ResponseWriter :=
  Write w (Marshal v +:+ newline).

(** A nil-pointer dereference in a handler. *)
Definition panic (w : ResponseWriter) : ResponseWriter :=
  {| Status := Status w; Headers := Headers w; Written := Written w;
     Panicked := true |}.

(** An inbound request: the header map, the route parameters chi has
    parsed from the path, the values attached to its context, and what
    [io.ReadAll(r.Body)] returns. *)
Record Request := {
  Header : gmap string (list string);
  URLParams : gmap string string;
  Context : gmap string value;
  Body : Result string
}.

(** [Header.Get]: the first value of the key, or the empty string. *)
Definition Get (h : gmap string (list string)) (key : string) : string :=
  match h !! key with
  | Some (v :: _) => v
  | _ => ""
  end.

Definition WithContext (r : Request) (ctx : gmap string value) : Request :=
  {| Header := Header r; URLParams := URLParams r; Context := ctx;
     Body := Body r |}.

(** A handler, serving a request on the state [S] of the back ends. *)
Definition Handler (S : Type) : Type :=
  ResponseWriter -> Request -> S -> S * ResponseWriter.

End http.

(** [chi.URLParam] *)
Definition URLParam (r : http.Request) (key : string) : string :=
  default "" (http.URLParams r !! key).

(** *** The generated gRPC client interfaces

    A client is an interface; [S] is the state of whatever serves it. *)
Module authpb.
Include auth_service.pb.

Record AuthServiceClient (S : Type) := {
  Register : S -> RegisterRequest -> S * Result RegisterResponse;
  Login : S -> LoginRequest -> S * Result LoginResponse;
  ValidateToken : S -> ValidateTokenRequest -> S * Result ValidateTokenResponse
}.
Arguments Register {S}.
Arguments Login {S}.
Arguments ValidateToken {S}.

End authpb.

Module userpb.
Include user_service.pb.

Record UserServiceClient (S : Type) := {
  GetUser : S -> GetUserRequest -> S * Result GetUserResponse;
  UpdateUser : S -> UpdateUserRequest -> S * Result UpdateUserResponse
}.
Arguments GetUser {S}.
Arguments UpdateUser {S}.

(** The remaining methods of the interface, in a record of their own. *)
Record UserServiceClientRest (S : Type) := {
  DeleteUser : S -> DeleteUserRequest -> S * Result DeleteUserResponse;
  AddAddress : S -> AddAddressRequest -> S * Result AddAddressResponse;
  GetAddresses : S -> GetAddressesRequest -> S * Result GetAddressesResponse
}.
Arguments DeleteUser {S}.
Arguments AddAddress {S}.
Arguments GetAddresses {S}.

End userpb.

(** *** internal/middleware *)
Module middleware.
Import http.

Definition userIDKey : string := "user_id".
Definition bearerPrefix : string := "Bearer ".

Definition AuthMiddleware {S} (authClient : authpb.AuthServiceClient S)
    (next : Handler S) : Handler S :=
  fun w r st =>
    let authHeader := Get (Header r) "Authorization" in
    if String.eqb authHeader "" then
      (st, Error w "Authorization header required" StatusUnauthorized)
    else if negb (HasPrefix authHeader bearerPrefix) then
      (st, Error w "Authorization header must start with 'Bearer '"
             StatusUnauthorized)
    else
      let token := TrimSpace (TrimPrefix authHeader bearerPrefix) in
      if String.eqb token "" then
        (st, Error w "Token cannot be empty" StatusUnauthorized)
      else
        let '(st', res) :=
          authpb.ValidateToken authClient st {| authpb.vt_Token := token |} in
        match res with
        | Err _ =>
            (st', Error w "Failed to validate token" StatusInternalServerError)
        | Ok resp =>
            if negb (authpb.vt_Valid resp) then
              (st', Error w ("Invalid token: " +:+ authpb.vt_Error resp)
                      StatusUnauthorized)
            else
              let ctx := <[userIDKey := VString (authpb.vt_UserId resp)]>
                           (Context r) in
              next w (WithContext r ctx) st'
        end.

(** [GetUserID]: the empty string when the context holds no string under
    the key. *)
Definition GetUserID (ctx : gmap string value) : string :=
  match ctx !! userIDKey with
  | Some (VString userID) => userID
  | _ => ""
  end.

End middleware.

(** *** internal/handlers: the HTTP handlers *)
Module handlers.
Import http.

(** Request and response bodies.  Field names carry the name of their
    struct where two structs have a field of the same name. *)
Record UpdateUserRequest := { uur_Name : string; uur_Phone : string }.

Record UserResponse := {
  ur_ID : string; ur_Email : string; ur_Name : string; ur_Phone : string
}.

Record RegisterRequest := {
  reg_Email : string; reg_Password : string; reg_Name : string
}.

Record RegisterResponse := { reg_UserID : string; reg_Message : string }.

Record LoginRequest := { login_Email : string; login_Password : string }.

Record LoginResponse := {
  login_Token : string; login_UserID : string; login_Name : string
}.

Record UserHandler (S : Type) := { userClient : userpb.UserServiceClient S }.
Arguments userClient {S}.

Record AuthHandler (S : Type) := { authClient : authpb.AuthServiceClient S }.
Arguments authClient {S}.

(** [authorizeUserAccess] *)
Definition authorizeUserAccess (r : Request) : Result string :=
  let requestedID := URLParam r "id" in
  let authenticatedID := middleware.GetUserID (Context r) in
  if String.eqb authenticatedID "" then
    Err (errors_New "no authenticated user found")
  else if negb (String.eqb requestedID authenticatedID) then
    Err (errors_New "forbidden: cannot access other users' data")
  else Ok requestedID.

Section WithJSON.
Context `{JSONUnmarshal UpdateUserRequest} `{JSONMarshal UserResponse}
        `{JSONUnmarshal RegisterRequest} `{JSONMarshal RegisterResponse}
        `{JSONUnmarshal LoginRequest} `{JSONMarshal LoginResponse}.

Definition userResponse (u : userpb.User) : UserResponse :=
  {| ur_ID := userpb.Id u; ur_Email := userpb.Email u;
     ur_Name := userpb.Name u; ur_Phone := userpb.Phone u |}.

(** [GetUser] handles GET /api/v1/users/:id *)
Definition GetUser {S} (h : UserHandler S) : Handler S :=
  fun w r st =>
    match authorizeUserAccess r with
    | Err e => (st, Error w e StatusForbidden)
    | Ok requestedUserID =>
        let '(st', res) :=
          userpb.GetUser (userClient h) st
            {| userpb.gu_UserId := requestedUserID |} in
        match res with
        | Err e =>
            (st', Error w ("Failed to get user: " +:+ e)
                    StatusInternalServerError)
        | Ok grpcResp =>
            if negb (String.eqb (userpb.gu_Error grpcResp) "") then
              (st', Error w (userpb.gu_Error grpcResp) StatusNotFound)
            else
              match userpb.gu_User grpcResp with
              | None => (st', panic w)
              | Some u =>
                  (st', Encode
                          (SetHeader w "Content-Type" "application/json")
                          (userResponse u))
              end
        end
    end.

(** [UpdateUser] handles PUT /api/v1/users/:id *)
Definition UpdateUser {S} (h : UserHandler S) : Handler S :=
  fun w r st =>
    match authorizeUserAccess r with
    | Err e => (st, Error w e StatusForbidden)
    | Ok requestedUserID =>
        match Body r with
        | Err _ => (st, Error w "Failed to read request body" StatusBadRequest)
        | Ok body =>
            match Unmarshal body with
            | None => (st, Error w "Invalid JSON format" StatusBadRequest)
            | Some req =>
                if String.eqb (uur_Name req) "" && String.eqb (uur_Phone req) ""
                then
                  (st, Error w
                         "At least one field (name or phone) must be provided"
                         StatusBadRequest)
                else
                  let '(st', res) :=
                    userpb.UpdateUser (userClient h) st
                      {| userpb.uu_UserId := requestedUserID;
                         userpb.uu_Name := uur_Name req;
                         userpb.uu_Phone := uur_Phone req |} in
                  match res with
                  | Err e =>
                      (st', Error w ("Failed to update user: " +:+ e)
                              StatusInternalServerError)
                  | Ok grpcResp =>
                      if negb (String.eqb (userpb.uu_Error grpcResp) "") then
                        (st', Error w (userpb.uu_Error grpcResp) StatusNotFound)
                      else
                        match userpb.uu_User grpcResp with
                        | None => (st', panic w)
                        | Some u =>
                            let w1 := SetHeader w "Content-Type"
                                        "application/json" in
                            (st', Encode (WriteHeader w1 StatusOK)
                                    (userResponse u))
                        end
                  end
            end
        end
    end.

(** [Register] handles POST /api/v1/auth/register *)
Definition Register {S} (h : AuthHandler S) : Handler S :=
  fun w r st =>
    match Body r with
    | Err _ => (st, Error w "Failed to read request body" StatusBadRequest)
    | Ok body =>
        match Unmarshal body with
        | None => (st, Error w "Invalid JSON format" StatusBadRequest)
        | Some req =>
            if String.eqb (reg_Email req) "" || String.eqb (reg_Name req) ""
               || String.eqb (reg_Password req) ""
            then
              (st, Error w "Email,name and password are required"
                     StatusBadRequest)
            else
              let grpcReq := {| authpb.rr_Email := reg_Email req;
                                authpb.rr_Password := reg_Password req;
                                authpb.rr_Name := reg_Name req |} in
              let '(st', res) := authpb.Register (authClient h) st grpcReq in
              match res with
              | Err e =>
                  (st', Error w ("Registration failed: " +:+ e)
                          StatusInternalServerError)
              | Ok grpcRes =>
                  let resp := {| reg_UserID := authpb.rr_UserId grpcRes;
                                 reg_Message := authpb.rr_Message grpcRes |} in
                  let w1 := SetHeader w "Content-Type" "application/json" in
                  (st', Encode (WriteHeader w1 StatusCreated) resp)
              end
        end
    end.

(** [Login] handles POST /api/v1/auth/login *)
Definition Login {S} (h : AuthHandler S) : Handler S :=
  fun w r st =>
    match Body r with
    | Err _ => (st, Error w "Failed to read request body" StatusBadRequest)
    | Ok body =>
        match Unmarshal body with
        | None => (st, Error w "Failed to parse JSON" StatusBadRequest)
        | Some req =>
            if String.eqb (login_Email req) ""
               || String.eqb (login_Password req) ""
            then
              (st, Error w "Email and password are required" StatusBadRequest)
            else
              let grpcReq := {| authpb.lr_Email := login_Email req;
                                authpb.lr_Password := login_Password req |} in
              let '(st', res) := authpb.Login (authClient h) st grpcReq in
              match res with
              | Err e =>
                  (st', Error w ("Login failed: " +:+ e) StatusUnauthorized)
              | Ok grpcRes =>
                  let resp := {| login_Token := authpb.lr_Token grpcRes;
                                 login_UserID := authpb.lr_UserId grpcRes;
                                 login_Name := authpb.lr_Name grpcRes |} in
                  let w1 := SetHeader w "Content-Type" "application/json" in
                  (st', Encode (WriteHeader w1 StatusOK) resp)
              end
        end
    end.

End WithJSON.

(** The handlers of the remaining endpoints; they are given the part of the
    user client they call. *)
Record AddAddressRequest := {
  aar_Street : string; aar_City : string; aar_State : string;
  aar_PostalCode : string; aar_Country : string; aar_IsDefault : bool
}.

Record AddressResponse := {
  ar_ID : string; ar_Street : string; ar_City : string; ar_State : string;
  ar_PostalCode : string; ar_Country : string; ar_IsDefault : bool
}.

Record DeleteUserResponse := { dur_Message : string }.

Definition addressResponse (a : userpb.Address) : AddressResponse :=
  {| ar_ID := userpb.AddrId a; ar_Street := userpb.Street a;
     ar_City := userpb.City a; ar_State := userpb.State a;
     ar_PostalCode := userpb.PostalCode a; ar_Country := userpb.Country a;
     ar_IsDefault := userpb.IsDefault a |}.

Section WithJSONRest.
Context `{JSONUnmarshal AddAddressRequest} `{JSONMarshal AddressResponse}
        `{JSONMarshal (list AddressResponse)}
        `{JSONMarshal DeleteUserResponse}.

(** [DeleteUser] handles DELETE /api/v1/users/:id *)
Definition DeleteUser {S} (userClient : userpb.UserServiceClientRest S)
  : Handler S :=
  fun w r st =>
    match authorizeUserAccess r with
    | Err e => (st, Error w e StatusForbidden)
    | Ok requestedUserID =>
        let '(st', res) :=
          userpb.DeleteUser userClient st
            {| userpb.du_UserId := requestedUserID |} in
        match res with
        | Err e =>
            (st', Error w ("Failed to delete user: " +:+ e)
                    StatusInternalServerError)
        | Ok grpcResp =>
            if negb (String.eqb (userpb.du_Error grpcResp) "") then
              (st', Error w (userpb.du_Error grpcResp) StatusNotFound)
            else
              let resp := {| dur_Message := "User deleted successfully" |} in
              let w1 := SetHeader w "Content-Type" "application/json" in
              (st', Encode (WriteHeader w1 StatusOK) resp)
        end
    end.

(** [AddAddress] handles POST /api/v1/users/:id/addresses *)
Definition AddAddress {S} (userClient : userpb.UserServiceClientRest S)
  : Handler S :=
  fun w r st =>
    match authorizeUserAccess r with
    | Err e => (st, Error w e StatusForbidden)
    | Ok requestedUserID =>
        match Body r with
        | Err _ => (st, Error w "Failed to read request body" StatusBadRequest)
        | Ok body =>
            match Unmarshal body with
            | None => (st, Error w "Invalid JSON format" StatusBadRequest)
            | Some req =>
                if String.eqb (aar_Street req) "" || String.eqb (aar_City req) ""
                   || String.eqb (aar_Country req) ""
                then
                  (st, Error w "Street, city, and country are required"
                         StatusBadRequest)
                else
                  let '(st', res) :=
                    userpb.AddAddress userClient st
                      {| userpb.aa_UserId := requestedUserID;
                         userpb.aa_Street := aar_Street req;
                         userpb.aa_City := aar_City req;
                         userpb.aa_State := aar_State req;
                         userpb.aa_PostalCode := aar_PostalCode req;
                         userpb.aa_Country := aar_Country req;
                         userpb.aa_IsDefault := aar_IsDefault req |} in
                  match res with
                  | Err e =>
                      (st', Error w ("Failed to add address: " +:+ e)
                              StatusInternalServerError)
                  | Ok grpcResp =>
                      if negb (String.eqb (userpb.aa_Error grpcResp) "") then
                        (st', Error w (userpb.aa_Error grpcResp)
                                StatusBadRequest)
                      else
                        match userpb.aa_Address grpcResp with
                        | None => (st', panic w)
                        | Some a =>
                            let w1 := SetHeader w "Content-Type"
                                        "application/json" in
                            (st', Encode (WriteHeader w1 StatusCreated)
                                    (addressResponse a))
                        end
                  end
            end
        end
    end.

(** [GetAddresses] handles GET /api/v1/users/:id/addresses *)
Definition GetAddresses {S} (userClient : userpb.UserServiceClientRest S)
  : Handler S :=
  fun w r st =>
    match authorizeUserAccess r with
    | Err e => (st, Error w e StatusForbidden)
    | Ok requestedUserID =>
        let '(st', res) :=
          userpb.GetAddresses userClient st
            {| userpb.ga_UserId := requestedUserID |} in
        match res with
        | Err e =>
            (st', Error w ("Failed to get addresses: " +:+ e)
                    StatusInternalServerError)
        | Ok grpcResp =>
            if negb (String.eqb (userpb.ga_Error grpcResp) "") then
              (st', Error w (userpb.ga_Error grpcResp) StatusNotFound)
            else
              let addresses :=
                map addressResponse (userpb.ga_Addresses grpcResp) in
              (st', Encode (SetHeader w "Content-Type" "application/json")
                      addresses)
        end
    end.

End WithJSONRest.
End handlers.

(** *** internal/clients: the stubs the gateway is wired with

    [authLink] and [userLink] are the connections from the gateway to the
    two services; [h] is the auth service's own handler, which holds the
    connection from the auth service to the user service. *)
Module clients.

Section WithLibraries.
Context `{Bcrypt} `{jwt.Wire}.

Definition AuthClient (authLink : option error)
    (h : auth_service.handlers.AuthHandler) (env uenv : Env)
  : authpb.AuthServiceClient auth_service.handlers.State :=
  {| authpb.Register :=
       invoke authLink (auth_service.handlers.Register h env uenv);
     authpb.Login := invoke authLink (auth_service.handlers.Login h env);
     authpb.ValidateToken :=
       invoke authLink (auth_service.handlers.ValidateToken h env) |}.

End WithLibraries.

(** The user service seen from the gateway, lifted to the state of both
    back ends. *)
Definition onUserDB {Req Resp}
    (method : user_service.repository.DB -> Req ->
              user_service.repository.DB * Result Resp)
    (st : auth_service.handlers.State) (req : Req)
  : auth_service.handlers.State * Result Resp :=
  let '(udb, r) := method (auth_service.handlers.userDB st) req in
  ({| auth_service.handlers.authDB := auth_service.handlers.authDB st;
      auth_service.handlers.userDB := udb |}, r).

Definition UserClient (userLink : option error) (uenv : Env)
  : userpb.UserServiceClient auth_service.handlers.State :=
  {| userpb.GetUser :=
       invoke userLink (onUserDB user_service.handlers.GetUser);
     userpb.UpdateUser :=
       invoke userLink
         (onUserDB (user_service.handlers.UpdateUser (now uenv))) |}.

Definition UserClientRest (userLink : option error) (uenv : Env)
  : userpb.UserServiceClientRest auth_service.handlers.State :=
  {| userpb.DeleteUser :=
       invoke userLink
         (onUserDB (user_service.handlers.DeleteUser (now uenv)));
     userpb.AddAddress :=
       invoke userLink
         (onUserDB (user_service.handlers.AddAddress (uuid uenv) (now uenv)));
     userpb.GetAddresses :=
       invoke userLink (onUserDB user_service.handlers.GetAddresses) |}.

End clients.
End api_gateway.

(** ** A reference instance of the libraries

    An executable stand-in for bcrypt, the JWT wire format and
    [encoding/json], used to evaluate the services on concrete requests.
    A struct or a JSON object is written as the binary digits of the code
    stdpp's [Countable] gives it; a segment is its bytes with dots escaped;
    decoding inverts encoding.  The stand-in for HMAC writes the key next to
    the message, so that a tag is verified by the key that made it. *)
Module Reference.

Fixpoint bitsOfPos (p : positive) : string :=
  match p with
  | xH => ""
  | xO p' => String "0" (bitsOfPos p')
  | xI p' => String "1" (bitsOfPos p')
  end.

Fixpoint posOfBits (s : string) : option positive :=
  match s with
  | EmptyString => Some xH
  | String c s' =>
      if Ascii.eqb c "0" then xO <$> posOfBits s'
      else if Ascii.eqb c "1" then xI <$> posOfBits s'
      else None
  end.

Definition enc `{Countable A} (x : A) : string := bitsOfPos (encode x).
Definition dec `{Countable A} (s : string) : option A :=
  posOfBits s ≫= decode.

Lemma posOfBits_bitsOfPos (p : positive) : posOfBits (bitsOfPos p) = Some p.
Proof. induction p as [p IH|p IH|]; simpl; rewrite ?IH; reflexivity. Qed.

Lemma bitsOfPos_noDot (p : positive) : noDot (bitsOfPos p) = true.
Proof. induction p as [p IH|p IH|]; simpl; auto. Qed.

Lemma dec_enc `{Countable A} (x : A) : dec (enc x) = Some x.
Proof.
  unfold dec, enc. rewrite posOfBits_bitsOfPos. simpl. apply decode_encode.
Qed.

Lemma enc_noDot `{Countable A} (x : A) : noDot (enc x) = true.
Proof. apply bitsOfPos_noDot. Qed.

#[global] Instance value_countable : Countable value.
Proof.
  refine (inj_countable'
    (fun v => match v with
              | VString s => inl s
              | VNumber n => inr (inl n)
              | VBool b => inr (inr (inl b))
              | VNull => inr (inr (inr tt))
              end)
    (fun x => match x with
              | inl s => VString s
              | inr (inl n) => VNumber n
              | inr (inr (inl b)) => VBool b
              | inr (inr (inr _)) => VNull
              end) _).
  intros []; reflexivity.
Defined.

(** bcrypt: the hash holds the salt, and passwords of more than 72 bytes are
    refused. *)
Definition generate (password : string) (cost : Z) (salt : string)
  : Result string :=
  if bool_decide (String.length password <= 72)%nat
  then Ok (enc (salt, password))
  else Err "bcrypt: password length exceeds 72 bytes".

Definition compare (hashed password : string) : Result unit :=
  match dec (A := string * string) hashed with
  | Some (_, p) =>
      if String.eqb p password then Ok tt
      else Err "crypto/bcrypt: hashedPassword is not the hash of the given password"
  | None => Err "crypto/bcrypt: hashedSecret too short to be a bcrypted password"
  end.

#[global] Instance bcrypt : Bcrypt.
Proof.
  refine {| GenerateFromPassword := generate;
            CompareHashAndPassword := compare |}.
  intros password cost salt hashed. unfold generate, compare.
  case_bool_decide; [|discriminate].
  intros [= <-]. rewrite (dec_enc (A := string * string)).
  rewrite String.eqb_refl. reflexivity.
Defined.

Definition hmac (h : jwt.Hash) (key msg : string) : string :=
  jwt.Alg (jwt.SigningMethodHMAC h) +:+ ":" +:+ key +:+ ":" +:+ msg.

(** Segments: [.] is written [~d] and [~] is written [~t]. *)
Fixpoint escape (s : string) : string :=
  match s with
  | EmptyString => EmptyString
  | String c s' =>
      if Ascii.eqb c "." then String "~" (String "d" (escape s'))
      else if Ascii.eqb c "~" then String "~" (String "t" (escape s'))
      else String c (escape s')
  end.

Fixpoint unescape (s : string) : option string :=
  match s with
  | EmptyString => Some EmptyString
  | String c s' =>
      if Ascii.eqb c "~" then
        match s' with
        | String x s'' =>
            if Ascii.eqb x "d" then String "."%char <$> unescape s''
            else if Ascii.eqb x "t" then String "~"%char <$> unescape s''
            else None
        | EmptyString => None
        end
      else if Ascii.eqb c "." then None
      else String c <$> unescape s'
  end.

Lemma unescape_escape (s : string) : unescape (escape s) = Some s.
Proof.
  induction s as [|c s IH]; [reflexivity|]. simpl.
  destruct (Ascii.eqb c ".") eqn:Hdot.
  - apply Ascii.eqb_eq in Hdot as ->. simpl. rewrite IH. reflexivity.
  - destruct (Ascii.eqb c "~") eqn:Htilde.
    + apply Ascii.eqb_eq in Htilde as ->. simpl. rewrite IH. reflexivity.
    + simpl. rewrite Htilde, Hdot, IH. reflexivity.
Qed.

Lemma escape_noDot (s : string) : noDot (escape s) = true.
Proof.
  induction s as [|c s IH]; [reflexivity|]. simpl.
  destruct (Ascii.eqb c ".") eqn:Hdot; [exact IH|].
  destruct (Ascii.eqb c "~") eqn:Htilde; [exact IH|].
  simpl. rewrite Hdot. exact IH.
Qed.

#[global] Instance wire : jwt.Wire.
Proof.
  refine {| jwt.EncodeSegment := escape;
            jwt.DecodeSegment := unescape;
            jwt.MarshalObject := enc (A := gmap string value);
            jwt.UnmarshalObject := dec (A := gmap string value);
            jwt.HMAC := hmac |}.
  - exact unescape_escape.
  - exact escape_noDot.
  - intros m. apply dec_enc.
Defined.

Import api_gateway.handlers.

#[global] Instance UpdateUserRequest_eq_dec : EqDecision UpdateUserRequest.
Proof. solve_decision. Defined.

#[global] Instance UpdateUserRequest_countable : Countable UpdateUserRequest.
Proof.
  refine (inj_countable' (fun r => (uur_Name r, uur_Phone r))
            (fun p => {| uur_Name := p.1; uur_Phone := p.2 |}) _).
  intros []; reflexivity.
Defined.

#[global] Instance RegisterRequest_eq_dec : EqDecision RegisterRequest.
Proof. solve_decision. Defined.

#[global] Instance RegisterRequest_countable : Countable RegisterRequest.
Proof.
  refine (inj_countable'
            (fun r => (reg_Email r, reg_Password r, reg_Name r))
            (fun p => {| reg_Email := p.1.1; reg_Password := p.1.2;
                         reg_Name := p.2 |}) _).
  intros []; reflexivity.
Defined.

#[global] Instance LoginRequest_eq_dec : EqDecision LoginRequest.
Proof. solve_decision. Defined.

#[global] Instance LoginRequest_countable : Countable LoginRequest.
Proof.
  refine (inj_countable' (fun r => (login_Email r, login_Password r))
            (fun p => {| login_Email := p.1; login_Password := p.2 |}) _).
  intros []; reflexivity.
Defined.

(** Request bodies are decoded from the code of the struct. *)
#[global] Instance unmarshal `{Countable T} : JSONUnmarshal T := dec.

(** Response bodies are written as JSON objects of string fields. *)
Definition quote : string := String "034" "".

Definition member (kv : string * string) : string :=
  quote +:+ kv.1 +:+ quote +:+ ":" +:+ quote +:+ kv.2 +:+ quote.

Fixpoint members (kvs : list (string * string)) : string :=
  match kvs with
  | [] => ""
  | [kv] => member kv
  | kv :: kvs' => member kv +:+ "," +:+ members kvs'
  end.

Definition object (kvs : list (string * string)) : string :=
  "{" +:+ members kvs +:+ "}".

#[global] Instance marshal_UserResponse : JSONMarshal UserResponse :=
  fun r => object [("id", ur_ID r); ("email", ur_Email r);
                   ("name", ur_Name r); ("phone", ur_Phone r)].

#[global] Instance marshal_RegisterResponse : JSONMarshal RegisterResponse :=
  fun r => object [("user_id", reg_UserID r); ("message", reg_Message r)].

#[global] Instance marshal_LoginResponse : JSONMarshal LoginResponse :=
  fun r => object [("token", login_Token r); ("user_id", login_UserID r);
                   ("name", login_Name r)].

#[global] Instance AddAddressRequest_eq_dec : EqDecision AddAddressRequest.
Proof. solve_decision. Defined.

#[global] Instance AddAddressRequest_countable : Countable AddAddressRequest.
Proof.
  refine (inj_countable'
            (fun r => (aar_Street r, aar_City r, aar_State r,
                       aar_PostalCode r, aar_Country r, aar_IsDefault r))
            (fun p => {| aar_Street := p.1.1.1.1.1; aar_City := p.1.1.1.1.2;
                         aar_State := p.1.1.1.2; aar_PostalCode := p.1.1.2;
                         aar_Country := p.1.2; aar_IsDefault := p.2 |}) _).
  intros []; reflexivity.
Defined.

#[global] Instance marshal_AddressResponse : JSONMarshal AddressResponse :=
  fun r => object [("id", ar_ID r); ("street", ar_Street r);
                   ("city", ar_City r); ("state", ar_State r);
                   ("postal_code", ar_PostalCode r);
                   ("country", ar_Country r);
                   ("is_default", if ar_IsDefault r then "true" else "false")].

Fixpoint elements (items : list string) : string :=
  match items with
  | [] => ""
  | [item] => item
  | item :: items' => item +:+ "," +:+ elements items'
  end.

#[global] Instance marshal_AddressResponses
  : JSONMarshal (list AddressResponse) :=
  fun l => "[" +:+ elements (map Marshal l) +:+ "]".

#[global] Instance marshal_DeleteUserResponse
  : JSONMarshal DeleteUserResponse :=
  fun r => object [("message", dur_Message r)].

End Reference.

(** ** Terms of the specification *)

Section SpecTerms.
Context `{jwt.Wire}.

(** The claim set [Login] signs, and the token string it returns. *)
Definition loginClaims (id : string) (now : Z) : jwt.MapClaims :=
  {[ "user_id" := VString id; "exp" := VNumber (now + 24 * Hour) ]}.

Definition minted (secret id : string) (now : Z) : string :=
  let t := jwt.NewWithClaims jwt.SigningMethodHS256 (loginClaims id now) in
  jwt.SigningString t +:+ "." +:+
  jwt.EncodeSegment (jwt.HMAC jwt.SHA256 secret (jwt.SigningString t)).

(** The specification's reading of a token string: three dot-separated
    segments that decode to a header object, a claims object and a
    signature; the signing input is the first two segments. *)
Record Decoded := {
  d_header : gmap string value;
  d_claims : jwt.MapClaims;
  d_signature : string;
  d_input : string
}.

Definition decodeToken (tokenString : string) : option Decoded :=
  match SplitDot tokenString with
  | [p0; p1; p2] =>
      header ← jwt.DecodeSegment p0 ≫= jwt.UnmarshalObject;
      claims ← jwt.DecodeSegment p1 ≫= jwt.UnmarshalObject;
      sig ← jwt.DecodeSegment p2;
      Some {| d_header := header; d_claims := claims; d_signature := sig;
              d_input := p0 +:+ "." +:+ p1 |}
  | _ => None
  end.

(** The signature is the tag of the signing input under [secret], for the
    HMAC method the header names. *)
Definition signedWith (secret : string) (d : Decoded) : Prop :=
  exists h,
    d_header d !! "alg" = Some (VString (jwt.Alg (jwt.SigningMethodHMAC h))) /\
    d_signature d = jwt.HMAC h secret (d_input d).

(** [expiresAt] has passed at time [now]. *)
Definition expiredAt (now : Z) (d : Decoded) : Prop :=
  exists e, d_claims d !! "exp" = Some (VNumber e) /\ e <= now.

End SpecTerms.

(** ** Concrete runs *)

(** Concrete requests and stores, on the reference instance. *)
Module Scenario.
Import Reference.
Import auth_service.models auth_service.repository auth_service.service.

Definition svc : AuthService :=
  {| jwtSecret := "23094uoifhpowisrfhp02893ryufpowafh" |}.

Definition aliceID : string := "3f2b8c1e-7a4d-4e0b-9c55-0d6a1f2e9b10".

Definition emptyDB : DB := {| users := []; down := None |}.

(** The credential store after Alice has registered at time 1000. *)
Definition aliceDB : DB :=
  (Register svc aliceID "salt" 1000 emptyDB "alice@example.com" "Secr3t!"
     "Alice").1.


End Scenario.

(** The three services wired together, on the reference instance. *)
Module Deployment.
Import Reference Scenario.
Import api_gateway api_gateway.http api_gateway.handlers.

Definition env (t : Z) : Env :=
  {| uuid := aliceID; salt := "salt"; now := t |}.

Definition uenv (t : Z) : Env :=
  {| uuid := "0b7e4c0a-52d1-4c6f-8a3e-6f1d2c3b4a59"; salt := ""; now := t |}.

Definition authH : auth_service.handlers.AuthHandler :=
  {| auth_service.handlers.authService := svc;
     auth_service.handlers.userClient := None |}.

Definition emptyState : auth_service.handlers.State :=
  {| auth_service.handlers.authDB := emptyDB;
     auth_service.handlers.userDB :=
       {| user_service.repository.users := [];
          user_service.repository.addresses := [];
          user_service.repository.down := None |} |}.

(** The auth service while the user service cannot be reached. *)
Definition isolatedH : auth_service.handlers.AuthHandler :=
  {| auth_service.handlers.authService := svc;
     auth_service.handlers.userClient :=
       Some "rpc error: code = Unavailable desc = connection refused" |}.

Definition registerAlice : auth_service.pb.RegisterRequest :=
  {| auth_service.pb.rr_Email := "alice@example.com";
     auth_service.pb.rr_Password := "Secr3t!";
     auth_service.pb.rr_Name := "Alice" |}.

(** Both stores after Alice has registered through the auth service. *)
Definition aliceState : auth_service.handlers.State :=
  (auth_service.handlers.Register authH (env 1000) (uenv 1000) emptyState
     registerAlice).1.


Definition authGateway (t : Z) : AuthHandler auth_service.handlers.State :=
  {| authClient := clients.AuthClient None authH (env t) (uenv t) |}.

Definition userGateway (t : Z) : UserHandler auth_service.handlers.State :=
  {| userClient := clients.UserClient None (uenv t) |}.

(** The token Alice is given when she logs in at time 2000. *)
Definition aliceToken : string :=
  minted (auth_service.service.jwtSecret svc) aliceID 2000.

Definition post (body : string) : Request :=
  {| Header := ∅; URLParams := ∅; Context := ∅; Body := Ok body |}.

(** A request on [/users/{id}] carrying an Authorization header. *)
Definition onUser (id : string) (authorization : list string)
    (body : string) : Request :=
  {| Header := {[ "Authorization" := authorization ]};
     URLParams := {[ "id" := id ]}; Context := ∅; Body := Ok body |}.

(** The same request after the gate has attached the identity [uid]. *)
Definition attached (uid : string) (r : Request) : Request :=
  WithContext r (<[middleware.userIDKey := VString uid]> (Context r)).

(** The rest of the user client, as the gateway holds it. *)
Definition userRest (t : Z)
  : userpb.UserServiceClientRest auth_service.handlers.State :=
  clients.UserClientRest None (uenv t).

Definition bobID : string := "9d3c2a10-5b7e-4f1a-8c66-2e4b1a0f7d35".

(** Alice's request on her own profile, past the gate. *)
Definition aliceOnAlice (body : string) : Request :=
  attached aliceID (onUser aliceID ["Bearer " +:+ aliceToken] body).

(** The stores after Alice has registered while the user service could not
    be reached: an account without a profile. *)
Definition orphanState : auth_service.handlers.State :=
  (auth_service.handlers.Register isolatedH (env 1000) (uenv 1000) emptyState
     registerAlice).1.

(** The profile store after Alice has added a default address. *)
Definition aliceHomeDB : user_service.repository.DB :=
  (user_service.service.AddAddress "a1" 1600
     (auth_service.handlers.userDB aliceState) aliceID "1 Main St" "Paris"
     "" "75001" "FR" true).1.

(** A token signed with the process secret that names no user. *)
Definition anonymousToken : string :=
  match jwt.SignedString
          (jwt.NewWithClaims jwt.SigningMethodHS256
             {[ "exp" := VNumber (2000 + 24 * Hour) ]})
          (auth_service.service.jwtSecret svc) with
  | Ok tokenString => tokenString
  | Err _ => ""
  end.

End Deployment.

(** * Properties *)

(** ** The [strings] package *)

Example TrimSpace_ex :
  TrimSpace (String "009" (" ab c " +:+ bytes [194; 160]%N)) = "ab c".
Proof. vm_compute. reflexivity. Qed.

Example SplitDot_ex : SplitDot "aa.b..c" = ["aa"; "b"; ""; "c"].
Proof. reflexivity. Qed.

Lemma append_nil (b : string) : "" +:+ b = b.
Proof. reflexivity. Qed.

Lemma append_cons (c : ascii) (a b : string) :
  String c a +:+ b = String c (a +:+ b).
Proof. reflexivity. Qed.

Lemma append_assoc (a b c : string) : (a +:+ b) +:+ c = a +:+ (b +:+ c).
Proof.
  induction a as [|x a IH]; [reflexivity|].
  rewrite !append_cons. f_equal. exact IH.
Qed.

Lemma SplitDot_noDot (a : string) : noDot a = true -> SplitDot a = [a].
Proof.
  induction a as [|c a IH]; simpl; [reflexivity|].
  intros [Hc Ha]%andb_true_iff. apply negb_true_iff in Hc.
  rewrite Hc, (IH Ha). reflexivity.
Qed.

Lemma SplitDot_app (a s : string) :
  noDot a = true -> SplitDot (a +:+ String "." s) = a :: SplitDot s.
Proof.
  induction a as [|c a IH]; [reflexivity|].
  rewrite append_cons. simpl.
  intros [Hc Ha]%andb_true_iff. apply negb_true_iff in Hc.
  rewrite Hc, (IH Ha). reflexivity.
Qed.

Lemma SplitDot_three (a b c : string) :
  noDot a = true -> noDot b = true -> noDot c = true ->
  SplitDot (a +:+ "." +:+ b +:+ "." +:+ c) = [a; b; c].
Proof.
  intros Ha Hb Hc. rewrite !append_cons, !append_nil.
  rewrite (SplitDot_app a _ Ha), (SplitDot_app b _ Hb), (SplitDot_noDot c Hc).
  reflexivity.
Qed.

(** ** The token codec *)

Section Tokens.
Context `{jwt.Wire}.

Lemma loginClaims_user_id (id : string) (now : Z) :
  loginClaims id now !! "user_id" = Some (VString id).
Proof. unfold loginClaims. by simplify_map_eq. Qed.

Lemma loginClaims_exp (id : string) (now : Z) :
  loginClaims id now !! "exp" = Some (VNumber (now + 24 * Hour)).
Proof. unfold loginClaims. by simplify_map_eq. Qed.

Lemma loginClaims_nbf (id : string) (now : Z) :
  loginClaims id now !! "nbf" = None.
Proof. unfold loginClaims. by simplify_map_eq. Qed.

Lemma Validate_loginClaims (id : string) (now now' : Z) :
  now' < now + 24 * Hour -> jwt.Validate (loginClaims id now) now' = Ok tt.
Proof.
  intros Hlt. unfold jwt.Validate, jwt.parseNumericDate.
  rewrite loginClaims_exp, loginClaims_nbf.
  rewrite bool_decide_true by exact Hlt. reflexivity.
Qed.

Lemma GetSigningMethod_HS256 :
  jwt.GetSigningMethod "HS256" = Some (jwt.SigningMethodHMAC jwt.SHA256).
Proof. reflexivity. Qed.

Lemma Parse_minted (secret id : string) (now now' : Z) :
  now' < now + 24 * Hour ->
  exists token,
    jwt.Parse now' (minted secret id now) (fun _ => Ok secret) = Ok token /\
    jwt.Valid token = true /\ jwt.Claims token = loginClaims id now.
Proof.
  intros Hlt. unfold minted, jwt.Parse, jwt.ParseUnverified, jwt.SigningString.
  cbn [jwt.NewWithClaims jwt.Header jwt.Claims jwt.Method].
  rewrite !append_assoc.
  rewrite SplitDot_three by apply jwt.encode_segment_noDot.
  rewrite !jwt.decode_encode_segment. cbn [mbind option_bind].
  rewrite !jwt.unmarshal_marshal_object.
  replace (({[ "typ" := VString "JWT";
               "alg" := VString (jwt.Alg jwt.SigningMethodHS256) ]}
            : gmap string value) !! "alg")
    with (Some (VString (jwt.Alg jwt.SigningMethodHS256)))
    by (by simplify_map_eq).
  change (jwt.Alg jwt.SigningMethodHS256) with "HS256".
  rewrite GetSigningMethod_HS256.
  cbn [nth jwt.Method jwt.Claims jwt.Raw jwt.Header jwt.Verify].
  rewrite jwt.decode_encode_segment.
  rewrite String.eqb_refl.
  rewrite (Validate_loginClaims id now now' Hlt).
  eexists. split; [reflexivity|]. split; reflexivity.
Qed.

End Tokens.

(** ** The credential service *)

Section CredentialService.
Context `{Bcrypt} `{jwt.Wire}.
Import auth_service.models auth_service.repository auth_service.service.

Lemma find_app_None {A} (P : A -> bool) (l1 l2 : list A) :
  List.find P l1 = None -> List.find P (l1 ++ l2) = List.find P l2.
Proof.
  induction l1 as [|x l1 IH]; simpl; [reflexivity|].
  destruct (P x); [discriminate|exact IH].
Qed.

Lemma existsb_false_find {A} (P : A -> bool) (l : list A) :
  existsb P l = false -> List.find P l = None.
Proof.
  induction l as [|x l IH]; simpl; [reflexivity|].
  destruct (P x); [discriminate|exact IH].
Qed.

(** What a successful [Register] has done: the email and the new id were
    free, the password was hashed, and one row was appended, whose id is the
    returned id. *)
Lemma Register_Ok_inv (s : AuthService) (newID salt : string) (now : Z)
    (db db' : DB) (email password name id : string) :
  Register s newID salt now db email password name = (db', Ok id) ->
  exists hashed,
    GenerateFromPassword password DefaultCost salt = Ok hashed /\
    List.find (hasEmail email) (users db) = None /\
    List.find (hasID newID) (users db) = None /\
    id = newID /\ down db' = None /\
    users db' = users db ++
      [{| ID := newID; Email := email; Password := hashed; Name := name;
          CreatedAt := now; LastLogin := zeroTime |}].
Proof.
  unfold Register, GetUserByEmail, CreateUser, insertUser.
  destruct (down db) as [e|] eqn:Hdown; [discriminate|].
  destruct (List.find _ (users db)) as [u|] eqn:Hfind; [discriminate|].
  destruct (GenerateFromPassword _ _ _) as [hashed|e] eqn:Hgen;
    [|discriminate].
  cbn [ID Email Password Name CreatedAt LastLogin].
  destruct (existsb (hasID newID) _) eqn:Hid; [discriminate|].
  destruct (existsb (hasEmail email) _); [discriminate|].
  intros Heq. injection Heq as <- <-.
  exists hashed. cbn.
  repeat split; try reflexivity. apply existsb_false_find. exact Hid.
Qed.

Lemma Login_found (s : AuthService) (now : Z) (db : DB)
    (email password : string) (user : User) :
  GetUserByEmail db email = Ok (Some user) ->
  CompareHashAndPassword (Password user) password = Ok tt ->
  Login s now db email password = Ok (minted (jwtSecret s) (ID user) now).
Proof.
  intros Hget Hcmp. unfold Login. rewrite Hget, Hcmp. reflexivity.
Qed.

Lemma ValidateToken_minted (s : AuthService) (id : string) (now now' : Z) :
  now' < now + 24 * Hour ->
  ValidateToken s now' (minted (jwtSecret s) id now) = Ok id.
Proof.
  intros Hlt. unfold ValidateToken.
  destruct (Parse_minted (jwtSecret s) id now now' Hlt)
    as (token & -> & Hvalid & Hclaims).
  rewrite Hvalid, Hclaims, loginClaims_user_id. reflexivity.
Qed.

End CredentialService.

Section CredentialClaims.
Context `{Bcrypt} `{jwt.Wire}.
Import auth_service.models auth_service.repository auth_service.service.

(** C1. Whenever [Register] succeeds on (email, password, name) and returns
    an account id, [Login] with the same email and password on the resulting
    store succeeds, and [ValidateToken] applied to the token it returns,
    at any time before the token's 24-hour expiry, yields exactly that
    account id. *)
Theorem register_login_verify (s : AuthService) (newID salt : string)
    (now0 now1 now2 : Z) (db db' : DB) (email password name id : string) :
  Register s newID salt now0 db email password name = (db', Ok id) ->
  now2 < now1 + 24 * Hour ->
  exists token,
    Login s now1 db' email password = Ok token /\
    ValidateToken s now2 token = Ok id.
Proof.
  intros Hreg Hlt.
  destruct (Register_Ok_inv _ _ _ _ _ _ _ _ _ _ Hreg)
    as (hashed & Hgen & Hfree & _ & -> & Hup & Husers).
  set (account := {| ID := newID; Email := email; Password := hashed;
                     Name := name; CreatedAt := now0;
                     LastLogin := zeroTime |}) in *.
  assert (Hget : GetUserByEmail db' email = Ok (Some account)).
  { unfold GetUserByEmail. rewrite Hup, Husers, (find_app_None _ _ _ Hfree).
    simpl. unfold hasEmail. simpl. rewrite String.eqb_refl. reflexivity. }
  exists (minted (jwtSecret s) newID now1). split.
  - apply (Login_found s now1 db' email password account Hget).
    exact (bcrypt_generate_compare _ _ _ _ Hgen).
  - apply ValidateToken_minted. exact Hlt.
Qed.

(** C2. [Login] with an email that no account has, and [Login] with the
    email of an account but a password that does not match its hash, both
    fail, with one and the same error: [errors.New("invalid credentials")].
    The caller sees the same kind and the same message in both cases. *)
Theorem login_failures_indistinguishable (s : AuthService) (now : Z)
    (db : DB) (unknownEmail knownEmail password password' : string)
    (user : User) :
  GetUserByEmail db unknownEmail = Ok None ->
  GetUserByEmail db knownEmail = Ok (Some user) ->
  CompareHashAndPassword (Password user) password' <> Ok tt ->
  Login s now db unknownEmail password =
    Err (errors_New "invalid credentials") /\
  Login s now db knownEmail password' =
    Err (errors_New "invalid credentials").
Proof.
  intros Hunknown Hknown Hwrong. unfold Login.
  rewrite Hunknown, Hknown. split; [reflexivity|].
  destruct (CompareHashAndPassword _ _) as [[]|e]; [contradiction|reflexivity].
Qed.


End CredentialClaims.

Lemma register_login_verify_witness :
  exists token,
    auth_service.service.Login Scenario.svc 2000 Scenario.aliceDB
      "alice@example.com" "Secr3t!" = Ok token /\
    auth_service.service.ValidateToken Scenario.svc 3000 token
      = Ok Scenario.aliceID.
Proof.
  apply (register_login_verify Scenario.svc Scenario.aliceID "salt"
           1000 2000 3000 Scenario.emptyDB Scenario.aliceDB
           "alice@example.com" "Secr3t!" "Alice" Scenario.aliceID).
  - vm_compute. reflexivity.
  - vm_compute. reflexivity.
Defined.

Lemma login_failures_indistinguishable_witness :
  auth_service.service.Login Scenario.svc 2000 Scenario.aliceDB
    "bob@example.com" "Secr3t!" = Err (errors_New "invalid credentials") /\
  auth_service.service.Login Scenario.svc 2000 Scenario.aliceDB
    "alice@example.com" "secret" = Err (errors_New "invalid credentials").
Proof.
  eapply (login_failures_indistinguishable Scenario.svc 2000 Scenario.aliceDB
            "bob@example.com" "alice@example.com" "Secr3t!" "secret").
  - vm_compute. reflexivity.
  - vm_compute. reflexivity.
  - vm_compute. discriminate.
Defined.



(** C7 as stated fails: the credential service's [Register] does not look
    at its arguments before it hashes and inserts.  On an empty store, an
    empty email, an empty password or an empty name each yield a new id and
    one stored account. *)
Lemma register_empty_fields_counterexample :
  let register := auth_service.service.Register Scenario.svc Scenario.aliceID
                    "salt" 1000 Scenario.emptyDB in
  let accounts (r : auth_service.repository.DB * Result string) :=
    List.length (auth_service.repository.users r.1) in
  (register "" "Secr3t!" "Alice").2 = Ok Scenario.aliceID /\
  accounts (register "" "Secr3t!" "Alice") = 1%nat /\
  (register "alice@example.com" "" "Alice").2 = Ok Scenario.aliceID /\
  accounts (register "alice@example.com" "" "Alice") = 1%nat /\
  (register "alice@example.com" "Secr3t!" "").2 = Ok Scenario.aliceID /\
  accounts (register "alice@example.com" "Secr3t!" "") = 1%nat.
Proof. vm_compute. repeat split; reflexivity. Qed.

(** ** The request gate *)

Section RequestGate.
Import api_gateway api_gateway.http api_gateway.middleware.
Context {S : Type} (authClient : authpb.AuthServiceClient S)
        (next : Handler S).

Lemma Get_absent (h : gmap string (list string)) (key : string) :
  h !! key = None -> Get h key = "".
Proof. unfold Get. intros ->. reflexivity. Qed.

Lemma Error_Status (w : ResponseWriter) (msg : string) (code : Z) :
  Status w = None -> Status (Error w msg code) = Some code.
Proof. unfold Error, Write, WriteHeader. simpl. intros ->. reflexivity. Qed.

(** C4. The request gate answers 401 when the Authorization header is
    absent (or empty), when it does not start with the prefix [Bearer ],
    when the token is empty after trimming, and when the verifier reports
    the token invalid; it answers 500 when the call to the verifier fails;
    and when the verifier reports the token valid it calls the downstream
    handler on the request whose context holds the verified user id.  The
    last conjunct says these are the only outcomes: the downstream handler
    runs on verification success only. *)
Theorem auth_middleware_gate (w : ResponseWriter) (r : Request) (st : S) :
  let authHeader := Get (Header r) "Authorization" in
  let token := TrimSpace (TrimPrefix authHeader bearerPrefix) in
  let verdict :=
    authpb.ValidateToken authClient st {| authpb.vt_Token := token |} in
  let forwarded (resp : authpb.ValidateTokenResponse) :=
    next w
      (WithContext r
         (<[userIDKey := VString (authpb.vt_UserId resp)]> (Context r)))
      verdict.1 in
  let out := AuthMiddleware authClient next w r st in
  (Header r !! "Authorization" = None ->
   out = (st, Error w "Authorization header required" StatusUnauthorized)) /\
  (authHeader = "" ->
   out = (st, Error w "Authorization header required" StatusUnauthorized)) /\
  (authHeader <> "" -> HasPrefix authHeader bearerPrefix = false ->
   out = (st, Error w "Authorization header must start with 'Bearer '"
                StatusUnauthorized)) /\
  (HasPrefix authHeader bearerPrefix = true -> token = "" ->
   out = (st, Error w "Token cannot be empty" StatusUnauthorized)) /\
  (HasPrefix authHeader bearerPrefix = true -> token <> "" ->
   forall e, verdict.2 = Err e ->
   out = (verdict.1, Error w "Failed to validate token"
                       StatusInternalServerError)) /\
  (HasPrefix authHeader bearerPrefix = true -> token <> "" ->
   forall resp, verdict.2 = Ok resp -> authpb.vt_Valid resp = false ->
   out = (verdict.1, Error w ("Invalid token: " +:+ authpb.vt_Error resp)
                       StatusUnauthorized)) /\
  (HasPrefix authHeader bearerPrefix = true -> token <> "" ->
   forall resp, verdict.2 = Ok resp -> authpb.vt_Valid resp = true ->
   out = forwarded resp) /\
  ((exists resp, verdict.2 = Ok resp /\ authpb.vt_Valid resp = true /\
                 out = forwarded resp) \/
   (exists st' msg, out = (st', Error w msg StatusUnauthorized)) \/
   (exists st' msg, out = (st', Error w msg StatusInternalServerError))).
Proof.
  intros authHeader token verdict forwarded out.
  assert (Hempty : HasPrefix "" bearerPrefix = false) by reflexivity.
  subst out forwarded. unfold AuthMiddleware.
  fold authHeader. fold token. fold verdict.
  destruct (String.eqb authHeader "") eqn:Hhdr.
  { apply String.eqb_eq in Hhdr.
    repeat split; intros; try congruence; eauto. }
  apply String.eqb_neq in Hhdr.
  assert (Hpresent : Header r !! "Authorization" <> None).
  { intros Habs. apply Hhdr. apply Get_absent. exact Habs. }
  destruct (HasPrefix authHeader bearerPrefix) eqn:Hpre; cbn [negb].
  2: { repeat split; intros; try congruence; eauto. }
  destruct (String.eqb token "") eqn:Htok.
  { apply String.eqb_eq in Htok.
    repeat split; intros; try congruence; eauto. }
  apply String.eqb_neq in Htok.
  destruct verdict as [st' [resp|e]] eqn:Hverdict; cbn [fst snd].
  2: { repeat split; intros; try congruence; eauto. }
  destruct (authpb.vt_Valid resp) eqn:Hvalid; cbn [negb].
  - repeat split; intros; simplify_eq; try congruence; eauto.
  - repeat split; intros; simplify_eq; try congruence; eauto.
Qed.

End RequestGate.

(** ** The resource authorizer and the HTTP handlers *)

Section Gateway.
Import api_gateway api_gateway.http api_gateway.middleware
       api_gateway.handlers.
Context `{JSONUnmarshal UpdateUserRequest} `{JSONMarshal UserResponse}
        `{JSONUnmarshal RegisterRequest} `{JSONMarshal RegisterResponse}
        `{JSONUnmarshal LoginRequest} `{JSONMarshal LoginResponse}.

(** C5, as the code has it. With [a] the identity the request gate has
    attached and [q] the id parsed from the path, [authorizeUserAccess]
    succeeds (and returns [q]) if and only if [a] is not the empty string
    and [q = a]; it fails otherwise, and the handlers answer every such
    failure with 403 Forbidden without touching the back ends.  A non-empty
    identity asking for its own resource always passes. *)
Theorem authorize_self_access (r : Request) :
  let q := URLParam r "id" in
  let a := GetUserID (Context r) in
  (authorizeUserAccess r = Ok q <-> a <> "" /\ q = a) /\
  (forall id, authorizeUserAccess r = Ok id -> id = q) /\
  (a <> "" -> q <> a ->
   authorizeUserAccess r =
     Err (errors_New "forbidden: cannot access other users' data")) /\
  (a = "" ->
   authorizeUserAccess r = Err (errors_New "no authenticated user found")) /\
  (forall e, authorizeUserAccess r = Err e ->
   forall S (h : UserHandler S) (w : ResponseWriter) (st : S),
     GetUser h w r st = (st, Error w e StatusForbidden) /\
     UpdateUser h w r st = (st, Error w e StatusForbidden)).
Proof.
  intros q a. unfold GetUser, UpdateUser, authorizeUserAccess.
  fold q. fold a.
  destruct (String.eqb a "") eqn:Ha.
  { apply String.eqb_eq in Ha.
    repeat split; intros; destruct_and?; simplify_eq; try reflexivity;
      try congruence; try tauto. }
  apply String.eqb_neq in Ha.
  destruct (String.eqb q a) eqn:Hq; cbn [negb].
  - apply String.eqb_eq in Hq.
    repeat split; intros; destruct_and?; simplify_eq; try reflexivity;
      try congruence; try tauto.
  - apply String.eqb_neq in Hq.
    repeat split; intros; destruct_and?; simplify_eq; try reflexivity;
      try congruence; try tauto.
Qed.

(** C7, as the code has it. A register request whose email, password or
    name is empty is refused by the gateway's [Register] handler with 400
    Bad Request; the credential service is not called, so the state of the
    back ends is unchanged and no account is created. *)
Theorem http_register_rejects_empty_fields {S} (h : AuthHandler S)
    (w : ResponseWriter) (r : Request) (st : S) (body : string)
    (req : RegisterRequest) :
  Body r = Ok body ->
  Unmarshal body = Some req ->
  reg_Email req = "" \/ reg_Password req = "" \/ reg_Name req = "" ->
  Register h w r st =
    (st, Error w "Email,name and password are required" StatusBadRequest).
Proof.
  intros Hbody Hjson Hempty. unfold Register. rewrite Hbody, Hjson.
  destruct Hempty as [-> | [-> | ->]]; cbn [String.eqb orb];
    rewrite ?orb_true_r; reflexivity.
Qed.

(** What the gateway answers to a login the credential service accepts. *)
Lemma http_login_accepted (h : auth_service.handlers.AuthHandler)
    `{Bcrypt} `{jwt.Wire} (env uenv : Env) (w : ResponseWriter)
    (r : Request) (st : auth_service.handlers.State) (body token : string)
    (req : LoginRequest) :
  Body r = Ok body ->
  Unmarshal body = Some req ->
  login_Email req <> "" -> login_Password req <> "" ->
  auth_service.service.Login (auth_service.handlers.authService h) (now env)
    (auth_service.handlers.authDB st) (login_Email req) (login_Password req)
    = Ok token ->
  Login {| authClient := clients.AuthClient None h env uenv |} w r st =
    (st, Encode
           (WriteHeader (SetHeader w "Content-Type" "application/json")
              StatusOK)
           {| login_Token := token; login_UserID := ""; login_Name := "" |}).
Proof.
  intros Hbody Hjson Hemail Hpw Hlogin. unfold Login.
  rewrite Hbody, Hjson.
  apply String.eqb_neq in Hemail, Hpw. rewrite Hemail, Hpw. cbn [orb].
  cbn [authClient clients.AuthClient authpb.Login invoke].
  unfold auth_service.handlers.Login.
  cbn [authpb.lr_Email authpb.lr_Password].
  rewrite Hlogin. reflexivity.
Qed.

(** What the gateway answers to a login the credential service refuses:
    401 for every error, with the error text behind a fixed prefix. *)
Lemma http_login_refused (h : auth_service.handlers.AuthHandler)
    `{Bcrypt} `{jwt.Wire} (env uenv : Env) (w : ResponseWriter)
    (r : Request) (st : auth_service.handlers.State) (body : string)
    (req : LoginRequest) (e : error) :
  Body r = Ok body ->
  Unmarshal body = Some req ->
  login_Email req <> "" -> login_Password req <> "" ->
  auth_service.service.Login (auth_service.handlers.authService h) (now env)
    (auth_service.handlers.authDB st) (login_Email req) (login_Password req)
    = Err e ->
  Login {| authClient := clients.AuthClient None h env uenv |} w r st =
    (st, Error w ("Login failed: " +:+ rpcError e) StatusUnauthorized).
Proof.
  intros Hbody Hjson Hemail Hpw Hlogin. unfold Login.
  rewrite Hbody, Hjson.
  apply String.eqb_neq in Hemail, Hpw. rewrite Hemail, Hpw. cbn [orb].
  cbn [authClient clients.AuthClient authpb.Login invoke].
  unfold auth_service.handlers.Login.
  cbn [authpb.lr_Email authpb.lr_Password].
  rewrite Hlogin. reflexivity.
Qed.

End Gateway.

(** C8 fails on the code: the gateway answers Alice's successful login with
    status 200 and her token, but the [user_id] and the [name] of the body
    are empty strings, although her account has the id [aliceID] and the
    name [Alice]: the auth service's [Login] handler fills both fields of
    its response with the empty string. *)
Theorem http_login_body_omits_identity :
  let out :=
    (api_gateway.handlers.Login (Deployment.authGateway 2000)
       api_gateway.http.NewResponse
       (Deployment.post
          (Reference.enc
             {| api_gateway.handlers.login_Email := "alice@example.com";
                api_gateway.handlers.login_Password := "Secr3t!" |}))
       Deployment.aliceState).2 in
  api_gateway.http.Status out = Some api_gateway.http.StatusOK /\
  api_gateway.http.Written out =
    Marshal {| api_gateway.handlers.login_Token := Deployment.aliceToken;
               api_gateway.handlers.login_UserID := "";
               api_gateway.handlers.login_Name := "" |}
    +:+ api_gateway.http.newline /\
  map (fun u => (auth_service.models.ID u, auth_service.models.Name u))
      (auth_service.repository.users
         (auth_service.handlers.authDB Deployment.aliceState))
    = [(Scenario.aliceID, "Alice")].
Proof. vm_compute. repeat split; reflexivity. Qed.

Lemma auth_middleware_gate_witness :
  let r := Deployment.onUser Scenario.aliceID
             ["Bearer " +:+ Deployment.aliceToken] "" in
  let next := api_gateway.handlers.GetUser (Deployment.userGateway 3000) in
  api_gateway.middleware.AuthMiddleware
    (api_gateway.handlers.authClient (Deployment.authGateway 3000)) next
    api_gateway.http.NewResponse r Deployment.aliceState
  = next api_gateway.http.NewResponse
      (Deployment.attached Scenario.aliceID r) Deployment.aliceState.
Proof.
  intros r next.
  pose proof (auth_middleware_gate
                (api_gateway.handlers.authClient (Deployment.authGateway 3000))
                next api_gateway.http.NewResponse r Deployment.aliceState)
    as Hgate.
  cbv zeta in Hgate.
  destruct Hgate as (_ & _ & _ & _ & _ & _ & Hpass & _).
  refine (Hpass _ _
            {| auth_service.pb.vt_Valid := true;
               auth_service.pb.vt_UserId := Scenario.aliceID;
               auth_service.pb.vt_Error := "" |} _ _).
  - vm_compute. reflexivity.
  - vm_compute. discriminate.
  - vm_compute. reflexivity.
  - reflexivity.
Defined.

(** C5 as stated fails: the identity attached to the request and the id in
    the path are equal (both are the empty string), and yet access is
    refused. *)
Lemma authorize_empty_identity_counterexample :
  let r := Deployment.attached "" (Deployment.onUser "" ["Bearer t"] "") in
  api_gateway.URLParam r "id"
    = api_gateway.middleware.GetUserID (api_gateway.http.Context r) /\
  api_gateway.handlers.authorizeUserAccess r
    = Err "no authenticated user found".
Proof. vm_compute. split; reflexivity. Qed.

Lemma authorize_self_access_witness :
  let r := Deployment.attached Scenario.aliceID
             (Deployment.onUser Scenario.aliceID ["Bearer t"] "") in
  api_gateway.handlers.authorizeUserAccess r = Ok Scenario.aliceID.
Proof.
  intros r.
  refine (proj2 (proj1 (authorize_self_access r)) (conj _ _)).
  - vm_compute. discriminate.
  - vm_compute. reflexivity.
Defined.

Lemma http_register_rejects_empty_fields_witness :
  let body := Reference.enc
                {| api_gateway.handlers.reg_Email := "alice@example.com";
                   api_gateway.handlers.reg_Password := "Secr3t!";
                   api_gateway.handlers.reg_Name := "" |} in
  api_gateway.handlers.Register (Deployment.authGateway 1000)
    api_gateway.http.NewResponse (Deployment.post body) Deployment.emptyState
  = (Deployment.emptyState,
     api_gateway.http.Error api_gateway.http.NewResponse
       "Email,name and password are required"
       api_gateway.http.StatusBadRequest).
Proof.
  intros body.
  apply (http_register_rejects_empty_fields (Deployment.authGateway 1000)
           api_gateway.http.NewResponse (Deployment.post body)
           Deployment.emptyState body
           {| api_gateway.handlers.reg_Email := "alice@example.com";
              api_gateway.handlers.reg_Password := "Secr3t!";
              api_gateway.handlers.reg_Name := "" |}).
  - reflexivity.
  - vm_compute. reflexivity.
  - right. right. reflexivity.
Defined.

(** ** Identity mirroring *)

Section Mirror.
Context `{Bcrypt} `{jwt.Wire}.
Import auth_service.models auth_service.repository auth_service.service
       auth_service.handlers.

(** A refused [CreateUser] leaves the profile store as it was. *)
Lemma CreateUser_refused (newID : string) (now : Z)
    (db db' : user_service.repository.DB)
    (req : user_service.pb.CreateUserRequest)
    (resp : user_service.pb.CreateUserResponse) :
  user_service.handlers.CreateUser newID now db req = (db', Ok resp) ->
  user_service.pb.cu_Error resp <> "" ->
  db' = db.
Proof.
  unfold user_service.handlers.CreateUser, user_service.service.CreateUser,
    user_service.repository.CreateUser, user_service.repository.insertUser.
  repeat match goal with
         | |- context [if ?b then _ else _] => destruct b
         | |- context [match ?o with Some _ => _ | None => _ end] =>
             destruct o
         end;
    intros Heq Herr; injection Heq as <- <-; try reflexivity;
    exfalso; apply Herr; reflexivity.
Qed.

Lemma mirror_failure_unchanged (link : option error) (newID : string)
    (now : Z) (db db' : user_service.repository.DB)
    (req : user_service.pb.CreateUserRequest)
    (mirror : Result user_service.pb.CreateUserResponse) :
  invoke link (user_service.handlers.CreateUser newID now) db req
    = (db', mirror) ->
  (forall resp, mirror = Ok resp -> user_service.pb.cu_Error resp <> "") ->
  db' = db.
Proof.
  unfold invoke. destruct link as [e|].
  - intros [= <- _] _. reflexivity.
  - destruct (user_service.handlers.CreateUser newID now db req)
      as [db1 [resp|e]] eqn:Hcall; intros [= <- <-] Hfail.
    + exact (CreateUser_refused _ _ _ _ _ _ Hcall (Hfail resp eq_refl)).
    + unfold user_service.handlers.CreateUser in Hcall.
      destruct (user_service.service.CreateUser _ _ _ _ _ _ _) as [? []];
        discriminate.
Qed.

(** C6. When the credential store commit of [Register] has succeeded and
    the mirror call then fails (the user service cannot be reached, or it
    answers with an error), the auth service's [Register] reports failure;
    the credential store is left as the commit made it, with the new
    account in it under the returned id; and the profile store is
    unchanged, so that no profile has been created for the account. *)
Theorem register_mirror_failure (h : AuthHandler) (env uenv : Env)
    (st : State) (req : auth_service.pb.RegisterRequest) (adb : DB)
    (userID : string) (udb : user_service.repository.DB)
    (mirror : Result user_service.pb.CreateUserResponse) :
  auth_service.service.Register (authService h) (uuid env) (salt env)
    (now env) (authDB st) (auth_service.pb.rr_Email req)
    (auth_service.pb.rr_Password req) (auth_service.pb.rr_Name req)
    = (adb, Ok userID) ->
  invoke (userClient h)
    (user_service.handlers.CreateUser (uuid uenv) (now uenv)) (userDB st)
    {| user_service.pb.cu_UserId := userID;
       user_service.pb.cu_Email := auth_service.pb.rr_Email req;
       user_service.pb.cu_Name := auth_service.pb.rr_Name req;
       user_service.pb.cu_Phone := "" |}
    = (udb, mirror) ->
  (forall resp, mirror = Ok resp -> user_service.pb.cu_Error resp <> "") ->
  exists e st' account,
    auth_service.handlers.Register h env uenv st req = (st', Err e) /\
    authDB st' = adb /\
    GetUserByEmail (authDB st') (auth_service.pb.rr_Email req)
      = Ok (Some account) /\
    GetUserByID (authDB st') userID = Ok (Some account) /\
    ID account = userID /\
    userDB st' = userDB st /\
    (user_service.repository.GetUserByID (userDB st) userID = Ok None ->
     user_service.repository.GetUserByID (userDB st') userID = Ok None).
Proof.
  intros Hreg Hcall Hfail.
  pose proof (mirror_failure_unchanged _ _ _ _ _ _ _ Hcall Hfail) as ->.
  destruct (Register_Ok_inv _ _ _ _ _ _ _ _ _ _ Hreg)
    as (hashed & Hgen & Hfree & Hfresh & -> & Hup & Husers).
  set (account := {| ID := uuid env;
                     Email := auth_service.pb.rr_Email req;
                     Password := hashed; Name := auth_service.pb.rr_Name req;
                     CreatedAt := now env; LastLogin := zeroTime |}) in *.
  assert (exists e, mirror = Err e \/
            exists resp, mirror = Ok resp /\
                         user_service.pb.cu_Error resp = e /\ e <> "")
    as [e He].
  { destruct mirror as [resp|e].
    - exists (user_service.pb.cu_Error resp). right. exists resp.
      repeat split. apply Hfail. reflexivity.
    - exists e. left. reflexivity. }
  exists e, {| authDB := adb; userDB := userDB st |}, account.
  cbn [authDB userDB].
  split; [|split; [|split; [|split; [|split; [|split]]]]];
    try reflexivity; try (intros Hnone; exact Hnone).
  - unfold auth_service.handlers.Register. rewrite Hreg, Hcall.
    destruct He as [-> | (resp & -> & <- & Hne)]; [reflexivity|].
    apply String.eqb_neq in Hne. rewrite Hne. reflexivity.
  - unfold GetUserByEmail. rewrite Hup, Husers, (find_app_None _ _ _ Hfree).
    simpl. unfold hasEmail. simpl. rewrite String.eqb_refl. reflexivity.
  - unfold GetUserByID. rewrite Hup, Husers, (find_app_None _ _ _ Hfresh).
    simpl. unfold hasID. simpl. rewrite String.eqb_refl. reflexivity.
Qed.

End Mirror.

Lemma register_mirror_failure_witness :
  exists e st',
    auth_service.handlers.Register Deployment.isolatedH (Deployment.env 1000)
      (Deployment.uenv 1000) Deployment.emptyState Deployment.registerAlice
      = (st', Err e) /\
    auth_service.handlers.authDB st' = Scenario.aliceDB /\
    auth_service.handlers.userDB st'
      = auth_service.handlers.userDB Deployment.emptyState.
Proof.
  edestruct (register_mirror_failure Deployment.isolatedH
               (Deployment.env 1000) (Deployment.uenv 1000)
               Deployment.emptyState Deployment.registerAlice)
    as (e & st' & account & Hreg & Hauth & _ & _ & _ & Huser & _).
  - vm_compute. reflexivity.
  - vm_compute. reflexivity.
  - intros resp. vm_compute. discriminate.
  - exists e, st'. split; [exact Hreg|]. split; [exact Hauth|exact Huser].
Defined.

(** ** Profile updates *)

Section ProfileUpdate.
Import user_service.models user_service.repository.
Import api_gateway api_gateway.http api_gateway.handlers.
Context `{JSONUnmarshal UpdateUserRequest} `{JSONMarshal UserResponse}.




End ProfileUpdate.


(** ** Token verification *)

Section TokenVerification.
Context `{jwt.Wire}.
Import auth_service.service.

Lemma GetSigningMethod_HMAC (alg : string) (h : jwt.Hash) :
  jwt.GetSigningMethod alg = Some (jwt.SigningMethodHMAC h) ->
  alg = jwt.Alg (jwt.SigningMethodHMAC h).
Proof.
  unfold jwt.GetSigningMethod.
  destruct (String.eqb alg "HS256") eqn:H256.
  { apply String.eqb_eq in H256. intros [= <-]. exact H256. }
  destruct (String.eqb alg "HS384") eqn:H384.
  { apply String.eqb_eq in H384. intros [= <-]. exact H384. }
  destruct (String.eqb alg "HS512") eqn:H512.
  { apply String.eqb_eq in H512. intros [= <-]. exact H512. }
  case_bool_decide; discriminate.
Qed.

Lemma Validate_not_expired (claims : jwt.MapClaims) (now : Z) :
  jwt.Validate claims now = Ok tt ->
  forall e, claims !! "exp" = Some (VNumber e) -> now < e.
Proof.
  unfold jwt.Validate, jwt.parseNumericDate. intros Hok e He.
  rewrite He in Hok. case_bool_decide; [assumption|discriminate].
Qed.

(** A token [ValidateToken] accepts is well formed, signed with the process
    secret, not expired, and bound to the id returned. *)
Lemma ValidateToken_Ok_inv (s : AuthService) (now : Z)
    (tokenString id : string) :
  ValidateToken s now tokenString = Ok id ->
  exists d,
    decodeToken tokenString = Some d /\
    signedWith (jwtSecret s) d /\
    ~ expiredAt now d /\
    d_claims d !! "user_id" = Some (VString id).
Proof.
  unfold ValidateToken, jwt.Parse, jwt.ParseUnverified, decodeToken.
  destruct (SplitDot tokenString) as [|p0 [|p1 [|p2 [|p3 ps]]]];
    try discriminate.
  destruct (jwt.DecodeSegment p0 ≫= jwt.UnmarshalObject) as [header|];
    [|discriminate].
  destruct (jwt.DecodeSegment p1 ≫= jwt.UnmarshalObject) as [claims|];
    [|discriminate].
  destruct (header !! "alg") as [[alg| | |]|] eqn:Halg; try discriminate.
  destruct (jwt.GetSigningMethod alg) as [[h|other]|] eqn:Hmethod;
    try discriminate; cbn [nth].
  - destruct (jwt.DecodeSegment p2) as [sig|]; [|discriminate].
    cbn [jwt.Method jwt.Claims jwt.Verify].
    destruct (String.eqb sig _) eqn:Hsig; [|discriminate].
    destruct (jwt.Validate claims now) as [[]|e] eqn:Hvalid; [|discriminate].
    cbn [jwt.Valid jwt.Claims negb].
    destruct (claims !! "user_id") as [[uid| | |]|] eqn:Huid;
      try discriminate.
    intros [= ->]. eexists. split; [reflexivity|].
    unfold signedWith, expiredAt.
    cbn [d_header d_claims d_signature d_input].
    split; [|split; [|exact Huid]].
    + exists h. split.
      * rewrite Halg. do 2 f_equal.
        exact (GetSigningMethod_HMAC _ _ Hmethod).
      * apply String.eqb_eq. exact Hsig.
    + intros (e & He & Hle).
      pose proof (Validate_not_expired _ _ Hvalid e He). lia.
  - destruct (jwt.DecodeSegment p2) as [sig|]; discriminate.
Qed.

Lemma decodeToken_minted (secret id : string) (now : Z) :
  let t := jwt.NewWithClaims jwt.SigningMethodHS256 (loginClaims id now) in
  decodeToken (minted secret id now) =
    Some {| d_header := jwt.Header t; d_claims := loginClaims id now;
            d_signature := jwt.HMAC jwt.SHA256 secret (jwt.SigningString t);
            d_input := jwt.SigningString t |}.
Proof.
  intros t. unfold decodeToken, minted. fold t. unfold jwt.SigningString.
  rewrite !append_assoc.
  rewrite SplitDot_three by apply jwt.encode_segment_noDot.
  rewrite !jwt.decode_encode_segment. cbn [mbind option_bind].
  rewrite !jwt.unmarshal_marshal_object. reflexivity.
Qed.


End TokenVerification.


(** ** The end-to-end scenario of the specification

    Alice registers and logs in through the gateway; her token has three
    dot-separated segments; with it she reads her own profile (200), is
    refused another id (403), and without a header is refused (401). *)
Example end_to_end :
  let gw h := api_gateway.middleware.AuthMiddleware
                (api_gateway.handlers.authClient (Deployment.authGateway 3000))
                (api_gateway.handlers.GetUser (Deployment.userGateway 3000))
                api_gateway.http.NewResponse h Deployment.aliceState in
  let bearer := ["Bearer " +:+ Deployment.aliceToken] in
  let registered :=
    api_gateway.handlers.Register (Deployment.authGateway 1000)
      api_gateway.http.NewResponse
      (Deployment.post
         (Reference.enc
            {| api_gateway.handlers.reg_Email := "alice@example.com";
               api_gateway.handlers.reg_Password := "Secr3t!";
               api_gateway.handlers.reg_Name := "Alice" |}))
      Deployment.emptyState in
  registered.1 = Deployment.aliceState /\
  api_gateway.http.Status registered.2 = Some 201 /\
  List.length (SplitDot Deployment.aliceToken) = 3%nat /\
  api_gateway.http.Status (gw (Deployment.onUser Scenario.aliceID bearer "")).2
    = Some 200 /\
  api_gateway.http.Status
    (gw (Deployment.onUser "0b7e4c0a-52d1-4c6f-8a3e-6f1d2c3b4a59" bearer "")).2
    = Some 403 /\
  api_gateway.http.Status (gw (Deployment.post "")).2 = Some 401.
Proof. vm_compute. repeat split; reflexivity. Qed.

(** * Further properties of the code *)

(** ** The credential store *)

(** No two accounts share an id or an email. *)
Definition uniqueAccounts (db : auth_service.repository.DB) : Prop :=
  NoDup (map auth_service.models.ID (auth_service.repository.users db)) /\
  NoDup (map auth_service.models.Email (auth_service.repository.users db)).

Section CredentialStore.
Context `{Bcrypt} `{jwt.Wire}.
Import auth_service.models auth_service.repository auth_service.service.

Lemma find_hasEmail_In (email : string) (l : list User) (u : User) :
  In u l -> Email u = email -> exists v, List.find (hasEmail email) l = Some v.
Proof.
  intros Hin Hemail. destruct (List.find (hasEmail email) l) eqn:Hfind; eauto.
  pose proof (List.find_none _ _ Hfind u Hin) as Hno.
  unfold hasEmail in Hno. rewrite Hemail, String.eqb_refl in Hno.
  discriminate.
Qed.

(** A failed [Register] leaves the credential store as it was. *)
Lemma Register_Err_unchanged (s : AuthService) (newID salt : string)
    (now : Z) (db db' : DB) (email password name : string) (e : error) :
  Register s newID salt now db email password name = (db', Err e) -> db' = db.
Proof.
  unfold Register, GetUserByEmail, CreateUser, insertUser.
  destruct (down db); [intros [= <- _]; reflexivity|].
  destruct (List.find _ _); [intros [= <- _]; reflexivity|].
  destruct (GenerateFromPassword _ _ _); [|intros [= <- _]; reflexivity].
  cbn [ID Email].
  destruct (existsb (hasID newID) _); [intros [= <- _]; reflexivity|].
  destruct (existsb (hasEmail email) _); [intros [= <- _]; reflexivity|].
  discriminate.
Qed.

(** X1. [Register] with the email of an account the store holds fails with
    [email already registered] and leaves the store, and so that account,
    untouched. *)
Theorem register_duplicate_email (s : AuthService) (newID salt : string)
    (now : Z) (db : DB) (email password name : string) (account : User) :
  down db = None ->
  In account (users db) ->
  Email account = email ->
  Register s newID salt now db email password name
    = (db, Err (errors_New "email already registered")).
Proof.
  intros Hup Hin Hemail. unfold Register, GetUserByEmail. rewrite Hup.
  destruct (find_hasEmail_In email _ account Hin Hemail) as [v ->].
  reflexivity.
Qed.

(** X2. [Register] keeps the store's uniqueness invariant and never removes
    or changes an account: the accounts it leaves are the accounts it found,
    followed by the new one when it succeeds; when it fails the store is
    unchanged. *)
Theorem register_preserves_accounts (s : AuthService) (newID salt : string)
    (now : Z) (db db' : DB) (email password name : string)
    (r : Result string) :
  uniqueAccounts db ->
  Register s newID salt now db email password name = (db', r) ->
  uniqueAccounts db' /\
  (exists added, users db' = users db ++ added /\
                 (List.length added <= 1)%nat /\
                 (forall e, r = Err e -> added = [])) /\
  (forall e, r = Err e -> db' = db).
Proof.
  intros [Hids Hemails] Hreg. destruct r as [id|e].
  - destruct (Register_Ok_inv _ _ _ _ _ _ _ _ _ _ Hreg)
      as (hashed & _ & Hfree & Hfresh & -> & _ & Husers).
    split; [|split].
    + unfold uniqueAccounts. rewrite Husers, !map_app. cbn [map ID Email].
      split; apply list.NoDup_app;
        (split; [assumption|split; [|apply list.NoDup_singleton]]).
      * intros x Hx ->%list_elem_of_singleton.
        apply list_elem_of_In, in_map_iff in Hx as (u & Hu & Hin).
        pose proof (List.find_none _ _ Hfresh u Hin) as Hno.
        unfold hasID in Hno. rewrite Hu, String.eqb_refl in Hno.
        discriminate.
      * intros x Hx ->%list_elem_of_singleton.
        apply list_elem_of_In, in_map_iff in Hx as (u & Hu & Hin).
        pose proof (List.find_none _ _ Hfree u Hin) as Hno.
        unfold hasEmail in Hno. rewrite Hu, String.eqb_refl in Hno.
        discriminate.
    + eexists. split; [exact Husers|]. split; [simpl; lia|discriminate].
    + discriminate.
  - pose proof (Register_Err_unchanged _ _ _ _ _ _ _ _ _ _ Hreg) as ->.
    split; [split; assumption|]. split; [|reflexivity].
    exists []. rewrite app_nil_r. split; [reflexivity|]. split; [simpl; lia|].
    reflexivity.
Qed.

End CredentialStore.

Lemma register_duplicate_email_witness :
  auth_service.service.Register Scenario.svc Deployment.bobID "pepper" 5000
    Scenario.aliceDB "alice@example.com" "another password" "Alice II"
  = (Scenario.aliceDB, Err (errors_New "email already registered")).
Proof.
  eapply (register_duplicate_email Scenario.svc Deployment.bobID "pepper"
            5000 Scenario.aliceDB).
  - vm_compute. reflexivity.
  - vm_compute. left. reflexivity.
  - reflexivity.
Defined.

Lemma register_preserves_accounts_witness :
  exists db',
    auth_service.service.Register Scenario.svc Deployment.bobID "salt" 1500
      Scenario.aliceDB "bob@example.com" "hunter2" "Bob"
      = (db', Ok Deployment.bobID) /\
    uniqueAccounts db' /\
    exists bob, auth_service.repository.users db'
                = (auth_service.repository.users Scenario.aliceDB ++ [bob])%list.
Proof.
  epose proof (register_preserves_accounts Scenario.svc Deployment.bobID
                 "salt" 1500 Scenario.aliceDB _ "bob@example.com" "hunter2"
                 "Bob" _) as Hkept.
  edestruct Hkept as (Huniq & _).
  - split; vm_compute; apply list.NoDup_singleton.
  - vm_compute. reflexivity.
  - eexists. split; [vm_compute; reflexivity|]. split; [exact Huniq|].
    eexists. vm_compute. reflexivity.
Defined.

(** ** Login and the lifetime of its token *)

Section LoginToken.
Context `{Bcrypt} `{jwt.Wire}.
Import auth_service.models auth_service.repository auth_service.service.

(** X3. [Login] gives a token only to a caller who names the email of a
    stored account and a password that bcrypt accepts against that account's
    stored hash; the token is the HS256 token that binds that account's id
    and expires 24 hours after the login. *)
Theorem login_only_with_matching_password (s : AuthService) (now : Z)
    (db : DB) (email password token : string) :
  Login s now db email password = Ok token ->
  exists user,
    down db = None /\
    In user (users db) /\ Email user = email /\
    CompareHashAndPassword (Password user) password = Ok tt /\
    token = minted (jwtSecret s) (ID user) now.
Proof.
  unfold Login, GetUserByEmail.
  destruct (down db); [discriminate|].
  destruct (List.find (hasEmail email) (users db)) as [user|] eqn:Hfind;
    [|discriminate].
  destruct (CompareHashAndPassword _ _) as [[]|e] eqn:Hcmp; [|discriminate].
  intros [= <-]. exists user.
  apply List.find_some in Hfind as [Hin Hemail].
  apply String.eqb_eq in Hemail. auto.
Qed.

(** A minted token is accepted only for the id it binds, and only before
    its expiry. *)
Lemma ValidateToken_minted_inv (s : AuthService) (id id' : string)
    (now now' : Z) :
  ValidateToken s now' (minted (jwtSecret s) id now) = Ok id' ->
  id' = id /\ now' < now + 24 * Hour.
Proof.
  intros Hok.
  destruct (ValidateToken_Ok_inv s now' _ id' Hok)
    as (d & Hd & _ & Hfresh & Hid).
  rewrite decodeToken_minted in Hd. injection Hd as <-.
  cbn [d_claims] in *. rewrite loginClaims_user_id in Hid.
  injection Hid as ->. split; [reflexivity|].
  destruct (Z.lt_ge_cases now' (now + 24 * Hour)) as [Hlt|Hge];
    [exact Hlt|].
  exfalso. apply Hfresh. exists (now + 24 * Hour).
  split; [apply loginClaims_exp|exact Hge].
Qed.

(** X4. The token of a successful [Login] at time [now] is valid for
    exactly 24 hours: [ValidateToken] at time [now'] returns an id if and
    only if [now' < now + 86400], and the id is then the id of the account
    that logged in. *)
Theorem login_token_lifetime (s : AuthService) (now now' : Z) (db : DB)
    (email password token : string) :
  Login s now db email password = Ok token ->
  exists user,
    GetUserByEmail db email = Ok (Some user) /\
    (forall id, ValidateToken s now' token = Ok id <->
                id = ID user /\ now' < now + 24 * Hour) /\
    (now + 24 * Hour <= now' -> exists e, ValidateToken s now' token = Err e).
Proof.
  unfold Login.
  destruct (GetUserByEmail db email) as [[user|]|] eqn:Hget;
    try discriminate.
  destruct (CompareHashAndPassword _ _) as [[]|]; [|discriminate].
  intros [= <-]. exists user. split; [reflexivity|]. split.
  - intros id. split.
    + apply ValidateToken_minted_inv.
    + intros [-> Hlt]. apply ValidateToken_minted. exact Hlt.
  - intros Hlate.
    destruct (ValidateToken s now' _) as [id|e] eqn:Hv; [|eauto].
    apply ValidateToken_minted_inv in Hv as [_ Hlt]. lia.
Qed.

End LoginToken.

Lemma login_only_with_matching_password_witness :
  exists user,
    In user (auth_service.repository.users Scenario.aliceDB) /\
    CompareHashAndPassword (auth_service.models.Password user) "Secr3t!"
      = Ok tt /\
    Deployment.aliceToken
      = minted (auth_service.service.jwtSecret Scenario.svc)
          (auth_service.models.ID user) 2000.
Proof.
  destruct (login_only_with_matching_password Scenario.svc 2000
              Scenario.aliceDB "alice@example.com" "Secr3t!"
              Deployment.aliceToken)
    as (user & _ & Hin & _ & Hpw & Htoken).
  - vm_compute. reflexivity.
  - exists user. split; [exact Hin|]. split; [exact Hpw|exact Htoken].
Defined.

Lemma login_token_lifetime_witness :
  auth_service.service.ValidateToken Scenario.svc (2000 + 24 * Hour - 1)
    Deployment.aliceToken = Ok Scenario.aliceID /\
  exists e,
    auth_service.service.ValidateToken Scenario.svc (2000 + 24 * Hour)
      Deployment.aliceToken = Err e.
Proof.
  split.
  - destruct (login_token_lifetime Scenario.svc 2000 (2000 + 24 * Hour - 1)
                Scenario.aliceDB "alice@example.com" "Secr3t!"
                Deployment.aliceToken)
      as (user & Hget & Hiff & _).
    + vm_compute. reflexivity.
    + apply Hiff. split; [|lia].
      vm_compute in Hget. injection Hget as <-. reflexivity.
  - destruct (login_token_lifetime Scenario.svc 2000 (2000 + 24 * Hour)
                Scenario.aliceDB "alice@example.com" "Secr3t!"
                Deployment.aliceToken)
      as (user & _ & _ & Hlate).
    + vm_compute. reflexivity.
    + apply Hlate. lia.
Defined.

(** ** What [ValidateToken] accepts *)

Section TokenAcceptance.
Context `{jwt.Wire}.
Import auth_service.service.

Lemma GetSigningMethod_Alg (h : jwt.Hash) :
  jwt.GetSigningMethod (jwt.Alg (jwt.SigningMethodHMAC h))
    = Some (jwt.SigningMethodHMAC h).
Proof. destruct h; reflexivity. Qed.

(** The verdict of [ValidateToken] on a token that decodes and is signed
    with the process secret: the claims are validated, then the subject is
    read. *)
Lemma ValidateToken_signed (s : AuthService) (now : Z) (tokenString : string)
    (d : Decoded) :
  decodeToken tokenString = Some d ->
  signedWith (jwtSecret s) d ->
  ValidateToken s now tokenString =
    match jwt.Validate (d_claims d) now with
    | Err e => Err (jwt.ErrTokenInvalidClaims +:+ ": " +:+ e)
    | Ok _ =>
        match d_claims d !! "user_id" with
        | Some (VString id) => Ok id
        | _ => Err (errors_New "Invalid token claims")
        end
    end.
Proof.
  unfold decodeToken, ValidateToken, jwt.Parse, jwt.ParseUnverified.
  destruct (SplitDot tokenString) as [|p0 [|p1 [|p2 [|p3 ps]]]];
    try discriminate.
  destruct (jwt.DecodeSegment p0 ≫= jwt.UnmarshalObject) as [header|];
    [|discriminate].
  destruct (jwt.DecodeSegment p1 ≫= jwt.UnmarshalObject) as [claims|];
    [|discriminate].
  cbn [mbind option_bind].
  destruct (jwt.DecodeSegment p2) as [sig|] eqn:Hsig; [|discriminate].
  cbn [mbind option_bind]. intros [= <-] (h & Halg & Htag).
  cbn [d_header d_claims d_signature d_input] in *.
  rewrite Halg, GetSigningMethod_Alg. cbn [nth]. rewrite Hsig.
  cbn [jwt.Method jwt.Claims jwt.Verify]. rewrite Htag, String.eqb_refl.
  destruct (jwt.Validate claims now) as [[]|e]; [|reflexivity].
  cbn [jwt.Valid jwt.Claims negb].
  destruct (claims !! "user_id") as [[]|]; reflexivity.
Qed.


(** X6. A token that is correctly signed and whose date claims hold, but
    whose [user_id] claim is missing or is not a string, is refused with
    [Invalid token claims]. *)
Theorem validate_token_subject_required (s : AuthService) (now : Z)
    (tokenString : string) (d : Decoded) :
  decodeToken tokenString = Some d ->
  signedWith (jwtSecret s) d ->
  jwt.Validate (d_claims d) now = Ok tt ->
  (forall id, d_claims d !! "user_id" <> Some (VString id)) ->
  ValidateToken s now tokenString = Err (errors_New "Invalid token claims").
Proof.
  intros Hd Hsigned Hvalid Hsubject.
  rewrite (ValidateToken_signed s now _ d Hd Hsigned), Hvalid.
  destruct (d_claims d !! "user_id") as [[id| | |]|] eqn:Hid;
    try reflexivity.
  destruct (Hsubject id eq_refl).
Qed.

End TokenAcceptance.


Lemma validate_token_subject_required_witness :
  auth_service.service.ValidateToken Scenario.svc 3000
    Deployment.anonymousToken = Err (errors_New "Invalid token claims").
Proof.
  eapply (validate_token_subject_required Scenario.svc 3000
            Deployment.anonymousToken).
  - vm_compute. reflexivity.
  - exists jwt.SHA256. split; vm_compute; reflexivity.
  - vm_compute. reflexivity.
  - intros id. vm_compute. discriminate.
Defined.

(** ** The request gate in front of the handlers *)

Section GateComposition.
Import api_gateway api_gateway.http api_gateway.middleware
       api_gateway.handlers.
Context `{Bcrypt} `{jwt.Wire}.
Context `{JSONUnmarshal UpdateUserRequest} `{JSONMarshal UserResponse}
        `{JSONUnmarshal LoginRequest} `{JSONMarshal LoginResponse}
        `{JSONUnmarshal AddAddressRequest} `{JSONMarshal AddressResponse}
        `{JSONMarshal (list AddressResponse)}
        `{JSONMarshal DeleteUserResponse}.

Abbreviation State := auth_service.handlers.State.

Lemma HasPrefix_bearer_nonempty (authHeader : string) :
  HasPrefix authHeader bearerPrefix = true -> String.eqb authHeader "" = false.
Proof. destruct authHeader; [discriminate|reflexivity]. Qed.

(** The gate in front of a reachable auth service. *)
Lemma AuthMiddleware_reachable (h : auth_service.handlers.AuthHandler)
    (env uenv : Env) (next : Handler State) (w : ResponseWriter)
    (r : Request) (st : State) :
  let authHeader := Get (Header r) "Authorization" in
  let token := TrimSpace (TrimPrefix authHeader bearerPrefix) in
  HasPrefix authHeader bearerPrefix = true ->
  token <> "" ->
  AuthMiddleware (clients.AuthClient None h env uenv) next w r st =
    match auth_service.service.ValidateToken
            (auth_service.handlers.authService h) (now env) token with
    | Ok uid =>
        next w (WithContext r (<[userIDKey := VString uid]> (Context r))) st
    | Err e => (st, Error w ("Invalid token: " +:+ e) StatusUnauthorized)
    end.
Proof.
  intros authHeader token Hprefix Htoken. unfold AuthMiddleware.
  fold authHeader. fold token.
  rewrite (HasPrefix_bearer_nonempty _ Hprefix), Hprefix. cbn [negb].
  apply String.eqb_neq in Htoken. rewrite Htoken.
  cbn [clients.AuthClient authpb.ValidateToken invoke].
  unfold auth_service.handlers.ValidateToken. cbn [authpb.vt_Token].
  destruct (auth_service.service.ValidateToken _ _ token); reflexivity.
Qed.


(** The authorizer on a request to which the gate has attached [uid]. *)
Lemma authorize_attached (r : Request) (uid : string) :
  authorizeUserAccess
    (WithContext r (<[userIDKey := VString uid]> (Context r))) =
  if String.eqb uid "" then Err (errors_New "no authenticated user found")
  else if String.eqb (URLParam r "id") uid then Ok (URLParam r "id")
  else Err (errors_New "forbidden: cannot access other users' data").
Proof.
  unfold authorizeUserAccess, GetUserID, URLParam.
  cbn [WithContext Context URLParams]. rewrite lookup_insert_eq.
  destruct (String.eqb uid ""); [reflexivity|].
  destruct (String.eqb _ uid); reflexivity.
Qed.

(** X8. Self-access, end to end. Behind the gate, a request whose token is
    valid for the id [uid] but whose path names another id is answered 403
    by every protected handler, and the stores are unchanged: the user
    service is not called, whatever client the handler holds. *)
Theorem gate_enforces_self_access (h : auth_service.handlers.AuthHandler)
    (env uenv : Env) (w : ResponseWriter) (r : Request) (st : State)
    (uid : string) :
  let authHeader := Get (Header r) "Authorization" in
  let token := TrimSpace (TrimPrefix authHeader bearerPrefix) in
  let behindGate (handler : Handler State) :=
    AuthMiddleware (clients.AuthClient None h env uenv) handler w r st in
  HasPrefix authHeader bearerPrefix = true ->
  token <> "" ->
  auth_service.service.ValidateToken (auth_service.handlers.authService h)
    (now env) token = Ok uid ->
  URLParam r "id" <> uid ->
  exists e,
    forall (c : userpb.UserServiceClient State)
           (c' : userpb.UserServiceClientRest State),
      behindGate (GetUser {| userClient := c |})
        = (st, Error w e StatusForbidden) /\
      behindGate (UpdateUser {| userClient := c |})
        = (st, Error w e StatusForbidden) /\
      behindGate (DeleteUser c') = (st, Error w e StatusForbidden) /\
      behindGate (AddAddress c') = (st, Error w e StatusForbidden) /\
      behindGate (GetAddresses c') = (st, Error w e StatusForbidden).
Proof.
  intros authHeader token behindGate Hprefix Htoken Hvalid Hother.
  pose proof (authorize_attached r uid) as Hauth.
  apply String.eqb_neq in Hother. rewrite Hother in Hauth.
  assert (exists e,
            authorizeUserAccess
              (WithContext r (<[userIDKey := VString uid]> (Context r)))
            = Err e) as [e He].
  { destruct (String.eqb uid ""); eauto. }
  exists e. intros c c'. subst behindGate. cbv beta.
  rewrite !(AuthMiddleware_reachable h env uenv _ w r st Hprefix Htoken).
  unfold token, authHeader in Hvalid. rewrite Hvalid.
  unfold GetUser, UpdateUser, DeleteUser, AddAddress, GetAddresses.
  rewrite He. repeat split; reflexivity.
Qed.

(** X9. The read paths write nothing. Whatever the request and whether or
    not the services can be reached, the gateway's [Login], [GetUser] and
    [GetAddresses] handlers leave both stores as they found them, and the
    gate hands the stores unchanged to a downstream handler. *)
Theorem read_paths_leave_stores (authLink userLink : option error)
    (h : auth_service.handlers.AuthHandler) (env uenv : Env)
    (w : ResponseWriter) (r : Request) (st : State) :
  (Login {| authClient := clients.AuthClient authLink h env uenv |} w r st).1
    = st /\
  (GetUser {| userClient := clients.UserClient userLink uenv |} w r st).1
    = st /\
  (GetAddresses (clients.UserClientRest userLink uenv) w r st).1 = st /\
  (forall next : Handler State,
     (forall w' r' st', (next w' r' st').1 = st') ->
     (AuthMiddleware (clients.AuthClient authLink h env uenv) next w r st).1
       = st).
Proof.
  destruct st as [adb udb]. repeat split.
  - unfold Login. destruct (Body r); [|reflexivity].
    destruct (Unmarshal _); [|reflexivity].
    destruct (_ || _); [reflexivity|].
    destruct authLink;
      cbn [authClient clients.AuthClient authpb.Login invoke]; [reflexivity|].
    unfold auth_service.handlers.Login.
    cbn [authpb.lr_Email authpb.lr_Password auth_service.handlers.authDB].
    destruct (auth_service.service.Login _ _ _ _ _); reflexivity.
  - unfold GetUser. destruct (authorizeUserAccess r); [|reflexivity].
    destruct userLink;
      cbn [userClient clients.UserClient userpb.GetUser invoke];
      [reflexivity|].
    unfold clients.onUserDB, user_service.handlers.GetUser.
    cbn [auth_service.handlers.userDB auth_service.handlers.authDB
         userpb.gu_UserId].
    destruct (user_service.service.GetUser _ _);
      cbn [userpb.gu_Error userpb.gu_User]; [reflexivity|].
    destruct (String.eqb _ ""); reflexivity.
  - unfold GetAddresses. destruct (authorizeUserAccess r); [|reflexivity].
    destruct userLink;
      cbn [clients.UserClientRest userpb.GetAddresses invoke];
      [reflexivity|].
    unfold clients.onUserDB, user_service.handlers.GetAddresses.
    cbn [auth_service.handlers.userDB auth_service.handlers.authDB
         userpb.ga_UserId].
    destruct (user_service.service.GetAddresses _ _);
      cbn [userpb.ga_Error userpb.ga_Addresses]; [reflexivity|].
    destruct (String.eqb _ ""); reflexivity.
  - intros next Hnext. unfold AuthMiddleware.
    destruct (String.eqb _ ""); [reflexivity|].
    destruct (HasPrefix _ _); [|reflexivity]. cbn [negb].
    destruct (String.eqb _ ""); [reflexivity|].
    destruct authLink;
      cbn [clients.AuthClient authpb.ValidateToken invoke]; [reflexivity|].
    unfold auth_service.handlers.ValidateToken. cbn [authpb.vt_Token].
    destruct (auth_service.service.ValidateToken _ _ _);
      cbn [authpb.vt_Valid negb]; [apply Hnext|reflexivity].
Qed.

(** X10. The gateway's [Login] handler refuses, with 400 and without
    calling the auth service, a body that cannot be read, a body that is not
    the JSON of a login request, and a request whose email or password is
    empty. *)
Theorem http_login_rejects_bad_input {S} (h : AuthHandler S)
    (w : ResponseWriter) (r : Request) (st : S) :
  (forall e, Body r = Err e ->
   Login h w r st
     = (st, Error w "Failed to read request body" StatusBadRequest)) /\
  (forall body, Body r = Ok body ->
   Unmarshal (T := LoginRequest) body = None ->
   Login h w r st = (st, Error w "Failed to parse JSON" StatusBadRequest)) /\
  (forall body req, Body r = Ok body -> Unmarshal body = Some req ->
   login_Email req = "" \/ login_Password req = "" ->
   Login h w r st
     = (st, Error w "Email and password are required" StatusBadRequest)).
Proof.
  unfold Login. repeat split.
  - intros e ->. reflexivity.
  - intros body -> ->. reflexivity.
  - intros body req -> -> [-> | ->]; cbn [String.eqb orb];
      rewrite ?orb_true_r; reflexivity.
Qed.

End GateComposition.


Lemma gate_enforces_self_access_witness :
  let r := Deployment.onUser Deployment.bobID
             ["Bearer " +:+ Deployment.aliceToken] "" in
  exists e,
    api_gateway.middleware.AuthMiddleware
      (api_gateway.clients.AuthClient None Deployment.authH
         (Deployment.env 3000) (Deployment.uenv 3000))
      (api_gateway.handlers.DeleteUser (Deployment.userRest 3000))
      api_gateway.http.NewResponse r Deployment.aliceState
    = (Deployment.aliceState,
       api_gateway.http.Error api_gateway.http.NewResponse e
         api_gateway.http.StatusForbidden).
Proof.
  intros r.
  destruct (gate_enforces_self_access Deployment.authH (Deployment.env 3000)
              (Deployment.uenv 3000) api_gateway.http.NewResponse r
              Deployment.aliceState Scenario.aliceID) as (e & Hforbidden).
  - vm_compute. reflexivity.
  - vm_compute. discriminate.
  - vm_compute. reflexivity.
  - vm_compute. discriminate.
  - exists e.
    destruct (Hforbidden (api_gateway.clients.UserClient None
                            (Deployment.uenv 3000))
                (Deployment.userRest 3000)) as (_ & _ & Hdelete & _).
    exact Hdelete.
Defined.

Lemma read_paths_leave_stores_witness :
  let r := Deployment.onUser Scenario.aliceID
             ["Bearer " +:+ Deployment.aliceToken] "" in
  (api_gateway.middleware.AuthMiddleware
     (api_gateway.clients.AuthClient None Deployment.authH
        (Deployment.env 3000) (Deployment.uenv 3000))
     (api_gateway.handlers.GetUser (Deployment.userGateway 3000))
     api_gateway.http.NewResponse r Deployment.aliceState).1
  = Deployment.aliceState.
Proof.
  intros r.
  destruct (read_paths_leave_stores None None Deployment.authH
              (Deployment.env 3000) (Deployment.uenv 3000)
              api_gateway.http.NewResponse r Deployment.aliceState)
    as (_ & _ & _ & Hgate).
  apply Hgate. intros w' r' st'.
  exact (proj1 (proj2 (read_paths_leave_stores None None Deployment.authH
                         (Deployment.env 3000) (Deployment.uenv 3000)
                         w' r' st'))).
Defined.

Lemma http_login_rejects_bad_input_witness :
  let body := Reference.enc
                {| api_gateway.handlers.login_Email := "alice@example.com";
                   api_gateway.handlers.login_Password := "" |} in
  api_gateway.handlers.Login (Deployment.authGateway 2000)
    api_gateway.http.NewResponse (Deployment.post body) Deployment.aliceState
  = (Deployment.aliceState,
     api_gateway.http.Error api_gateway.http.NewResponse
       "Email and password are required" api_gateway.http.StatusBadRequest).
Proof.
  intros body.
  destruct (http_login_rejects_bad_input (Deployment.authGateway 2000)
              api_gateway.http.NewResponse (Deployment.post body)
              Deployment.aliceState) as (_ & _ & Hempty).
  eapply Hempty.
  - reflexivity.
  - vm_compute. reflexivity.
  - right. reflexivity.
Defined.

(** ** The profile store *)

(** No two profiles, deleted or not, share an id or an email. *)
Definition uniqueProfiles (db : user_service.repository.DB) : Prop :=
  NoDup (map user_service.models.ID (user_service.repository.users db)) /\
  NoDup (map user_service.models.Email (user_service.repository.users db)).

Section ProfileStore.
Import user_service.models user_service.repository.

Lemma withUsers_same (db : DB) : withUsers db (users db) = db.
Proof. destruct db. reflexivity. Qed.

(** What a successful [CreateUser] has done. *)
Lemma CreateUser_Ok_inv (newID : string) (now : Z) (db db' : DB)
    (userID email name phone : string) (user : User) :
  user_service.service.CreateUser newID now db userID email name phone
    = (db', Ok user) ->
  email <> "" /\ name <> "" /\ down db = None /\
  user = {| ID := if String.eqb userID "" then newID else userID;
            Email := email; Name := name; Phone := phone;
            CreatedAt := now; UpdatedAt := now; DeletedAt := None |} /\
  List.find (hasID (ID user)) (users db) = None /\
  List.find (hasEmail email) (users db) = None /\
  db' = withUsers db (users db ++ [user]).
Proof.
  unfold user_service.service.CreateUser, CreateUser, insertUser.
  destruct (String.eqb email "") eqn:Hemail; [discriminate|].
  destruct (String.eqb name "") eqn:Hname; [discriminate|].
  cbn [ID Email Name Phone CreatedAt UpdatedAt DeletedAt].
  destruct (down db) eqn:Hdown; [discriminate|].
  destruct (existsb (hasID _) _) eqn:Hid; [discriminate|].
  destruct (existsb (hasEmail email) _) eqn:Hmail; [discriminate|].
  intros [= <- <-]. apply String.eqb_neq in Hemail, Hname.
  cbn [ID]. auto 10 using existsb_false_find.
Qed.

(** A failed [CreateUser] leaves the profile store as it was. *)
Lemma CreateUser_Err_unchanged (newID : string) (now : Z) (db db' : DB)
    (userID email name phone : string) (e : error) :
  user_service.service.CreateUser newID now db userID email name phone
    = (db', Err e) -> db' = db.
Proof.
  unfold user_service.service.CreateUser, CreateUser, insertUser.
  destruct (String.eqb email ""); [intros [= <- _]; reflexivity|].
  destruct (String.eqb name ""); [intros [= <- _]; reflexivity|].
  destruct (down db); [intros [= <- _]; reflexivity|].
  destruct (existsb (hasID _) _); [intros [= <- _]; reflexivity|].
  destruct (existsb (hasEmail _) _); [intros [= <- _]; reflexivity|].
  discriminate.
Qed.

(** X11. [CreateUser] of the user service refuses an empty email with
    [email is required] and, the email given, an empty name with
    [name is required]; and whenever it fails, for these or any other
    reason, the profile store is unchanged. *)
Theorem create_user_failure (newID : string) (now : Z) (db : DB)
    (userID email name phone : string) :
  (email = "" ->
   user_service.service.CreateUser newID now db userID email name phone
     = (db, Err (errors_New "email is required"))) /\
  (email <> "" -> name = "" ->
   user_service.service.CreateUser newID now db userID email name phone
     = (db, Err (errors_New "name is required"))) /\
  (forall db' e,
   user_service.service.CreateUser newID now db userID email name phone
     = (db', Err e) -> db' = db).
Proof.
  repeat split.
  - intros ->. reflexivity.
  - intros Hemail ->. unfold user_service.service.CreateUser.
    apply String.eqb_neq in Hemail. rewrite Hemail. reflexivity.
  - intros db' e. apply CreateUser_Err_unchanged.
Qed.

(** The profile just created is the one [GetUser] finds under its id. *)
Lemma GetUser_created (newID : string) (now : Z) (db db' : DB)
    (userID email name phone : string) (user : User) :
  user_service.service.CreateUser newID now db userID email name phone
    = (db', Ok user) ->
  ID user <> "" ->
  user_service.service.GetUser db' (ID user) = Ok user.
Proof.
  intros Hcreate Hid.
  destruct (CreateUser_Ok_inv _ _ _ _ _ _ _ _ _ Hcreate)
    as (_ & _ & Hup & Huser & Hfresh & _ & ->).
  unfold user_service.service.GetUser, GetUserByID.
  apply String.eqb_neq in Hid. rewrite Hid.
  cbn [withUsers down users]. rewrite Hup.
  rewrite find_app_None.
  - cbn [List.find]. unfold hasID at 1. rewrite String.eqb_refl.
    rewrite Huser at 1. reflexivity.
  - destruct (List.find (fun u => hasID (ID user) u && live u) (users db))
      as [u|] eqn:Hfind; [|reflexivity].
    apply List.find_some in Hfind as [Hin [Hu _]%andb_true_iff].
    pose proof (List.find_none _ _ Hfresh u Hin). congruence.
Qed.

(** X12. Insert, then look up. The profile a successful [CreateUser]
    returns carries the email, name and phone given and the id given (the
    generated id when none is given), and [GetUser] by that id on the
    resulting store finds a profile with that id, email, name and phone
    that is not marked deleted. *)
Theorem create_then_get_user (newID : string) (now : Z) (db db' : DB)
    (userID email name phone : string) (user : User) :
  user_service.service.CreateUser newID now db userID email name phone
    = (db', Ok user) ->
  ID user <> "" ->
  ID user = (if String.eqb userID "" then newID else userID) /\
  Email user = email /\ Name user = name /\ Phone user = phone /\
  exists stored,
    user_service.service.GetUser db' (ID user) = Ok stored /\
    ID stored = ID user /\ Email stored = email /\ Name stored = name /\
    Phone stored = phone /\ DeletedAt stored = None.
Proof.
  intros Hcreate Hid.
  pose proof (GetUser_created _ _ _ _ _ _ _ _ _ Hcreate Hid) as Hget.
  destruct (CreateUser_Ok_inv _ _ _ _ _ _ _ _ _ Hcreate)
    as (_ & _ & _ & Huser & _).
  assert (ID user = (if String.eqb userID "" then newID else userID) /\
          Email user = email /\ Name user = name /\ Phone user = phone /\
          DeletedAt user = None) as (Hi & He & Hn & Hp & Hd)
    by (rewrite Huser; cbn; auto).
  repeat (split; [assumption|]).
  exists user. auto 10.
Qed.

(** A failed [UpdateUser] leaves the profile store as it was. *)
Lemma UpdateUser_Err_unchanged (now : Z) (db db' : DB)
    (userID name phone : string) (e : error) :
  user_service.service.UpdateUser now db userID name phone = (db', Err e) ->
  db' = db.
Proof.
  unfold user_service.service.UpdateUser, UpdateUser, GetUserByID.
  destruct (String.eqb userID ""); [intros [= <- _]; reflexivity|].
  destruct (down db); [intros [= <- _]; reflexivity|].
  destruct (List.find _ _); [discriminate|intros [= <- _]; reflexivity].
Qed.

Lemma UpdateUser_not_found (now : Z) (db : DB) (userID name phone : string) :
  userID <> "" -> GetUserByID db userID = Ok None ->
  user_service.service.UpdateUser now db userID name phone
    = (db, Err (errors_New "user not found")).
Proof.
  intros Hid Hnone. unfold user_service.service.UpdateUser.
  apply String.eqb_neq in Hid. rewrite Hid, Hnone. reflexivity.
Qed.

(** X13. [UpdateUser] of the user service fails with [user ID is required]
    on an empty id and with [user not found] when no profile that is not
    deleted has the id; and whenever it fails the store is unchanged. *)
Theorem update_user_failure (now : Z) (db : DB) (userID name phone : string) :
  (userID = "" ->
   user_service.service.UpdateUser now db userID name phone
     = (db, Err (errors_New "user ID is required"))) /\
  (userID <> "" -> GetUserByID db userID = Ok None ->
   user_service.service.UpdateUser now db userID name phone
     = (db, Err (errors_New "user not found"))) /\
  (forall db' e,
   user_service.service.UpdateUser now db userID name phone = (db', Err e) ->
   db' = db).
Proof.
  repeat split.
  - intros ->. reflexivity.
  - apply UpdateUser_not_found.
  - intros db' e. apply UpdateUser_Err_unchanged.
Qed.

Lemma map_updateRow_proj {A} (f : User -> A) (user : User) (l : list User) :
  (forall row, f (updateRow user row) = f row) ->
  map f (map (updateRow user) l) = map f l.
Proof.
  intros Hf. rewrite List.map_map. apply List.map_ext. exact Hf.
Qed.

(** A successful [UpdateUser] rewrites the table row by row. *)
Lemma UpdateUser_Ok_inv (now : Z) (db db' : DB)
    (userID name phone : string) (user : User) :
  user_service.service.UpdateUser now db userID name phone = (db', Ok user) ->
  ID user = userID /\
  users db' = map (updateRow user) (users db) /\
  addresses db' = addresses db.
Proof.
  unfold user_service.service.UpdateUser, UpdateUser, GetUserByID.
  destruct (String.eqb userID ""); [discriminate|].
  destruct (down db) eqn:Hdown; [discriminate|].
  destruct (List.find _ _) as [found|] eqn:Hfind; [|discriminate].
  intros [= <- <-]. cbn [withUsers users addresses ID].
  apply List.find_some in Hfind as [_ [Hid _]%andb_true_iff].
  apply String.eqb_eq in Hid. auto.
Qed.

(** X14. A successful [UpdateUser] touches nothing but the name, the phone
    and the update time of the profiles with the given id: the ids, emails,
    creation times and deletion marks of all profiles are as before, every
    profile with another id is unchanged in place, and the addresses are
    unchanged. *)
Theorem update_user_frame (now : Z) (db db' : DB)
    (userID name phone : string) (user : User) :
  user_service.service.UpdateUser now db userID name phone = (db', Ok user) ->
  map ID (users db') = map ID (users db) /\
  map Email (users db') = map Email (users db) /\
  map CreatedAt (users db') = map CreatedAt (users db) /\
  map DeletedAt (users db') = map DeletedAt (users db) /\
  (forall i row, users db !! i = Some row -> ID row <> userID ->
                 users db' !! i = Some row) /\
  addresses db' = addresses db.
Proof.
  intros Hupdate.
  destruct (UpdateUser_Ok_inv _ _ _ _ _ _ _ Hupdate) as (Hid & -> & ->).
  repeat split;
    try (apply map_updateRow_proj; intros row; unfold updateRow;
         destruct (hasID _ row); reflexivity).
  intros i row Hrow Hother.
  change (map ?f (users db)) with (f <$> users db).
  rewrite list_lookup_fmap, Hrow. cbn [fmap option_fmap option_map].
  unfold updateRow, hasID. rewrite Hid.
  apply String.eqb_neq in Hother. rewrite Hother. reflexivity.
Qed.

End ProfileStore.

Lemma create_user_failure_witness :
  let db := auth_service.handlers.userDB Deployment.aliceState in
  user_service.service.CreateUser "generated" 1700 db Deployment.bobID
    "bob@example.com" "" "+1 555 0100"
  = (db, Err (errors_New "name is required")).
Proof.
  intros db.
  destruct (create_user_failure "generated" 1700 db Deployment.bobID
              "bob@example.com" "" "+1 555 0100") as (_ & Hname & _).
  apply Hname.
  - discriminate.
  - reflexivity.
Defined.

Lemma create_then_get_user_witness :
  exists db' bob stored,
    user_service.service.CreateUser "generated" 1700
      (auth_service.handlers.userDB Deployment.aliceState) ""
      "bob@example.com" "Bob" "+1 555 0100" = (db', Ok bob) /\
    user_service.service.GetUser db' "generated" = Ok stored /\
    user_service.models.ID bob = "generated" /\
    user_service.models.ID stored = "generated".
Proof.
  epose proof (create_then_get_user "generated" 1700
                 (auth_service.handlers.userDB Deployment.aliceState) _ ""
                 "bob@example.com" "Bob" "+1 555 0100" _) as Hcreated.
  edestruct Hcreated as (Hid & _ & _ & _ & stored & Hget & Hsame & _).
  - vm_compute. reflexivity.
  - vm_compute. discriminate.
  - eexists _, _, stored. split; [vm_compute; reflexivity|].
    split; [exact Hget|]. split; [exact Hid|exact Hsame].
Defined.

Lemma update_user_failure_witness :
  let db := auth_service.handlers.userDB Deployment.aliceState in
  user_service.service.UpdateUser 1700 db Deployment.bobID "Bob" ""
  = (db, Err (errors_New "user not found")).
Proof.
  intros db.
  destruct (update_user_failure 1700 db Deployment.bobID "Bob" "")
    as (_ & Habsent & _).
  apply Habsent.
  - vm_compute. discriminate.
  - vm_compute. reflexivity.
Defined.

Lemma update_user_frame_witness :
  let db := auth_service.handlers.userDB Deployment.aliceState in
  let db' := (user_service.service.UpdateUser 1500 db Scenario.aliceID
                "Alice" "+33 1 23 45 67 89").1 in
  map user_service.models.Email (user_service.repository.users db')
    = map user_service.models.Email (user_service.repository.users db) /\
  user_service.repository.addresses db'
    = user_service.repository.addresses db.
Proof.
  intros db db'.
  edestruct (update_user_frame 1500 db db' Scenario.aliceID "Alice"
               "+33 1 23 45 67 89") as (_ & Hemail & _ & _ & _ & Haddr).
  - vm_compute. reflexivity.
  - split; [exact Hemail|exact Haddr].
Defined.

(** ** Soft deletion *)

Section SoftDelete.
Import user_service.models user_service.repository.

Lemma find_map_none {A} (P : A -> bool) (f : A -> A) (l : list A) :
  (forall x, P (f x) = false) -> List.find P (map f l) = None.
Proof.
  intros HP. induction l as [|x l IH]; [reflexivity|].
  cbn [map List.find]. rewrite HP. exact IH.
Qed.

Lemma find_deleted (now : Z) (userID : string) (l : list User) :
  List.find (fun u => hasID userID u && live u)
    (map (deleteRow now userID) l) = None.
Proof.
  apply find_map_none. intros row. unfold deleteRow.
  destruct (hasID userID row) eqn:Hrow.
  - apply andb_false_r.
  - rewrite Hrow. reflexivity.
Qed.

Lemma map_deleteRow_proj {A} (f : User -> A) (now : Z) (userID : string)
    (l : list User) :
  (forall row, f (deleteRow now userID row) = f row) ->
  map f (map (deleteRow now userID) l) = map f l.
Proof.
  intros Hf. rewrite List.map_map. apply List.map_ext. exact Hf.
Qed.

Lemma find_hasID_In (id : string) (l : list User) :
  In id (map ID l) -> List.find (hasID id) l <> None.
Proof.
  intros (row & Hrow & Hin)%in_map_iff Hnone.
  pose proof (List.find_none _ _ Hnone row Hin) as Hno.
  unfold hasID in Hno. rewrite Hrow, String.eqb_refl in Hno. discriminate.
Qed.

Lemma find_hasEmail_In_map (email : string) (l : list User) :
  In email (map Email l) -> List.find (hasEmail email) l <> None.
Proof.
  intros (row & Hrow & Hin)%in_map_iff Hnone.
  pose proof (List.find_none _ _ Hnone row Hin) as Hno.
  unfold hasEmail in Hno. rewrite Hrow, String.eqb_refl in Hno.
  discriminate.
Qed.

(** X15. After a successful [DeleteUser] the profile can no longer be read
    or updated ([user not found]), but its row is kept: the ids and emails
    in the table are as before, so that creating a profile with the email,
    or with the (non-empty) id, of any profile, deleted or not, fails and
    changes nothing. *)
Theorem delete_user_is_soft (now now' : Z) (db db' : DB) (userID : string) :
  user_service.service.DeleteUser now db userID = (db', Ok tt) ->
  user_service.service.GetUser db' userID
    = Err (errors_New "user not found") /\
  (forall name phone,
     user_service.service.UpdateUser now' db' userID name phone
       = (db', Err (errors_New "user not found"))) /\
  map ID (users db') = map ID (users db) /\
  map Email (users db') = map Email (users db) /\
  (forall row newID id email name phone,
     In row (users db) ->
     (id = ID row /\ id <> "") \/ email = Email row ->
     exists e,
       user_service.service.CreateUser newID now' db' id email name phone
         = (db', Err e)).
Proof.
  unfold user_service.service.DeleteUser, DeleteUser.
  destruct (String.eqb userID "") eqn:Hid; [discriminate|].
  destruct (down db) eqn:Hdown; [discriminate|]. intros [= <-].
  assert (Hids : map ID (map (deleteRow now userID) (users db))
                 = map ID (users db)).
  { apply map_deleteRow_proj. intros row. unfold deleteRow.
    destruct (hasID userID row); reflexivity. }
  assert (Hemails : map Email (map (deleteRow now userID) (users db))
                    = map Email (users db)).
  { apply map_deleteRow_proj. intros row. unfold deleteRow.
    destruct (hasID userID row); reflexivity. }
  split; [|split; [|split; [exact Hids|split; [exact Hemails|]]]].
  - unfold user_service.service.GetUser, GetUserByID. rewrite Hid.
    cbn [withUsers down users]. rewrite Hdown, find_deleted. reflexivity.
  - intros name phone.
    unfold user_service.service.UpdateUser, GetUserByID. rewrite Hid.
    cbn [withUsers down users]. rewrite Hdown, find_deleted. reflexivity.
  - intros row newID id email name phone Hin Hsame.
    destruct (user_service.service.CreateUser newID now' _ id email name
                phone) as [db2 [user|e]] eqn:Hcreate.
    + exfalso.
      destruct (CreateUser_Ok_inv _ _ _ _ _ _ _ _ _ Hcreate)
        as (_ & _ & _ & Huser & Hfresh & Hfree & _).
      cbn [withUsers users] in Hfresh, Hfree.
      destruct Hsame as [[-> Hne] | ->].
      * refine (find_hasID_In _ _ _ Hfresh).
        rewrite Hids, Huser. cbn [ID].
        apply String.eqb_neq in Hne. rewrite Hne.
        apply in_map. exact Hin.
      * refine (find_hasEmail_In_map _ _ _ Hfree).
        rewrite Hemails. apply in_map. exact Hin.
    + exists e. f_equal.
      exact (CreateUser_Err_unchanged _ _ _ _ _ _ _ _ _ Hcreate).
Qed.

End SoftDelete.

Lemma delete_user_is_soft_witness :
  let db := auth_service.handlers.userDB Deployment.aliceState in
  let db' := (user_service.service.DeleteUser 4000 db Scenario.aliceID).1 in
  user_service.service.GetUser db' Scenario.aliceID
    = Err (errors_New "user not found") /\
  exists e,
    user_service.service.CreateUser "generated" 5000 db' ""
      "alice@example.com" "Alice" "" = (db', Err e).
Proof.
  intros db db'.
  destruct (delete_user_is_soft 4000 5000 db db' Scenario.aliceID)
    as (Hget & _ & _ & _ & Hcreate).
  - vm_compute. reflexivity.
  - split; [exact Hget|].
    eapply Hcreate.
    + vm_compute. left. reflexivity.
    + right. reflexivity.
Defined.

(** ** The user endpoints of the gateway *)

Section UserEndpoints.
Import api_gateway api_gateway.http api_gateway.middleware
       api_gateway.handlers.
Context `{JSONUnmarshal UpdateUserRequest} `{JSONMarshal UserResponse}
        `{JSONUnmarshal AddAddressRequest} `{JSONMarshal AddressResponse}
        `{JSONMarshal (list AddressResponse)}
        `{JSONMarshal DeleteUserResponse}.

Abbreviation State := auth_service.handlers.State.

Lemma authorize_Ok_nonempty (r : Request) (id : string) :
  authorizeUserAccess r = Ok id -> id <> "".
Proof.
  unfold authorizeUserAccess.
  destruct (String.eqb (GetUserID (Context r)) "") eqn:Ha; [discriminate|].
  destruct (String.eqb (URLParam r "id") _) eqn:Hq; cbn [negb];
    [|discriminate].
  intros [= <-]. apply String.eqb_eq in Hq. apply String.eqb_neq in Ha.
  congruence.
Qed.

Lemma onUserDB_same {Req Resp}
    (method : user_service.repository.DB -> Req ->
              user_service.repository.DB * Result Resp)
    (st : State) (req : Req) (res : Result Resp) :
  method (auth_service.handlers.userDB st) req
    = (auth_service.handlers.userDB st, res) ->
  clients.onUserDB method st req = (st, res).
Proof. unfold clients.onUserDB. intros ->. destruct st. reflexivity. Qed.

Lemma onUserDB_authDB {Req Resp} (link : option error)
    (method : user_service.repository.DB -> Req ->
              user_service.repository.DB * Result Resp)
    (st : State) (req : Req) :
  auth_service.handlers.authDB (invoke link (clients.onUserDB method) st req).1
    = auth_service.handlers.authDB st.
Proof.
  unfold invoke, clients.onUserDB. destruct link; [reflexivity|].
  destruct (method _ req). reflexivity.
Qed.

Lemma map_deleteRow_absent (now : Z) (id : string)
    (l : list user_service.models.User) :
  List.find (user_service.repository.hasID id) l = None ->
  map (user_service.repository.deleteRow now id) l = l.
Proof.
  induction l as [|row l IH]; [reflexivity|]. cbn [List.find map].
  unfold user_service.repository.deleteRow at 1.
  destruct (user_service.repository.hasID id row); [discriminate|].
  intros Hnone. rewrite (IH Hnone). reflexivity.
Qed.

(** X16. DELETE on an id the caller is entitled to is answered 200 [User
    deleted successfully] whenever the user service and its store can be
    reached, whether or not a profile with that id exists; when none exists
    the stores are unchanged. *)
Theorem http_delete_reports_success (uenv : Env) (w : ResponseWriter)
    (r : Request) (st : State) (id : string) :
  authorizeUserAccess r = Ok id ->
  user_service.repository.down (auth_service.handlers.userDB st) = None ->
  exists st',
    DeleteUser (clients.UserClientRest None uenv) w r st =
      (st', Encode
              (WriteHeader (SetHeader w "Content-Type" "application/json")
                 StatusOK)
              {| dur_Message := "User deleted successfully" |}) /\
    (List.find (user_service.repository.hasID id)
       (user_service.repository.users (auth_service.handlers.userDB st))
       = None -> st' = st).
Proof.
  intros Hauth Hup. pose proof (authorize_Ok_nonempty r id Hauth) as Hid.
  apply String.eqb_neq in Hid.
  unfold DeleteUser. rewrite Hauth.
  cbn [clients.UserClientRest userpb.DeleteUser invoke].
  unfold clients.onUserDB, user_service.handlers.DeleteUser,
    user_service.service.DeleteUser, user_service.repository.DeleteUser.
  cbn [userpb.du_UserId]. rewrite Hid, Hup.
  cbn [userpb.du_Error String.eqb negb]. eexists. split; [reflexivity|].
  intros Habsent. rewrite (map_deleteRow_absent _ _ _ Habsent).
  rewrite withUsers_same. destruct st. reflexivity.
Qed.

Ltac keep_accounts :=
  match goal with
  | |- context [invoke ?l (clients.onUserDB ?m) ?s ?q] =>
      let Hkeep := fresh "Hkeep" in
      pose proof (onUserDB_authDB l m s q) as Hkeep;
      destruct (invoke l (clients.onUserDB m) s q);
      repeat case_match; exact Hkeep
  end.

(** X17. The user endpoints never touch the credential store: whatever the
    request and the state of the connections, [GetUser], [UpdateUser],
    [DeleteUser], [AddAddress] and [GetAddresses] leave the accounts as they
    were.  In particular deleting a profile does not delete the account. *)
Theorem user_endpoints_keep_accounts (userLink : option error) (uenv : Env)
    (w : ResponseWriter) (r : Request) (st : State) :
  let accounts (out : State * ResponseWriter) :=
    auth_service.handlers.authDB out.1 in
  let c := clients.UserClient userLink uenv in
  let c' := clients.UserClientRest userLink uenv in
  accounts (GetUser {| userClient := c |} w r st)
    = auth_service.handlers.authDB st /\
  accounts (UpdateUser {| userClient := c |} w r st)
    = auth_service.handlers.authDB st /\
  accounts (DeleteUser c' w r st) = auth_service.handlers.authDB st /\
  accounts (AddAddress c' w r st) = auth_service.handlers.authDB st /\
  accounts (GetAddresses c' w r st) = auth_service.handlers.authDB st.
Proof.
  intros accounts c c'. subst accounts c c'. cbv beta.
  unfold GetUser, UpdateUser, DeleteUser, AddAddress, GetAddresses.
  cbn [userClient clients.UserClient clients.UserClientRest userpb.GetUser
       userpb.UpdateUser userpb.DeleteUser userpb.AddAddress
       userpb.GetAddresses].
  repeat split; destruct (authorizeUserAccess r) as [id|]; try reflexivity.
  - keep_accounts.
  - destruct (Body r); [|reflexivity].
    destruct (Unmarshal _); [|reflexivity].
    destruct (_ && _); [reflexivity|].
    keep_accounts.
  - keep_accounts.
  - destruct (Body r); [|reflexivity].
    destruct (Unmarshal _); [|reflexivity].
    destruct (_ || _); [reflexivity|].
    keep_accounts.
  - keep_accounts.
Qed.

(** X18. An account without a profile. When no profile that is not deleted
    has the caller's id, as after a failed mirror call or after a soft
    delete, GET answers 404 [user not found] and so does PUT with an
    acceptable body; the stores are unchanged. *)
Theorem http_missing_profile_not_found (uenv : Env) (w : ResponseWriter)
    (r : Request) (st : State) (id : string) :
  authorizeUserAccess r = Ok id ->
  user_service.repository.GetUserByID (auth_service.handlers.userDB st) id
    = Ok None ->
  GetUser {| userClient := clients.UserClient None uenv |} w r st
    = (st, Error w "user not found" StatusNotFound) /\
  (forall body req,
     Body r = Ok body -> Unmarshal body = Some req ->
     uur_Name req <> "" \/ uur_Phone req <> "" ->
     UpdateUser {| userClient := clients.UserClient None uenv |} w r st
       = (st, Error w "user not found" StatusNotFound)).
Proof.
  intros Hauth Hnone. pose proof (authorize_Ok_nonempty r id Hauth) as Hid.
  split.
  - unfold GetUser. rewrite Hauth.
    cbn [userClient clients.UserClient userpb.GetUser invoke].
    rewrite (onUserDB_same _ st _
               (Ok {| userpb.gu_User := None;
                      userpb.gu_Error := "user not found" |})).
    + reflexivity.
    + unfold user_service.handlers.GetUser, user_service.service.GetUser.
      cbn [userpb.gu_UserId]. apply String.eqb_neq in Hid.
      rewrite Hid, Hnone. reflexivity.
  - intros body req Hbody Hjson Hsome. unfold UpdateUser.
    rewrite Hauth, Hbody, Hjson.
    assert (String.eqb (uur_Name req) "" && String.eqb (uur_Phone req) ""
            = false) as ->.
    { apply andb_false_iff.
      destruct Hsome; [left|right]; apply String.eqb_neq; assumption. }
    cbn [userClient clients.UserClient userpb.UpdateUser invoke].
    rewrite (onUserDB_same _ st _
               (Ok {| userpb.uu_User := None;
                      userpb.uu_Error := "user not found" |})).
    + reflexivity.
    + unfold user_service.handlers.UpdateUser.
      cbn [userpb.uu_UserId userpb.uu_Name userpb.uu_Phone].
      rewrite (UpdateUser_not_found _ _ _ _ _ Hid Hnone).
      reflexivity.
Qed.

End UserEndpoints.

Lemma http_delete_reports_success_witness :
  api_gateway.handlers.DeleteUser (Deployment.userRest 3000)
    api_gateway.http.NewResponse (Deployment.aliceOnAlice "")
    Deployment.orphanState
  = (Deployment.orphanState,
     api_gateway.http.Encode
       (api_gateway.http.WriteHeader
          (api_gateway.http.SetHeader api_gateway.http.NewResponse
             "Content-Type" "application/json")
          api_gateway.http.StatusOK)
       {| api_gateway.handlers.dur_Message := "User deleted successfully" |}).
Proof.
  destruct (http_delete_reports_success (Deployment.uenv 3000)
              api_gateway.http.NewResponse (Deployment.aliceOnAlice "")
              Deployment.orphanState Scenario.aliceID)
    as (st' & Hout & Hsame).
  - vm_compute. reflexivity.
  - vm_compute. reflexivity.
  - rewrite <- (Hsame eq_refl) at 2. exact Hout.
Defined.

Lemma http_missing_profile_not_found_witness :
  api_gateway.handlers.GetUser (Deployment.userGateway 3000)
    api_gateway.http.NewResponse (Deployment.aliceOnAlice "")
    Deployment.orphanState
  = (Deployment.orphanState,
     api_gateway.http.Error api_gateway.http.NewResponse "user not found"
       api_gateway.http.StatusNotFound).
Proof.
  eapply (proj1 (http_missing_profile_not_found (Deployment.uenv 3000)
                   api_gateway.http.NewResponse (Deployment.aliceOnAlice "")
                   Deployment.orphanState Scenario.aliceID _ _)).
  Unshelve.
  - vm_compute. reflexivity.
  - vm_compute. reflexivity.
Defined.

(** ** Addresses *)

Section Addresses.
Import user_service.models user_service.repository.

(** What a successful [AddAddress] has done. *)
Lemma AddAddress_Ok_inv (newID : string) (now : Z) (db db' : DB)
    (userID street city state postalCode country : string)
    (isDefault : bool) (address : Address) :
  user_service.service.AddAddress newID now db userID street city state
    postalCode country isDefault = (db', Ok address) ->
  userID <> "" /\ down db = None /\
  address = {| AddressID := newID; UserID := userID; Street := street;
               City := city; State := state; PostalCode := postalCode;
               Country := country; IsDefault := isDefault;
               AddressCreatedAt := now |} /\
  users db' = users db /\ down db' = None /\
  addresses db' = addresses db ++ [address].
Proof.
  unfold user_service.service.AddAddress, AddAddress, insertAddress.
  destruct (String.eqb userID "") eqn:Hid; [discriminate|].
  destruct (_ || _); [discriminate|].
  cbn [AddressID UserID Street City State PostalCode Country IsDefault
       String.eqb].
  destruct (down db) eqn:Hdown; [discriminate|].
  destruct (existsb _ (addresses db)); [discriminate|].
  destruct (negb _); [discriminate|].
  intros [= <- <-]. apply String.eqb_neq in Hid. cbn. auto 10.
Qed.

(** A failed [AddAddress] leaves the store as it was. *)
Lemma AddAddress_Err_unchanged (newID : string) (now : Z) (db db' : DB)
    (userID street city state postalCode country : string)
    (isDefault : bool) (e : error) :
  user_service.service.AddAddress newID now db userID street city state
    postalCode country isDefault = (db', Err e) -> db' = db.
Proof.
  unfold user_service.service.AddAddress, AddAddress, insertAddress.
  destruct (String.eqb userID ""); [intros [= <- _]; reflexivity|].
  destruct (_ || _); [intros [= <- _]; reflexivity|].
  destruct (down db); [intros [= <- _]; reflexivity|].
  destruct (existsb _ (addresses db)); [intros [= <- _]; reflexivity|].
  destruct (negb _); [intros [= <- _]; reflexivity|].
  discriminate.
Qed.

(** X19. Add, then list. After a successful [AddAddress] for a user,
    [GetAddresses] of that user returns the addresses it returned before,
    unchanged, together with the new address with the fields given (the
    query fixes no order, so the lists are compared up to order); the list
    of every other user is as before, and no profile is touched. *)
Theorem add_then_get_addresses (newID : string) (now : Z) (db db' : DB)
    (userID street city state postalCode country : string)
    (isDefault : bool) (address : Address) :
  user_service.service.AddAddress newID now db userID street city state
    postalCode country isDefault = (db', Ok address) ->
  exists before after,
    user_service.service.GetAddresses db userID = Ok before /\
    user_service.service.GetAddresses db' userID = Ok after /\
    Permutation after (address :: before) /\
    (forall other, other <> userID ->
       user_service.service.GetAddresses db' other
         = user_service.service.GetAddresses db other) /\
    UserID address = userID /\ IsDefault address = isDefault /\
    users db' = users db.
Proof.
  intros Hadd.
  destruct (AddAddress_Ok_inv _ _ _ _ _ _ _ _ _ _ _ _ Hadd)
    as (Hid & Hup & Haddr & Husers & Hup' & Hlist).
  apply String.eqb_neq in Hid.
  unfold user_service.service.GetAddresses, GetAddressesByUserID.
  rewrite Hid, Hup, Hup', Hlist. eexists _, _. split; [reflexivity|].
  split; [reflexivity|]. split; [|split; [|rewrite Haddr; auto]].
  - rewrite list.filter_app.
    rewrite filter_cons_True by (rewrite Haddr; reflexivity).
    rewrite filter_nil. symmetry. apply Permutation_cons_append.
  - intros other Hother. destruct (String.eqb other ""); [reflexivity|].
    rewrite list.filter_app.
    rewrite filter_cons_False by (rewrite Haddr; cbn; congruence).
    rewrite filter_nil, app_nil_r. reflexivity.
Qed.

(** X20. No single default. [AddAddress] never changes the [IsDefault] flag
    of an earlier address: after a successful call with [isDefault = true]
    the user has one more default address than before, so a user can hold
    several default addresses at once. *)
Theorem add_address_keeps_defaults (newID : string) (now : Z) (db db' : DB)
    (userID street city state postalCode country : string)
    (address : Address) (before after : list Address) :
  user_service.service.AddAddress newID now db userID street city state
    postalCode country true = (db', Ok address) ->
  user_service.service.GetAddresses db userID = Ok before ->
  user_service.service.GetAddresses db' userID = Ok after ->
  List.length (filter (fun a => IsDefault a = true) after)
    = S (List.length (filter (fun a => IsDefault a = true) before)) /\
  (forall a, In a before -> In a after).
Proof.
  intros Hadd.
  destruct (AddAddress_Ok_inv _ _ _ _ _ _ _ _ _ _ _ _ Hadd)
    as (Hid & Hup & Haddr & _ & Hup' & Hlist).
  apply String.eqb_neq in Hid.
  unfold user_service.service.GetAddresses, GetAddressesByUserID.
  rewrite Hid, Hup, Hup', Hlist. intros [= <-] [= <-].
  rewrite list.filter_app.
  rewrite (filter_cons_True _ address) by (rewrite Haddr; reflexivity).
  rewrite filter_nil. split.
  - rewrite list.filter_app.
    rewrite (filter_cons_True _ address) by (rewrite Haddr; reflexivity).
    rewrite filter_nil, length_app. simpl. lia.
  - intros a Hin. apply in_or_app. left. exact Hin.
Qed.

End Addresses.

Lemma add_then_get_addresses_witness :
  exists home after,
    user_service.service.GetAddresses
      (auth_service.handlers.userDB Deployment.aliceState) Scenario.aliceID
      = Ok [] /\
    user_service.service.GetAddresses Deployment.aliceHomeDB Scenario.aliceID
      = Ok after /\
    Permutation after [home] /\
    user_service.models.UserID home = Scenario.aliceID.
Proof.
  epose proof (add_then_get_addresses "a1" 1600
                 (auth_service.handlers.userDB Deployment.aliceState)
                 Deployment.aliceHomeDB Scenario.aliceID "1 Main St" "Paris"
                 "" "75001" "FR" true _) as Hadded.
  edestruct Hadded
    as (before & after & Hbefore & Hafter & Hperm & _ & Huser & _).
  - vm_compute. reflexivity.
  - eexists _, after. split; [vm_compute; reflexivity|].
    split; [exact Hafter|]. split; [|exact Huser].
    vm_compute in Hbefore. injection Hbefore as <-. exact Hperm.
Defined.

Lemma add_address_keeps_defaults_witness :
  exists second db' after,
    user_service.service.AddAddress "a2" 1700 Deployment.aliceHomeDB
      Scenario.aliceID "2 Side St" "Lyon" "" "69001" "FR" true
      = (db', Ok second) /\
    user_service.service.GetAddresses db' Scenario.aliceID = Ok after /\
    List.length
      (filter (fun a => user_service.models.IsDefault a = true) after)
      = 2%nat.
Proof.
  epose proof (add_address_keeps_defaults "a2" 1700 Deployment.aliceHomeDB _
                 Scenario.aliceID "2 Side St" "Lyon" "" "69001" "FR" _ _ _)
    as Hkept.
  edestruct Hkept as (Hcount & _).
  - vm_compute. reflexivity.
  - vm_compute. reflexivity.
  - vm_compute. reflexivity.
  - eexists _, _, _. split; [vm_compute; reflexivity|].
    split; [vm_compute; reflexivity|]. exact Hcount.
Defined.

(** ** Invariants of the profile store, and the address endpoint *)

Section ProfileInvariant.
Import user_service.models user_service.repository.

(** X21. Every write operation of the user service keeps the uniqueness of
    ids and emails in the profile table: [CreateUser], [UpdateUser],
    [DeleteUser] and [AddAddress], whether they succeed or fail. *)
Theorem user_service_keeps_uniqueness (newID : string) (now : Z) (db : DB) :
  uniqueProfiles db ->
  (forall userID email name phone,
     uniqueProfiles
       (user_service.service.CreateUser newID now db userID email name
          phone).1) /\
  (forall userID name phone,
     uniqueProfiles
       (user_service.service.UpdateUser now db userID name phone).1) /\
  (forall userID,
     uniqueProfiles (user_service.service.DeleteUser now db userID).1) /\
  (forall userID street city state postalCode country isDefault,
     uniqueProfiles
       (user_service.service.AddAddress newID now db userID street city state
          postalCode country isDefault).1).
Proof.
  intros [Hids Hemails]. repeat split.
  - destruct (user_service.service.CreateUser _ _ _ _ _ _ _)
      as [db' [user|e]] eqn:Hcreate; cbn [fst].
    + destruct (CreateUser_Ok_inv _ _ _ _ _ _ _ _ _ Hcreate)
        as (_ & _ & _ & Huser & Hfresh & Hfree & ->).
      cbn [withUsers users]. rewrite map_app. cbn [map].
      apply list.NoDup_app.
      split; [assumption|split; [|apply list.NoDup_singleton]].
      intros x Hx ->%list_elem_of_singleton.
      apply list_elem_of_In in Hx.
      exact (find_hasID_In _ _ Hx Hfresh).
    + rewrite (CreateUser_Err_unchanged _ _ _ _ _ _ _ _ _ Hcreate).
      exact Hids.
  - destruct (user_service.service.CreateUser _ _ _ _ _ _ _)
      as [db' [user|e]] eqn:Hcreate; cbn [fst].
    + destruct (CreateUser_Ok_inv _ _ _ _ _ _ _ _ _ Hcreate)
        as (_ & _ & _ & Huser & Hfresh & Hfree & ->).
      cbn [withUsers users]. rewrite map_app. cbn [map].
      apply list.NoDup_app.
      split; [assumption|split; [|apply list.NoDup_singleton]].
      intros x Hx ->%list_elem_of_singleton.
      apply list_elem_of_In in Hx. rewrite Huser in Hx. cbn [Email] in Hx.
      exact (find_hasEmail_In_map _ _ Hx Hfree).
    + rewrite (CreateUser_Err_unchanged _ _ _ _ _ _ _ _ _ Hcreate).
      exact Hemails.
  - destruct (user_service.service.UpdateUser _ _ _ _ _)
      as [db' [user|e]] eqn:Hupdate; cbn [fst].
    + destruct (UpdateUser_Ok_inv _ _ _ _ _ _ _ Hupdate) as (_ & -> & _).
      rewrite map_updateRow_proj; [exact Hids|].
      intros row. unfold updateRow. destruct (hasID _ row); reflexivity.
    + rewrite (UpdateUser_Err_unchanged _ _ _ _ _ _ _ Hupdate).
      exact Hids.
  - destruct (user_service.service.UpdateUser _ _ _ _ _)
      as [db' [user|e]] eqn:Hupdate; cbn [fst].
    + destruct (UpdateUser_Ok_inv _ _ _ _ _ _ _ Hupdate) as (_ & -> & _).
      rewrite map_updateRow_proj; [exact Hemails|].
      intros row. unfold updateRow. destruct (hasID _ row); reflexivity.
    + rewrite (UpdateUser_Err_unchanged _ _ _ _ _ _ _ Hupdate).
      exact Hemails.
  - unfold user_service.service.DeleteUser, DeleteUser.
    destruct (String.eqb userID ""); [exact Hids|].
    destruct (down db); [exact Hids|]. cbn [fst withUsers users].
    rewrite map_deleteRow_proj; [exact Hids|].
    intros row. unfold deleteRow. destruct (hasID userID row); reflexivity.
  - unfold user_service.service.DeleteUser, DeleteUser.
    destruct (String.eqb userID ""); [exact Hemails|].
    destruct (down db); [exact Hemails|]. cbn [fst withUsers users].
    rewrite map_deleteRow_proj; [exact Hemails|].
    intros row. unfold deleteRow. destruct (hasID userID row); reflexivity.
  - destruct (user_service.service.AddAddress _ _ _ _ _ _ _ _ _ _)
      as [db' [a|e]] eqn:Hadd; cbn [fst].
    + destruct (AddAddress_Ok_inv _ _ _ _ _ _ _ _ _ _ _ _ Hadd)
        as (_ & _ & _ & -> & _). exact Hids.
    + rewrite (AddAddress_Err_unchanged _ _ _ _ _ _ _ _ _ _ _ _ Hadd).
      exact Hids.
  - destruct (user_service.service.AddAddress _ _ _ _ _ _ _ _ _ _)
      as [db' [a|e]] eqn:Hadd; cbn [fst].
    + destruct (AddAddress_Ok_inv _ _ _ _ _ _ _ _ _ _ _ _ Hadd)
        as (_ & _ & _ & -> & _). exact Hemails.
    + rewrite (AddAddress_Err_unchanged _ _ _ _ _ _ _ _ _ _ _ _ Hadd).
      exact Hemails.
Qed.

End ProfileInvariant.

Lemma user_service_keeps_uniqueness_witness :
  uniqueProfiles
    (user_service.service.DeleteUser 4000
       (auth_service.handlers.userDB Deployment.aliceState)
       Scenario.aliceID).1.
Proof.
  destruct (user_service_keeps_uniqueness "generated" 4000
              (auth_service.handlers.userDB Deployment.aliceState))
    as (_ & _ & Hdelete & _).
  - split; vm_compute; apply list.NoDup_singleton.
  - apply Hdelete.
Defined.

Section AddressEndpoint.
Import api_gateway api_gateway.http api_gateway.handlers.
Context `{JSONUnmarshal AddAddressRequest} `{JSONMarshal AddressResponse}.

(** X22. The gateway and the user service disagree on the postal code: the
    gateway's [AddAddress] handler lets a body with street, city and
    country but an empty postal code through, and the user service then
    refuses it; the caller gets 400 with the service's message, and the
    stores are unchanged. *)
Theorem http_add_address_postal_code (uenv : Env) (w : ResponseWriter)
    (r : Request) (st : auth_service.handlers.State) (id body : string)
    (req : AddAddressRequest) :
  authorizeUserAccess r = Ok id ->
  Body r = Ok body ->
  Unmarshal body = Some req ->
  aar_Street req <> "" -> aar_City req <> "" -> aar_Country req <> "" ->
  aar_PostalCode req = "" ->
  AddAddress (clients.UserClientRest None uenv) w r st =
    (st, Error w "street, city, postal code, and country are required"
           StatusBadRequest).
Proof.
  intros Hauth Hbody Hjson Hstreet Hcity Hcountry Hpostal.
  pose proof (authorize_Ok_nonempty r id Hauth) as Hid.
  apply String.eqb_neq in Hid, Hstreet, Hcity, Hcountry.
  unfold AddAddress. rewrite Hauth, Hbody, Hjson, Hstreet, Hcity, Hcountry.
  cbn [orb clients.UserClientRest userpb.AddAddress invoke].
  rewrite (onUserDB_same _ st _
             (Ok {| userpb.aa_Address := None;
                    userpb.aa_Error :=
                      "street, city, postal code, and country are required"
                 |})).
  - reflexivity.
  - unfold user_service.handlers.AddAddress, user_service.service.AddAddress.
    cbn [userpb.aa_UserId userpb.aa_Street userpb.aa_City userpb.aa_State
         userpb.aa_PostalCode userpb.aa_Country userpb.aa_IsDefault].
    rewrite Hid, Hstreet, Hcity, Hpostal. reflexivity.
Qed.

End AddressEndpoint.

Lemma http_add_address_postal_code_witness :
  let body := Reference.enc
                {| api_gateway.handlers.aar_Street := "1 Main St";
                   api_gateway.handlers.aar_City := "Paris";
                   api_gateway.handlers.aar_State := "";
                   api_gateway.handlers.aar_PostalCode := "";
                   api_gateway.handlers.aar_Country := "FR";
                   api_gateway.handlers.aar_IsDefault := true |} in
  api_gateway.handlers.AddAddress (Deployment.userRest 3000)
    api_gateway.http.NewResponse (Deployment.aliceOnAlice body)
    Deployment.aliceState
  = (Deployment.aliceState,
     api_gateway.http.Error api_gateway.http.NewResponse
       "street, city, postal code, and country are required"
       api_gateway.http.StatusBadRequest).
Proof.
  intros body.
  eapply (http_add_address_postal_code (Deployment.uenv 3000)
            api_gateway.http.NewResponse (Deployment.aliceOnAlice body)
            Deployment.aliceState Scenario.aliceID body).
  - vm_compute. reflexivity.
  - reflexivity.
  - vm_compute. reflexivity.
  - vm_compute. discriminate.
  - vm_compute. discriminate.
  - vm_compute. discriminate.
  - reflexivity.
Defined.

(** ** Registration across the two stores *)

Section Mirroring.
Context `{Bcrypt} `{jwt.Wire}.
Import auth_service.handlers.

(** X23. One identity, two stores. When the auth service's [Register]
    succeeds, the id it returns is the generated id, the credential store
    holds an account and the profile store a profile under that same id,
    the two carry the email and the name of the request, and the profile's
    phone is empty.  (Errors are taken to have a non-empty text and the
    generated id to be non-empty.) *)
Theorem register_mirrors_identity (h : AuthHandler) (env uenv : Env)
    (st st' : State) (req : auth_service.pb.RegisterRequest)
    (resp : auth_service.pb.RegisterResponse) :
  auth_service.handlers.Register h env uenv st req = (st', Ok resp) ->
  uuid env <> "" ->
  user_service.repository.down (userDB st) <> Some "" ->
  auth_service.pb.rr_UserId resp = uuid env /\
  exists account profile,
    auth_service.repository.GetUserByID (authDB st') (uuid env)
      = Ok (Some account) /\
    user_service.service.GetUser (userDB st') (uuid env) = Ok profile /\
    auth_service.models.ID account = user_service.models.ID profile /\
    auth_service.models.Email account = auth_service.pb.rr_Email req /\
    user_service.models.Email profile = auth_service.pb.rr_Email req /\
    auth_service.models.Name account = auth_service.pb.rr_Name req /\
    user_service.models.Name profile = auth_service.pb.rr_Name req /\
    user_service.models.Phone profile = "".
Proof.
  intros Hreg Hid Hdown. revert Hreg. unfold auth_service.handlers.Register.
  destruct (auth_service.service.Register _ _ _ _ _ _ _ _)
    as [adb [userID|e]] eqn:Hcred; [|discriminate].
  destruct (Register_Ok_inv _ _ _ _ _ _ _ _ _ _ Hcred)
    as (hashed & _ & _ & Hfresh & -> & Hup & Husers).
  unfold invoke. destruct (userClient h); [discriminate|].
  unfold user_service.handlers.CreateUser.
  cbn [user_service.pb.cu_UserId user_service.pb.cu_Email
       user_service.pb.cu_Name user_service.pb.cu_Phone].
  destruct (user_service.service.CreateUser _ _ _ _ _ _ _)
    as [udb [profile|e]] eqn:Hprofile;
    cbn [user_service.pb.cu_Error String.eqb negb].
  - intros [= <- <-]. cbn [authDB userDB auth_service.pb.rr_UserId].
    split; [reflexivity|].
    assert (Hpid : user_service.models.ID profile = uuid env).
    { destruct (CreateUser_Ok_inv _ _ _ _ _ _ _ _ _ Hprofile)
        as (_ & _ & _ & -> & _).
      cbn [user_service.models.ID]. apply String.eqb_neq in Hid.
      rewrite Hid. reflexivity. }
    assert (Hpid' : user_service.models.ID profile <> "") by congruence.
    pose proof (GetUser_created _ _ _ _ _ _ _ _ _ Hprofile Hpid') as Hget.
    assert (user_service.models.Email profile = auth_service.pb.rr_Email req
            /\ user_service.models.Name profile = auth_service.pb.rr_Name req
            /\ user_service.models.Phone profile = "")
      as (Hemail & Hname & Hphone).
    { destruct (CreateUser_Ok_inv _ _ _ _ _ _ _ _ _ Hprofile)
        as (_ & _ & _ & -> & _). auto. }
    set (account :=
           {| auth_service.models.ID := uuid env;
              auth_service.models.Email := auth_service.pb.rr_Email req;
              auth_service.models.Password := hashed;
              auth_service.models.Name := auth_service.pb.rr_Name req;
              auth_service.models.CreatedAt := now env;
              auth_service.models.LastLogin := zeroTime |}) in *.
    exists account, profile. split; [|split].
    + unfold auth_service.repository.GetUserByID.
      rewrite Hup, Husers, (find_app_None _ _ _ Hfresh). cbn [List.find].
      unfold auth_service.repository.hasID at 1.
      cbn [auth_service.models.ID account]. rewrite String.eqb_refl.
      reflexivity.
    + rewrite <- Hpid. exact Hget.
    + cbn [account auth_service.models.ID auth_service.models.Email
           auth_service.models.Name].
      repeat split; try assumption; try reflexivity. symmetry. exact Hpid.
  - destruct (String.eqb e "") eqn:He; [|discriminate]. exfalso.
    apply String.eqb_eq in He. subst e. revert Hprofile.
    unfold user_service.service.CreateUser, user_service.repository.CreateUser,
      user_service.repository.insertUser.
    destruct (String.eqb (auth_service.pb.rr_Email req) "");
      [discriminate|].
    destruct (String.eqb (auth_service.pb.rr_Name req) "");
      [discriminate|].
    destruct (user_service.repository.down (userDB st)) as [e'|] eqn:Hd.
    + intros [= _ ->]. apply Hdown. reflexivity.
    + destruct (existsb _ _); [discriminate|].
      destruct (existsb _ _); discriminate.
Qed.

(** X24. The auth service's [Register] does not look at the name or the
    email before it commits the account.  Called with an empty name (or an
    empty email) on input the credential service accepts, and with the user
    service reachable, it stores the account and then fails with the user
    service's [name is required] (or [email is required]), leaving the
    account without a profile. *)
Theorem register_empty_name_orphans_account (h : AuthHandler)
    (env uenv : Env) (st : State) (req : auth_service.pb.RegisterRequest)
    (adb : auth_service.repository.DB) (userID : string) :
  auth_service.service.Register (authService h) (uuid env) (salt env)
    (now env) (authDB st) (auth_service.pb.rr_Email req)
    (auth_service.pb.rr_Password req) (auth_service.pb.rr_Name req)
    = (adb, Ok userID) ->
  userClient h = None ->
  auth_service.pb.rr_Email req = "" \/ auth_service.pb.rr_Name req = "" ->
  exists account,
    auth_service.handlers.Register h env uenv st req =
      ({| authDB := adb; userDB := userDB st |},
       Err (errors_New
              (if String.eqb (auth_service.pb.rr_Email req) ""
               then "email is required" else "name is required"))) /\
    auth_service.repository.GetUserByID adb userID = Ok (Some account) /\
    auth_service.models.Email account = auth_service.pb.rr_Email req /\
    auth_service.models.Name account = auth_service.pb.rr_Name req.
Proof.
  intros Hcred Hlink Hempty.
  destruct (Register_Ok_inv _ _ _ _ _ _ _ _ _ _ Hcred)
    as (hashed & _ & _ & Hfresh & -> & Hup & Husers).
  exists {| auth_service.models.ID := uuid env;
            auth_service.models.Email := auth_service.pb.rr_Email req;
            auth_service.models.Password := hashed;
            auth_service.models.Name := auth_service.pb.rr_Name req;
            auth_service.models.CreatedAt := now env;
            auth_service.models.LastLogin := zeroTime |}.
  split; [|split; [|split]].
  - unfold auth_service.handlers.Register. rewrite Hcred, Hlink.
    unfold invoke, user_service.handlers.CreateUser,
      user_service.service.CreateUser.
    cbn [user_service.pb.cu_UserId user_service.pb.cu_Email
         user_service.pb.cu_Name user_service.pb.cu_Phone].
    destruct (String.eqb (auth_service.pb.rr_Email req) "") eqn:Hemail;
      [reflexivity|].
    destruct Hempty as [Hemail'|Hname].
    + rewrite Hemail' in Hemail. discriminate.
    + rewrite Hname. reflexivity.
  - unfold auth_service.repository.GetUserByID.
    rewrite Hup, Husers, (find_app_None _ _ _ Hfresh). cbn [List.find].
    unfold auth_service.repository.hasID at 1.
    cbn [auth_service.models.ID]. rewrite String.eqb_refl. reflexivity.
  - reflexivity.
  - reflexivity.
Qed.

End Mirroring.

Lemma register_mirrors_identity_witness :
  exists account profile,
    auth_service.repository.GetUserByID
      (auth_service.handlers.authDB Deployment.aliceState) Scenario.aliceID
      = Ok (Some account) /\
    user_service.service.GetUser
      (auth_service.handlers.userDB Deployment.aliceState) Scenario.aliceID
      = Ok profile /\
    auth_service.models.ID account = user_service.models.ID profile /\
    user_service.models.Email profile = "alice@example.com" /\
    user_service.models.Name profile = "Alice".
Proof.
  epose proof (register_mirrors_identity Deployment.authH
                 (Deployment.env 1000) (Deployment.uenv 1000)
                 Deployment.emptyState Deployment.aliceState
                 Deployment.registerAlice _) as Hmirror.
  edestruct Hmirror
    as (_ & account & profile & Haccount & Hprofile & Hid & _ & Hemail & _
        & Hname & _).
  - vm_compute. reflexivity.
  - vm_compute. discriminate.
  - vm_compute. discriminate.
  - exists account, profile. split; [exact Haccount|].
    split; [exact Hprofile|]. split; [exact Hid|].
    split; [exact Hemail|exact Hname].
Defined.

Lemma register_empty_name_orphans_account_witness :
  let req := {| auth_service.pb.rr_Email := "alice@example.com";
                auth_service.pb.rr_Password := "Secr3t!";
                auth_service.pb.rr_Name := "" |} in
  exists adb account,
    auth_service.handlers.Register Deployment.authH (Deployment.env 1000)
      (Deployment.uenv 1000) Deployment.emptyState req
    = ({| auth_service.handlers.authDB := adb;
          auth_service.handlers.userDB :=
            auth_service.handlers.userDB Deployment.emptyState |},
       Err (errors_New "name is required")) /\
    auth_service.repository.GetUserByID adb Scenario.aliceID
      = Ok (Some account) /\
    auth_service.models.Email account = "alice@example.com".
Proof.
  intros req.
  epose proof (register_empty_name_orphans_account Deployment.authH
                 (Deployment.env 1000) (Deployment.uenv 1000)
                 Deployment.emptyState req _ Scenario.aliceID) as Horphan.
  edestruct Horphan as (account & Hout & Hstored & Hemail & _).
  - vm_compute. reflexivity.
  - reflexivity.
  - right. reflexivity.
  - eexists _, account. split; [exact Hout|].
    split; [exact Hstored|exact Hemail].
Defined.

Section RegisterEndpoint.
Import api_gateway api_gateway.http api_gateway.handlers.
Context `{Bcrypt} `{jwt.Wire}.
Context `{JSONUnmarshal RegisterRequest} `{JSONMarshal RegisterResponse}.

(** X25. A duplicate email is answered 500. For a register request with
    all three fields given whose email an account already has, the gateway
    answers 500 Internal Server Error with the text [Registration failed: ]
    followed by the status error carrying [email already registered]; both
    stores are unchanged. *)
Theorem http_register_duplicate_email
    (h : auth_service.handlers.AuthHandler) (env uenv : Env)
    (w : ResponseWriter) (r : Request) (st : auth_service.handlers.State)
    (body : string) (req : RegisterRequest)
    (account : auth_service.models.User) :
  Body r = Ok body ->
  Unmarshal body = Some req ->
  reg_Email req <> "" -> reg_Name req <> "" -> reg_Password req <> "" ->
  auth_service.repository.down (auth_service.handlers.authDB st) = None ->
  In account
    (auth_service.repository.users (auth_service.handlers.authDB st)) ->
  auth_service.models.Email account = reg_Email req ->
  Register {| authClient := clients.AuthClient None h env uenv |} w r st =
    (st, Error w
           ("Registration failed: " +:+ rpcError "email already registered")
           StatusInternalServerError).
Proof.
  intros Hbody Hjson Hemail Hname Hpw Hup Hin Hsame.
  apply String.eqb_neq in Hemail, Hname, Hpw.
  unfold Register. rewrite Hbody, Hjson, Hemail, Hname, Hpw. cbn [orb].
  cbn [authClient clients.AuthClient authpb.Register invoke].
  unfold auth_service.handlers.Register.
  cbn [authpb.rr_Email authpb.rr_Password authpb.rr_Name].
  unfold auth_service.service.Register, auth_service.repository.GetUserByEmail.
  rewrite Hup.
  destruct (find_hasEmail_In _ _ account Hin Hsame) as [found ->].
  destruct st. reflexivity.
Qed.

End RegisterEndpoint.

Lemma http_register_duplicate_email_witness :
  let body := Reference.enc
                {| api_gateway.handlers.reg_Email := "alice@example.com";
                   api_gateway.handlers.reg_Password := "another password";
                   api_gateway.handlers.reg_Name := "Alice II" |} in
  api_gateway.handlers.Register (Deployment.authGateway 5000)
    api_gateway.http.NewResponse (Deployment.post body) Deployment.aliceState
  = (Deployment.aliceState,
     api_gateway.http.Error api_gateway.http.NewResponse
       ("Registration failed: " +:+ rpcError "email already registered")
       api_gateway.http.StatusInternalServerError).
Proof.
  intros body.
  eapply (http_register_duplicate_email Deployment.authH
            (Deployment.env 5000) (Deployment.uenv 5000)
            api_gateway.http.NewResponse (Deployment.post body)
            Deployment.aliceState body).
  - reflexivity.
  - vm_compute. reflexivity.
  - vm_compute. discriminate.
  - vm_compute. discriminate.
  - vm_compute. discriminate.
  - vm_compute. reflexivity.
  - vm_compute. left. reflexivity.
  - reflexivity.
Defined.

(** ** Registration, then the profile *)

Section MirrorCall.
Context `{Bcrypt} `{jwt.Wire}.
Import auth_service.handlers.

(** What a successful [Register] of the auth service has done: both
    services accepted, the profile was created under the generated id. *)
Lemma Register_Ok_mirror (h : AuthHandler) (env uenv : Env)
    (st st' : State) (req : auth_service.pb.RegisterRequest)
    (resp : auth_service.pb.RegisterResponse) :
  auth_service.handlers.Register h env uenv st req = (st', Ok resp) ->
  user_service.repository.down (userDB st) <> Some "" ->
  exists adb udb profile,
    auth_service.service.Register (authService h) (uuid env) (salt env)
      (now env) (authDB st) (auth_service.pb.rr_Email req)
      (auth_service.pb.rr_Password req) (auth_service.pb.rr_Name req)
      = (adb, Ok (uuid env)) /\
    user_service.service.CreateUser (uuid uenv) (now uenv) (userDB st)
      (uuid env) (auth_service.pb.rr_Email req)
      (auth_service.pb.rr_Name req) "" = (udb, Ok profile) /\
    st' = {| authDB := adb; userDB := udb |} /\
    auth_service.pb.rr_UserId resp = uuid env.
Proof.
  intros Hreg Hdown. revert Hreg. unfold auth_service.handlers.Register.
  destruct (auth_service.service.Register _ _ _ _ _ _ _ _)
    as [adb [userID|e]] eqn:Hcred; [|discriminate].
  destruct (Register_Ok_inv _ _ _ _ _ _ _ _ _ _ Hcred)
    as (_ & _ & _ & _ & -> & _).
  unfold invoke. destruct (userClient h); [discriminate|].
  unfold user_service.handlers.CreateUser.
  cbn [user_service.pb.cu_UserId user_service.pb.cu_Email
       user_service.pb.cu_Name user_service.pb.cu_Phone].
  destruct (user_service.service.CreateUser _ _ _ _ _ _ _)
    as [udb [profile|e]] eqn:Hprofile;
    cbn [user_service.pb.cu_Error String.eqb negb].
  - intros [= <- <-]. exists adb, udb, profile. auto.
  - destruct (String.eqb e "") eqn:He; [|discriminate]. exfalso.
    apply String.eqb_eq in He. subst e. revert Hprofile.
    unfold user_service.service.CreateUser, user_service.repository.CreateUser,
      user_service.repository.insertUser.
    destruct (String.eqb (auth_service.pb.rr_Email req) "");
      [discriminate|].
    destruct (String.eqb (auth_service.pb.rr_Name req) "");
      [discriminate|].
    destruct (user_service.repository.down (userDB st)) as [e'|] eqn:Hd.
    + intros [= _ ->]. apply Hdown. reflexivity.
    + destruct (existsb _ _); [discriminate|].
      destruct (existsb _ _); discriminate.
Qed.

End MirrorCall.

Section RegisterThenRead.
Import api_gateway api_gateway.http api_gateway.handlers.
Context `{Bcrypt} `{jwt.Wire}.
Context `{JSONUnmarshal UpdateUserRequest} `{JSONMarshal UserResponse}
        `{JSONUnmarshal RegisterRequest} `{JSONMarshal RegisterResponse}
        `{JSONUnmarshal LoginRequest} `{JSONMarshal LoginResponse}.

(** X26. Register, then read. After the auth service's [Register] has
    succeeded, a GET on the returned id by its owner is answered with the
    JSON of the profile: that id, the email and the name of the
    registration and an empty phone; the stores are unchanged. *)
Theorem http_get_profile_after_register
    (h : auth_service.handlers.AuthHandler) (env uenv uenv' : Env)
    (st st' : auth_service.handlers.State)
    (req : auth_service.pb.RegisterRequest)
    (resp : auth_service.pb.RegisterResponse)
    (w : ResponseWriter) (r : Request) :
  auth_service.handlers.Register h env uenv st req = (st', Ok resp) ->
  uuid env <> "" ->
  user_service.repository.down (auth_service.handlers.userDB st)
    <> Some "" ->
  authorizeUserAccess r = Ok (auth_service.pb.rr_UserId resp) ->
  GetUser {| userClient := clients.UserClient None uenv' |} w r st' =
    (st', Encode (SetHeader w "Content-Type" "application/json")
            {| ur_ID := auth_service.pb.rr_UserId resp;
               ur_Email := auth_service.pb.rr_Email req;
               ur_Name := auth_service.pb.rr_Name req;
               ur_Phone := "" |}).
Proof.
  intros Hreg Hid Hdown Hauth.
  destruct (Register_Ok_mirror _ _ _ _ _ _ _ Hreg Hdown)
    as (adb & udb & profile & _ & Hprofile & -> & Hresp).
  rewrite Hresp in *.
  destruct (CreateUser_Ok_inv _ _ _ _ _ _ _ _ _ Hprofile)
    as (_ & _ & _ & Hfields & _).
  assert (Hpid : user_service.models.ID profile = uuid env).
  { rewrite Hfields. cbn [user_service.models.ID].
    apply String.eqb_neq in Hid. rewrite Hid. reflexivity. }
  assert (Hget : user_service.service.GetUser udb (uuid env) = Ok profile).
  { rewrite <- Hpid. apply (GetUser_created _ _ _ _ _ _ _ _ _ Hprofile).
    congruence. }
  unfold GetUser. rewrite Hauth.
  cbn [userClient clients.UserClient userpb.GetUser invoke].
  rewrite (onUserDB_same _ _ _
             (Ok {| userpb.gu_User :=
                      Some (user_service.handlers.pbUser profile
                              (user_service.handlers.addressesOrNil udb
                                 (uuid env)));
                    userpb.gu_Error := "" |})).
  - cbn [userpb.gu_Error userpb.gu_User String.eqb negb]. do 2 f_equal.
    unfold userResponse, user_service.handlers.pbUser.
    cbn [userpb.Id userpb.Email userpb.Name userpb.Phone].
    rewrite Hpid, Hfields. reflexivity.
  - unfold user_service.handlers.GetUser.
    cbn [userpb.gu_UserId auth_service.handlers.userDB]. rewrite Hget.
    reflexivity.
Qed.

End RegisterThenRead.

Lemma http_get_profile_after_register_witness :
  api_gateway.handlers.GetUser (Deployment.userGateway 3000)
    api_gateway.http.NewResponse (Deployment.aliceOnAlice "")
    Deployment.aliceState
  = (Deployment.aliceState,
     api_gateway.http.Encode
       (api_gateway.http.SetHeader api_gateway.http.NewResponse
          "Content-Type" "application/json")
       {| api_gateway.handlers.ur_ID := Scenario.aliceID;
          api_gateway.handlers.ur_Email := "alice@example.com";
          api_gateway.handlers.ur_Name := "Alice";
          api_gateway.handlers.ur_Phone := "" |}).
Proof.
  eapply (http_get_profile_after_register Deployment.authH
            (Deployment.env 1000) (Deployment.uenv 1000)
            (Deployment.uenv 3000) Deployment.emptyState
            Deployment.aliceState Deployment.registerAlice
            {| auth_service.pb.rr_UserId := Scenario.aliceID;
               auth_service.pb.rr_Message := "User registered successfully" |}
            api_gateway.http.NewResponse (Deployment.aliceOnAlice "")).
  - vm_compute. reflexivity.
  - vm_compute. discriminate.
  - vm_compute. discriminate.
  - vm_compute. reflexivity.
Defined.

(** ** Addresses through the gateway *)

Section AddressRoundTrip.
Import api_gateway api_gateway.http api_gateway.handlers.
Context `{JSONUnmarshal AddAddressRequest} `{JSONMarshal AddressResponse}
        `{JSONMarshal (list AddressResponse)}.

Abbreviation State := auth_service.handlers.State.




End AddressRoundTrip.


Section AddressesOfDeleted.
Import user_service.models user_service.repository.

(** X28. Addresses outlive the profile. A successful [DeleteUser] leaves
    the address table as it was: [GetAddresses] answers as before for every
    id, and [AddAddress] for the deleted user answers as it would have
    before the delete, so it can still succeed. *)
Theorem addresses_survive_delete (now : Z) (db db' : DB) (userID : string) :
  user_service.service.DeleteUser now db userID = (db', Ok tt) ->
  addresses db' = addresses db /\
  (forall id,
     user_service.service.GetAddresses db' id
       = user_service.service.GetAddresses db id) /\
  (forall newID now' id street city state postalCode country isDefault,
     (user_service.service.AddAddress newID now' db' id street city state
        postalCode country isDefault).2
     = (user_service.service.AddAddress newID now' db id street city state
          postalCode country isDefault).2).
Proof.
  unfold user_service.service.DeleteUser, DeleteUser.
  destruct (String.eqb userID ""); [discriminate|].
  destruct (down db) eqn:Hup; [discriminate|].
  intros [= <-]. split; [reflexivity|]. split.
  - intros id. unfold user_service.service.GetAddresses, GetAddressesByUserID.
    cbn [withUsers down addresses]. reflexivity.
  - intros newID now' id street city state postalCode country isDefault.
    unfold user_service.service.AddAddress, AddAddress, insertAddress.
    destruct (String.eqb id ""); [reflexivity|].
    destruct (_ || _); [reflexivity|].
    cbn [withUsers down addresses users AddressID UserID String.eqb].
    rewrite Hup.
    destruct (existsb _ (addresses db)); [reflexivity|].
    assert (existsb (hasID id) (map (deleteRow now userID) (users db))
            = existsb (hasID id) (users db)) as ->.
    { induction (users db) as [|row rows IH]; [reflexivity|].
      cbn [map existsb]. rewrite IH. f_equal.
      unfold deleteRow, hasID. destruct (String.eqb (ID row) userID);
        reflexivity. }
    destruct (negb _); reflexivity.
Qed.

End AddressesOfDeleted.

Lemma addresses_survive_delete_witness :
  let db' := (user_service.service.DeleteUser 4000 Deployment.aliceHomeDB
                Scenario.aliceID).1 in
  user_service.service.GetAddresses db' Scenario.aliceID
  = user_service.service.GetAddresses Deployment.aliceHomeDB Scenario.aliceID.
Proof.
  intros db'.
  destruct (addresses_survive_delete 4000 Deployment.aliceHomeDB db'
              Scenario.aliceID) as (_ & Hlist & _).
  - vm_compute. reflexivity.
  - apply Hlist.
Defined.
